(** * NoSQL-Generate: the code-generation pipeline

    A shallow embedding of the four backend generator modules
    (mongodbGenerator.js, firebaseGenerator.js, dynamodbGenerator.js,
    couchdbGenerator.js) and of the dispatcher generateNoSQL of
    nosqlGenerator.js, followed by the properties of the specification
    that were checked against them. The checks of validateJson, the
    metrics and sortJsonKeys of jsonFormatter.js, and escapeHtml and the
    case converters of utils.js are embedded as well, with properties
    that their code has.

    Conventions of the embedding.
    - A JavaScript string is a [string], and a string is enumerated
      character by character. toLowerCase and toUpperCase are those of
      the source on ASCII text; a statement that depends on the upper case
      of a first letter is made for keys that begin with an ASCII
      character ([asciiInitial]).
    - A JavaScript number is a safe integer, held in [Z]; String prints it
      as its decimal numeral. The generators only ever print a number or
      test its truthiness. Fractions and the numbers that String prints
      with an exponent have no value here, and the statements about the
      text of a number are made for safe integers ([isSafeInteger]).
    - A Date instance is [VDate iso], [iso] being the text its toISOString
      method returns.
    - An object is the list of its own enumerable properties in the order
      Object.entries enumerates them.
    - generateId and the clock are oracles held by the [World]; every call
      consumes one answer of its oracle, and generateId() in its long
      form, which reads new Date().getTime(), a reading of the clock as
      well.
    - A callback that only appends to the enclosing [result] variable is
      modelled by the text it appends. *)

From Stdlib Require Import String Ascii List ZArith Lia Bool Arith DecimalString.
From Stdlib Require DecimalZ DecimalPos.
Import ListNotations.
Open Scope string_scope.

Set Implicit Arguments.
Set Warnings "-register-all".

(* ================================================================== *)
(** ** The JavaScript runtime used by the generators *)
(* ================================================================== *)

Module JS.

(** The double quote, the backslash and the line feed. *)
Definition dqc : ascii := ascii_of_nat 34.
Definition bsc : ascii := ascii_of_nat 92.
Definition dq : string := String dqc EmptyString.
Definition nl : string := String (ascii_of_nat 10) EmptyString.

Inductive value : Type :=
| VNull
| VBool (b : bool)
| VNum (n : Z)
| VStr (s : string)
| VDate (iso : string)
| VArr (items : list value)
| VObj (fields : list (string * value)).

Inductive Error : Type :=
| TypeError (msg : string)
| PlainError (msg : string).


(** String(n) for a safe integer [n]: its decimal numeral, with a minus
    sign when it is negative. String prints a number from 1e21 on in
    exponent notation and a fraction with its decimal point; neither is a
    value of the embedding, and no statement is made there. *)
Definition numberToString (n : Z) : string := NilZero.string_of_int (Z.to_int n).


(** String(n) for an index or a count, and String(b). *)
Definition natToString (n : nat) : string := NilZero.string_of_uint (Nat.to_uint n).
Definition boolToString (b : bool) : string := if b then "true" else "false".

(** value.replace(/[dq]/g, [bs][dq]) : every double quote gets a backslash. *)
Fixpoint escapeQuotes (s : string) : string :=
  match s with
  | EmptyString => EmptyString
  | String c r =>
      if Ascii.eqb c dqc then String bsc (String dqc (escapeQuotes r))
      else String c (escapeQuotes r)
  end.

(** arr.join(sep) *)
Definition join (sep : string) (l : list string) : string := String.concat sep l.

(** s.includes(sub) *)
Fixpoint includes (s sub : string) : bool :=
  String.prefix sub s ||
  match s with
  | EmptyString => false
  | String _ r => includes r sub
  end.

(** s.endsWith(suffix) *)
Fixpoint endsWith (s suffix : string) : bool :=
  String.eqb s suffix ||
  match s with
  | EmptyString => false
  | String _ r => endsWith r suffix
  end.

Definition isUpper (c : ascii) : bool :=
  Nat.leb 65 (nat_of_ascii c) && Nat.leb (nat_of_ascii c) 90.
Definition isLower (c : ascii) : bool :=
  Nat.leb 97 (nat_of_ascii c) && Nat.leb (nat_of_ascii c) 122.
Definition isDigit (c : ascii) : bool :=
  Nat.leb 48 (nat_of_ascii c) && Nat.leb (nat_of_ascii c) 57.

Definition lowerChar (c : ascii) : ascii :=
  if isUpper c then ascii_of_nat (nat_of_ascii c + 32) else c.
Definition upperChar (c : ascii) : ascii :=
  if isLower c then ascii_of_nat (nat_of_ascii c - 32) else c.

(** s.toLowerCase() *)
Fixpoint toLowerCase (s : string) : string :=
  match s with
  | EmptyString => EmptyString
  | String c r => String (lowerChar c) (toLowerCase r)
  end.

(** key.charAt(0).toUpperCase() + key.slice(1), for a key whose first
    character is an ASCII character: a small letter a-z becomes the
    capital letter, any other ASCII character stays. The upper case of a
    non-ASCII letter is not modelled; the statements about capitalized
    names are made for keys that begin with an ASCII character. *)
Definition capitalize (key : string) : string :=
  match key with
  | EmptyString => EmptyString
  | String c r => String (upperChar c) r
  end.

(** s.slice(0, -1) *)
Fixpoint dropLast (s : string) : string :=
  match s with
  | EmptyString => EmptyString
  | String c EmptyString => EmptyString
  | String c r => String c (dropLast r)
  end.

(** The test of the regular expression ^\d{4}-\d{2}-\d{2} *)
Definition isDash (c : ascii) : bool := Ascii.eqb c "-"%char.
Definition matchesDatePrefix (s : string) : bool :=
  match s with
  | String y1 (String y2 (String y3 (String y4 (String d1
      (String m1 (String m2 (String d2 (String a1 (String a2 _))))))))) =>
      isDigit y1 && isDigit y2 && isDigit y3 && isDigit y4 && isDash d1 &&
      isDigit m1 && isDigit m2 && isDash d2 && isDigit a1 && isDigit a2
  | _ => false
  end.

(** *** Own properties and their enumeration order

    Array indices come first, in ascending order, then the other names in
    the order of their creation. *)

Fixpoint digitsValue (s : string) (acc : N) : option N :=
  match s with
  | EmptyString => Some acc
  | String c r =>
      if isDigit c
      then digitsValue r (10 * acc + N.of_nat (nat_of_ascii c - 48))%N
      else None
  end.

Definition arrayIndex (s : string) : option N :=
  match s with
  | EmptyString => None
  | String c r =>
      if Ascii.eqb c "0"%char
      then match r with EmptyString => Some 0%N | _ => None end
      else match digitsValue s 0%N with
           | Some n => if (n <=? 4294967294)%N then Some n else None
           | None => None
           end
  end.

Section OwnProperties.
Variable A : Type.
Definition props := list (string * A).

Fixpoint getOwn (k : string) (o : props) : option A :=
  match o with
  | [] => None
  | (k', v) :: o' => if String.eqb k' k then Some v else getOwn k o'
  end.

Fixpoint replaceOwn (k : string) (v : A) (o : props) : props :=
  match o with
  | [] => []
  | (k', v') :: o' =>
      if String.eqb k' k then (k', v) :: o' else (k', v') :: replaceOwn k v o'
  end.

Fixpoint insertIndex (n : N) (k : string) (v : A) (o : props) : props :=
  match o with
  | [] => [(k, v)]
  | (k', v') :: o' =>
      match arrayIndex k' with
      | Some m => if (m <? n)%N then (k', v') :: insertIndex n k v o'
                  else (k, v) :: o
      | None => (k, v) :: o
      end
  end.

Definition createOwn (k : string) (v : A) (o : props) : props :=
  match arrayIndex k with
  | Some n => insertIndex n k v o
  | None => (o ++ [(k, v)])%list
  end.

(** The effect of o[k] = v on the own properties of an ordinary object
    (for a name other than __proto__). *)
Definition setOwn (k : string) (v : A) (o : props) : props :=
  match getOwn k o with
  | Some _ => replaceOwn k v o
  | None => createOwn k v o
  end.
End OwnProperties.

(** The names every ordinary object inherits from Object.prototype; all of
    them hold a truthy value that has no push method. *)
Definition objectPrototypeNames : list string :=
  [ "constructor"; "__defineGetter__"; "__defineSetter__"; "hasOwnProperty";
    "__lookupGetter__"; "__lookupSetter__"; "isPrototypeOf";
    "propertyIsEnumerable"; "toString"; "valueOf"; "__proto__";
    "toLocaleString" ].

Definition inList (k : string) (l : list string) : bool :=
  existsb (String.eqb k) l.

(** *** Object.entries *)

Fixpoint indexed (A : Type) (l : list A) (i : nat) : list (string * A) :=
  match l with
  | [] => []
  | x :: l' => (natToString i, x) :: indexed l' (S i)
  end.

Fixpoint chars (s : string) : list value :=
  match s with
  | EmptyString => []
  | String c r => VStr (String c EmptyString) :: chars r
  end.

Definition cannotConvert : Error :=
  TypeError "Cannot convert undefined or null to object".

(** Object.entries(v); [None] stands for undefined. *)
Definition entries (v : option value) : Error + list (string * value) :=
  match v with
  | None | Some VNull => inl cannotConvert
  | Some (VObj fields) => inr fields
  | Some (VArr items) => inr (indexed items 0)
  | Some (VStr s) => inr (indexed (chars s) 0)
  | Some (VBool _) | Some (VNum _) | Some (VDate _) => inr []
  end.

Definition isArray (v : value) : bool :=
  match v with VArr _ => true | _ => false end.

(** typeof v === 'object' && v !== null && !Array.isArray(v) *)
Definition isPlainObject (v : value) : bool :=
  match v with VObj _ | VDate _ => true | _ => false end.

(** ... && Object.keys(v).length > 0 *)
Definition isNonEmptyObject (v : value) : bool :=
  match v with VObj (_ :: _) => true | _ => false end.

(** Array.isArray(v) && v.length > 0 && typeof v[0] === 'object' && v[0] !== null *)
Definition isArrayOfObjects (v : value) : bool :=
  match v with
  | VArr (VObj _ :: _) | VArr (VArr _ :: _) | VArr (VDate _ :: _) => true
  | _ => false
  end.

(** !v *)
Definition falsy (v : value) : bool :=
  match v with
  | VNull | VBool false | VStr EmptyString => true
  | VNum n => Z.eqb n 0
  | _ => false
  end.

End JS.
Export JS.

(* ================================================================== *)
(** ** Ambient effects: identifiers, clock, exceptions *)
(* ================================================================== *)

Module Eff.

(** The answers of generateId (by its [short] flag) and of
    new Date().toISOString(), and how many answers of generateId and how
    many readings of the clock were consumed. *)
Record World : Type := mkWorld {
  idOracle : bool -> nat -> string;
  clockOracle : nat -> string;
  idCalls : nat;
  clockCalls : nat
}.

Inductive Outcome (A : Type) : Type :=
| Return (a : A) (w : World)
| Throw (e : Error).
Arguments Throw {A} e.

Definition M (A : Type) : Type := World -> Outcome A.

Definition ret (A : Type) (a : A) : M A := fun w => Return a w.
Definition throw (A : Type) (e : Error) : M A := fun _ => Throw e.
Definition bind (A B : Type) (m : M A) (k : A -> M B) : M B :=
  fun w => match m w with
           | Return a w' => k a w'
           | Throw e => Throw e
           end.

Arguments ret {A} a.
Arguments throw {A} e.
Arguments bind {A B} m k.

Definition lift (A : Type) (r : Error + A) : M A :=
  match r with
  | inl e => throw e
  | inr a => ret a
  end.

(** generateId(short). The short form is a slice of one Math.random
    numeral. The long form, a MongoDB-style ObjectId, is the seconds of
    new Date().getTime() followed by three Math.random numerals: besides
    its answer of the identifier oracle it consumes one reading of the
    clock. *)
Definition generateId (short : bool) : M string :=
  fun w => Return (idOracle w short (idCalls w))
                  (mkWorld (idOracle w) (clockOracle w) (S (idCalls w))
                           (if short then clockCalls w else S (clockCalls w))).

(** new Date().toISOString() *)
Definition nowISO : M string :=
  fun w => Return (clockOracle w (clockCalls w))
                  (mkWorld (idOracle w) (clockOracle w) (idCalls w) (S (clockCalls w))).

End Eff.
Export Eff.

Declare Scope gen_scope.
Delimit Scope gen_scope with gen.
Notation "x <- m ;; k" := (bind m (fun x => k))
  (at level 61, m at next level, right associativity) : gen_scope.
Open Scope gen_scope.

(** arr.forEach((item, index) => ...) for a callback that appends text to
    [result]: the texts appended, in order. *)
Fixpoint forEach (A : Type) (f : A -> nat -> M string) (l : list A) (index : nat)
  : M string :=
  match l with
  | [] => ret EmptyString
  | x :: l' =>
      s <- f x index ;;
      rest <- forEach f l' (S index) ;;
      ret (s ++ rest)
  end.

(** The same for a callback that throws nothing and reads no oracle. *)
Fixpoint forEachPure (A : Type) (f : A -> nat -> string) (l : list A) (index : nat)
  : string :=
  match l with
  | [] => EmptyString
  | x :: l' => f x index ++ forEachPure f l' (S index)
  end.

(** if (cond) { result += ... } *)
Definition when (cond : bool) (m : M string) : M string :=
  if cond then m else ret EmptyString.

(** The generation options. The callers set the three flags; dbName and
    sortKey are read by some generators; collectionName and tableName are
    the remaining names the specification lists. *)
Record Options : Type := mkOptions {
  addIds : bool;
  addTimestamps : bool;
  addIndexes : bool;
  dbName : option string;
  sortKey : option string;
  collectionName : option string;
  tableName : option string
}.

(** options.name || fallback *)
Definition orElse (o : option string) (fallback : string) : string :=
  match o with
  | Some EmptyString | None => fallback
  | Some s => s
  end.

(** if (options.name) *)
Definition truthyOpt (o : option string) : bool :=
  match o with
  | Some EmptyString | None => false
  | Some _ => true
  end.

(** i < n - 1 ? ',' : '' *)
Definition commaUnlessLast (i n : nat) : string :=
  if Nat.ltb (S i) n then "," else EmptyString.

(* ================================================================== *)
(** ** The index advisor: the scan that fills indexFields

    The scan is the same text in the four generator modules. *)
(* ================================================================== *)

Definition idHeuristic (key : string) : bool :=
  includes (toLowerCase key) "id" || endsWith (toLowerCase key) "_id".

Definition dateHeuristic (key : string) (v : value) : bool :=
  match v with VStr s => matchesDatePrefix s | _ => false end ||
  match v with VDate _ => true | _ => false end ||
  includes (toLowerCase key) "date" ||
  includes (toLowerCase key) "time".

Definition nameHeuristic (key : string) : bool :=
  includes (toLowerCase key) "name" ||
  includes (toLowerCase key) "email" ||
  includes (toLowerCase key) "username".

(** The pushes one field makes onto indexFields. *)
Definition fieldPushes (kv : string * value) : list string :=
  let (key, v) := kv in
  ((if idHeuristic key then [key] else []) ++
   (if dateHeuristic key v then [key] else []) ++
   (if nameHeuristic key then [key] else []))%list.

Definition indexFields (jsonData : value) : Error + list string :=
  match jsonData with
  | VArr (sampleItem :: _) =>
      match entries (Some sampleItem) with
      | inl e => inl e
      | inr fields => inr (flat_map fieldPushes fields)
      end
  | _ => inr []
  end.

(* ================================================================== *)
(** ** flattenObject

    The four modules differ in the separator only. The object under
    construction is its own properties together with whether its prototype
    has been set to null (an assignment to __proto__ creates no property
    while the accessor is inherited). *)
(* ================================================================== *)

Record Flattened : Type := mkFlattened {
  protoNull : bool;
  own : list (string * value)
}.

Definition emptyObject : Flattened := mkFlattened false [].

(** flattened[k] = v *)
Definition assign (k : string) (v : value) (o : Flattened) : Flattened :=
  if String.eqb k "__proto__" && negb (protoNull o) then
    match v with
    | VNull => mkFlattened true (own o)
    | _ => o
    end
  else mkFlattened (protoNull o) (setOwn k v (own o)).

(** Object.assign(target, source) *)
Definition objectAssign (target source : Flattened) : Flattened :=
  fold_left (fun acc kv => assign (fst kv) (snd kv) acc) (own source) target.

Definition newKey (sep prefix key : string) : string :=
  match prefix with
  | EmptyString => key
  | _ => prefix ++ sep ++ key
  end.

Section Flatten.
Variable sep : string.

(** The callback of Object.entries(obj).forEach, [key] being its newKey:
    an object-valued field is flattened on its own, under the prefix
    newKey, and merged; any other value is stored under newKey. *)
Fixpoint flattenEntry (v : value) (key : string) (flattened : Flattened)
         {struct v} : Flattened :=
  match v with
  | VObj sub =>
      objectAssign flattened
        (fold_left
           (fun acc kv => flattenEntry (snd kv) (newKey sep key (fst kv)) acc)
           sub emptyObject)
  | VDate _ => objectAssign flattened emptyObject
  | _ => assign key v flattened
  end.

Definition flattenFields (fields : list (string * value)) (prefix : string)
           (flattened : Flattened) : Flattened :=
  fold_left
    (fun acc kv => flattenEntry (snd kv) (newKey sep prefix (fst kv)) acc)
    fields flattened.

(** flattenObject(obj, prefix); the recursive call of the source on an
    object-valued field is the call of [flattenFields] on its entries. *)
Definition flattenObjectAt (obj : option value) (prefix : string)
  : Error + list (string * value) :=
  match entries obj with
  | inl e => inl e
  | inr fields => inr (own (flattenFields fields prefix emptyObject))
  end.

(** flattenObject(obj), the prefix taking its default ''. *)
Definition flattenObjectWith (obj : option value) : Error + list (string * value) :=
  flattenObjectAt obj EmptyString.
End Flatten.

(* ================================================================== *)
(** ** The value serializers

    mongoValueToString, firebaseValueToString, dynamoValueToString and
    couchValueToString differ in the branch of a Date instance only. *)
(* ================================================================== *)

Section ValueToString.
Variable dateLiteral : string -> string.

Fixpoint valueToStringWith (v : value) : string :=
  match v with
  | VNull => "null"
  | VStr s => dq ++ escapeQuotes s ++ dq
  | VNum n => numberToString n
  | VBool b => boolToString b
  | VDate iso => dateLiteral iso
  | VArr items => "[" ++ join ", " (map valueToStringWith items) ++ "]"
  | VObj fields =>
      let entries :=
        map (fun kv => fst kv ++ ": " ++ valueToStringWith (snd kv)) fields in
      "{ " ++ join ", " entries ++ " }"
  end.
End ValueToString.

(** One line of a document: key, serialized value, separating comma. *)
Definition fieldLine (indent : string) (toString : value -> string) (count : nat)
           (kv : string * value) (i : nat) : string :=
  indent ++ fst kv ++ ": " ++ toString (snd kv) ++ commaUnlessLast i count ++ nl.

(** const dataArray = Array.isArray(jsonData) ? jsonData : [jsonData] *)
Definition dataArrayOf (jsonData : value) : list value :=
  match jsonData with
  | VArr items => items
  | _ => [jsonData]
  end.

(** Object.keys(jsonData).length > 0 ? Object.keys(jsonData)[0] : fallback *)
Definition firstKeyOr (jsonData : value) (fallback : string) : Error + string :=
  match entries (Some jsonData) with
  | inl e => inl e
  | inr [] => inr fallback
  | inr ((k, _) :: _) => inr k
  end.

(* ================================================================== *)
(** ** Reference extraction

    extractReferencedCollections (Mongo, Firebase), extractEntities
    (DynamoDB) and extractReferencedDocTypes (CouchDB) are one traversal;
    they differ in the name they give to the group of an object-valued
    field and to the group of an array of objects. *)
(* ================================================================== *)

(** The object that maps a group name to its items: the names it inherits
    (each holds a truthy value without a push method) and its own
    properties. *)
Record Store : Type := mkStore {
  inheritedNames : list string;
  members : list (string * list value)
}.

(** const collections = {} *)
Definition newStore : Store := mkStore objectPrototypeNames [].

(** The method names an array instance finds on Array.prototype. *)
Definition arrayPrototypeNames : list string :=
  [ "at"; "concat"; "copyWithin"; "entries"; "every"; "fill"; "filter"; "find";
    "findIndex"; "findLast"; "findLastIndex"; "flat"; "flatMap"; "forEach";
    "includes"; "indexOf"; "join"; "keys"; "lastIndexOf"; "map"; "pop"; "push";
    "reduce"; "reduceRight"; "reverse"; "shift"; "slice"; "some"; "sort";
    "splice"; "toLocaleString"; "toString"; "unshift"; "values" ].

(** collections[name] = items, the first assignment of a generator. Under
    the name __proto__ the array becomes the prototype and no property is
    created. *)
Definition assignMain (name : string) (items : list value) (store : Store) : Store :=
  if String.eqb name "__proto__"
  then mkStore (arrayPrototypeNames ++ inheritedNames store)%list (members store)
  else mkStore (inheritedNames store) (setOwn name items (members store)).

Definition pushNotAFunction : Error := TypeError "push is not a function".

(** if (!collections[name]) { collections[name] = []; }
    collections[name].push(...items) *)
Definition pushAll (name : string) (items : list value) (store : Store)
  : Error + Store :=
  match getOwn name (members store) with
  | Some old =>
      inr (mkStore (inheritedNames store)
                   (replaceOwn name (old ++ items)%list (members store)))
  | None =>
      if inList name (inheritedNames store) then inl pushNotAFunction
      else inr (mkStore (inheritedNames store)
                        (createOwn name items (members store)))
  end.

Definition bindE (A B : Type) (r : Error + A) (k : A -> Error + B) : Error + B :=
  match r with
  | inl e => inl e
  | inr a => k a
  end.

Fixpoint foldE (A St : Type) (f : A -> St -> Error + St) (l : list A) (s : St)
  : Error + St :=
  match l with
  | [] => inr s
  | x :: l' => bindE (f x s) (foldE f l')
  end.

Fixpoint foldIndexedE (A St : Type) (f : string -> A -> St -> Error + St)
         (l : list A) (i : nat) (s : St) : Error + St :=
  match l with
  | [] => inr s
  | x :: l' => bindE (f (natToString i) x s) (foldIndexedE f l' (S i))
  end.

Section Extraction.
(** The group of an object-valued field, and of an array of objects. *)
Variable objectGroup : string -> string.
Variable arrayGroup : string -> string.

(** The callback item => Object.entries(item).forEach(...). The
    characters of a string item are neither objects nor arrays, so a
    string item, like a number or a boolean, adds nothing. *)
Fixpoint extractItem (item : value) (store : Store) {struct item}
  : Error + Store :=
  let visit (key : string) (v : value) (store : Store) : Error + Store :=
    match v with
    | VObj (_ :: _) => pushAll (objectGroup key) [v] store
    | VArr elems =>
        if isArrayOfObjects v
        then bindE (pushAll (arrayGroup key) elems store)
                   (fun store' => foldE extractItem elems store')
        else inr store
    | _ => inr store
    end in
  match item with
  | VNull => inl cannotConvert
  | VObj fields => foldE (fun kv => visit (fst kv) (snd kv)) fields store
  | VArr elems => foldIndexedE visit elems 0 store
  | VStr _ | VNum _ | VBool _ | VDate _ => inr store
  end.

(** extract...(items, collections) *)
Definition extractWith (items : list value) (store : Store) : Error + Store :=
  foldE extractItem items store.
End Extraction.

(** key.endsWith('s') ? key : key + 's' *)
Definition pluralName (key : string) : string :=
  if endsWith key "s" then key else key ++ "s".

(** name.endsWith('s') ? name.slice(0, -1) : name *)
Definition singularName (name : string) : string :=
  if endsWith name "s" then dropLast name else name.

(** The column of a table of a switch on the structure name. *)
Inductive Structure : Type := Nested | Flat | References | Arrays.

(** switch (structure): any unknown name takes the default branch, which
    is the nested one. *)
Definition structureOf (structure : string) : Structure :=
  if String.eqb structure "flat" then Flat
  else if String.eqb structure "references" then References
  else if String.eqb structure "arrays" then Arrays
  else Nested.

(* ================================================================== *)
(** ** mongodbGenerator.js *)
(* ================================================================== *)

Module Mongo.

Definition mongoValueToString : value -> string :=
  valueToStringWith (fun iso => "ISODate(" ++ dq ++ iso ++ dq ++ ")").

Definition flattenObject : option value -> Error + list (string * value) :=
  flattenObjectWith ".".

Definition extractReferencedCollections : list value -> Store -> Error + Store :=
  extractWith pluralName pluralName.

Definition idLine (indent : string) : M string :=
  id <- generateId false ;;
  ret (indent ++ "_id: ObjectId(" ++ dq ++ id ++ dq ++ ")," ++ nl).

Definition timestampLines (indent : string) : M string :=
  now <- nowISO ;;
  ret (indent ++ "createdAt: ISODate(" ++ dq ++ now ++ dq ++ ")," ++ nl ++
       indent ++ "updatedAt: ISODate(" ++ dq ++ now ++ dq ++ ")," ++ nl).

Definition generateNestedDocuments (jsonData : value) (collectionName : string)
           (options : Options) : M string :=
  let dataArray := dataArrayOf jsonData in
  docs <- forEach (fun item index =>
            ids <- when (addIds options) (idLine "    ") ;;
            stamps <- when (addTimestamps options) (timestampLines "    ") ;;
            fields <- lift (entries (Some item)) ;;
            ret ("  {" ++ nl ++ ids ++ stamps ++
                 forEachPure (fieldLine "    " mongoValueToString (length fields))
                             fields 0 ++
                 "  }" ++ commaUnlessLast index (length dataArray) ++ nl))
          dataArray 0 ;;
  ret ("// Nested document structure" ++ nl ++
       "db." ++ collectionName ++ ".insertMany([" ++ nl ++
       docs ++
       "]);" ++ nl ++ nl).

Definition generateFlatDocuments (jsonData : value) (collectionName : string)
           (options : Options) : M string :=
  let dataArray := dataArrayOf jsonData in
  docs <- forEach (fun item index =>
            ids <- when (addIds options) (idLine "    ") ;;
            stamps <- when (addTimestamps options) (timestampLines "    ") ;;
            flattenedObject <- lift (flattenObject (Some item)) ;;
            ret ("  {" ++ nl ++ ids ++ stamps ++
                 forEachPure (fieldLine "    " mongoValueToString
                                        (length flattenedObject))
                             flattenedObject 0 ++
                 "  }" ++ commaUnlessLast index (length dataArray) ++ nl))
          dataArray 0 ;;
  ret ("// Flat document structure" ++ nl ++
       "db." ++ collectionName ++ ".insertMany([" ++ nl ++
       docs ++
       "]);" ++ nl ++ nl).

(** The callback over the fields of a referenced document. *)
Definition referencedField (count : nat) (kv : string * value) (i : nat) : M string :=
  if isNonEmptyObject (snd kv)
  then id <- generateId false ;;
       ret ("    " ++ fst kv ++ "Ref: ObjectId(" ++ dq ++ id ++ dq ++ ")," ++ nl)
  else ret (fieldLine "    " mongoValueToString count kv i).

Definition referencedCollection (options : Options)
           (entry : string * list value) (_ : nat) : M string :=
  let (collection, items) := entry in
  docs <- forEach (fun item index =>
            ids <- when (addIds options) (idLine "    ") ;;
            stamps <- when (addTimestamps options) (timestampLines "    ") ;;
            fields <- lift (entries (Some item)) ;;
            lines <- forEach (referencedField (length fields)) fields 0 ;;
            ret ("  {" ++ nl ++ ids ++ stamps ++ lines ++
                 "  }" ++ commaUnlessLast index (length items) ++ nl))
          items 0 ;;
  ret ("// Collection: " ++ collection ++ nl ++
       "db." ++ collection ++ ".insertMany([" ++ nl ++
       docs ++
       "]);" ++ nl ++ nl).

Definition generateReferencedDocuments (jsonData : value) (collectionName : string)
           (options : Options) : M string :=
  let dataArray := dataArrayOf jsonData in
  collections <- lift (extractReferencedCollections dataArray
                         (assignMain collectionName dataArray newStore)) ;;
  body <- forEach (referencedCollection options) (members collections) 0 ;;
  ret ("// Referenced document structure" ++ nl ++ body).

Definition generateArrayBasedDocuments (jsonData : value) (collectionName : string)
           (options : Options) : M string :=
  let dataArray := dataArrayOf jsonData in
  ids <- when (addIds options) (idLine "  ") ;;
  stamps <- when (addTimestamps options) (timestampLines "  ") ;;
  items <- forEach (fun item index =>
             itemId <- when (addIds options) (idLine "      ") ;;
             fields <- lift (entries (Some item)) ;;
             ret ("    {" ++ nl ++ itemId ++
                  forEachPure (fieldLine "      " mongoValueToString (length fields))
                              fields 0 ++
                  "    }" ++ commaUnlessLast index (length dataArray) ++ nl))
           dataArray 0 ;;
  ret ("// Array-based document structure" ++ nl ++
       "db." ++ collectionName ++ ".insertOne({" ++ nl ++
       ids ++ stamps ++
       "  items: [" ++ nl ++
       items ++
       "  ]" ++ nl ++
       "});" ++ nl ++ nl).

(** The rendering of a non-empty indexFields. *)
Definition renderIndexes (collectionName : string) (fields : list string) : string :=
  forEachPure (fun field _ =>
      "db." ++ collectionName ++ ".createIndex({ " ++ field ++ ": 1 }, { name: " ++
      dq ++ field ++ "_index" ++ dq ++ " });" ++ nl) fields 0 ++
  (if Nat.ltb 1 (length fields)
   then nl ++ "// Compound Index Suggestion" ++ nl ++
        "db." ++ collectionName ++ ".createIndex({ " ++
        forEachPure (fun field index =>
            field ++ ": 1" ++ (if Nat.ltb index 1 then ", " else EmptyString))
          (firstn 2 fields) 0 ++
        " }, { name: " ++ dq ++ "compound_index" ++ dq ++ " });" ++ nl
   else EmptyString).

Definition generateIndexSuggestions (jsonData : value) (collectionName : string)
  : M string :=
  fields <- lift (indexFields jsonData) ;;
  ret ("// Index Suggestions" ++ nl ++
       match fields with
       | [] => "// No obvious index candidates found in this data structure" ++ nl
       | _ => renderIndexes collectionName fields
       end).

(** const collectionName = Array.isArray(jsonData) ? 'items' : ... *)
Definition collectionNameOf (jsonData : value) : Error + string :=
  if isArray jsonData then inr "items" else firstKeyOr jsonData "collection".

Definition header : string :=
  "// MongoDB Shell Commands" ++ nl ++
  "// Run these commands in MongoDB shell or MongoDB Compass" ++ nl ++ nl.

Definition generateMongoDBDocuments (jsonData : value) (structure : string)
           (options : Options) : M string :=
  collectionName <- lift (collectionNameOf jsonData) ;;
  body <- match structureOf structure with
          | Nested => generateNestedDocuments jsonData collectionName options
          | Flat => generateFlatDocuments jsonData collectionName options
          | References => generateReferencedDocuments jsonData collectionName options
          | Arrays => generateArrayBasedDocuments jsonData collectionName options
          end ;;
  indexes <- when (addIndexes options)
                  (generateIndexSuggestions jsonData collectionName) ;;
  ret (header ++
       "use " ++ orElse (dbName options) "nosql_generator_db" ++ ";" ++ nl ++ nl ++
       body ++ indexes).

End Mongo.

(* ================================================================== *)
(** ** firebaseGenerator.js *)
(* ================================================================== *)

Module Firebase.

Definition firebaseValueToString : value -> string :=
  valueToStringWith (fun iso => "new Date(" ++ dq ++ iso ++ dq ++ ")").

Definition flattenObject : option value -> Error + list (string * value) :=
  flattenObjectWith "_".

Definition extractReferencedCollections : list value -> Store -> Error + Store :=
  extractWith pluralName pluralName.

Definition timestampLines : string :=
  "    createdAt: serverTimestamp()," ++ nl ++
  "    updatedAt: serverTimestamp()," ++ nl.

(** The opening of one document: setDoc under a generated id, or addDoc. *)
Definition openDocument (options : Options) (index : nat) : M string :=
  if addIds options
  then docId <- generateId true ;;
       ret ("  const docRef" ++ natToString (index + 1) ++
            " = doc(collectionRef, " ++ dq ++ docId ++ dq ++ ");" ++ nl ++
            "  await setDoc(docRef" ++ natToString (index + 1) ++ ", {" ++ nl)
  else ret ("  await addDoc(collectionRef, {" ++ nl).

Definition collectionRefLine (collectionName : string) : string :=
  "  const collectionRef = collection(db, " ++ dq ++ collectionName ++ dq ++ ");" ++
  nl ++ nl.

Definition generateNestedDocuments (jsonData : value) (collectionName : string)
           (options : Options) : M string :=
  let dataArray := dataArrayOf jsonData in
  docs <- forEach (fun item index =>
            opening <- openDocument options index ;;
            fields <- lift (entries (Some item)) ;;
            ret ("  // Document " ++ natToString (index + 1) ++ nl ++
                 opening ++
                 (if addTimestamps options then timestampLines else EmptyString) ++
                 forEachPure (fieldLine "    " firebaseValueToString (length fields))
                             fields 0 ++
                 "  });" ++ nl ++ nl))
          dataArray 0 ;;
  ret ("// Nested document structure" ++ nl ++
       "// Function to add documents to Firestore" ++ nl ++
       "async function addNestedDocuments() {" ++ nl ++
       collectionRefLine collectionName ++
       docs ++
       "  console.log(" ++ dq ++ natToString (length dataArray) ++
       " documents added to " ++ collectionName ++ " collection" ++ dq ++ ");" ++ nl ++
       "}" ++ nl ++ nl).

Definition generateFlatDocuments (jsonData : value) (collectionName : string)
           (options : Options) : M string :=
  let dataArray := dataArrayOf jsonData in
  docs <- forEach (fun item index =>
            flattenedObject <- lift (flattenObject (Some item)) ;;
            opening <- openDocument options index ;;
            ret ("  // Document " ++ natToString (index + 1) ++ nl ++
                 opening ++
                 (if addTimestamps options then timestampLines else EmptyString) ++
                 forEachPure (fieldLine "    " firebaseValueToString
                                        (length flattenedObject))
                             flattenedObject 0 ++
                 "  });" ++ nl ++ nl))
          dataArray 0 ;;
  ret ("// Flat document structure" ++ nl ++
       "// Function to add flat documents to Firestore" ++ nl ++
       "async function addFlatDocuments() {" ++ nl ++
       collectionRefLine collectionName ++
       docs ++
       "  console.log(" ++ dq ++ natToString (length dataArray) ++
       " flat documents added to " ++ collectionName ++ " collection" ++ dq ++ ");" ++
       nl ++
       "}" ++ nl ++ nl).

Definition referencedField (count : nat) (kv : string * value) (i : nat) : M string :=
  if isNonEmptyObject (snd kv)
  then id <- generateId true ;;
       ret ("    " ++ fst kv ++ "Ref: doc(db, " ++ dq ++ fst kv ++ "s" ++ dq ++ ", " ++
            dq ++ id ++ dq ++ ")," ++ nl)
  else ret (fieldLine "    " firebaseValueToString count kv i).

Definition referencedCollection (options : Options)
           (entry : string * list value) (_ : nat) : M string :=
  let (collection, items) := entry in
  docs <- forEach (fun item index =>
            let docVar := collection ++ "Doc" ++ natToString (index + 1) in
            opening <-
              (if addIds options
               then docId <- generateId true ;;
                    ret ("  const " ++ docVar ++ " = doc(" ++ collection ++ "Ref, " ++
                         dq ++ docId ++ dq ++ ");" ++ nl ++
                         "  await setDoc(" ++ docVar ++ ", {" ++ nl)
               else ret ("  const " ++ docVar ++ " = await addDoc(" ++ collection ++
                         "Ref, {" ++ nl)) ;;
            fields <- lift (entries (Some item)) ;;
            lines <- forEach (referencedField (length fields)) fields 0 ;;
            ret ("  // " ++ collection ++ " document " ++ natToString (index + 1) ++ nl ++
                 opening ++
                 (if addTimestamps options then timestampLines else EmptyString) ++
                 lines ++
                 "  });" ++ nl ++ nl))
          items 0 ;;
  ret ("  // Collection: " ++ collection ++ nl ++
       "  const " ++ collection ++ "Ref = collection(db, " ++ dq ++ collection ++ dq ++
       ");" ++ nl ++ nl ++
       docs).

Definition generateReferencedDocuments (jsonData : value) (collectionName : string)
           (options : Options) : M string :=
  let dataArray := dataArrayOf jsonData in
  collections <- lift (extractReferencedCollections dataArray
                         (assignMain collectionName dataArray newStore)) ;;
  body <- forEach (referencedCollection options) (members collections) 0 ;;
  ret ("// Referenced document structure" ++ nl ++
       "// Function to add documents with references to Firestore" ++ nl ++
       "async function addReferencedDocuments() {" ++ nl ++
       body ++
       "  console.log(" ++ dq ++ "Referenced documents added to Firestore" ++ dq ++ ");" ++
       nl ++
       "}" ++ nl ++ nl).

Definition generateArrayBasedDocuments (jsonData : value) (collectionName : string)
           (options : Options) : M string :=
  let dataArray := dataArrayOf jsonData in
  opening <-
    (if addIds options
     then docId <- generateId true ;;
          ret ("  const docRef = doc(collectionRef, " ++ dq ++ docId ++ dq ++ ");" ++ nl ++
               "  await setDoc(docRef, {" ++ nl)
     else ret ("  await addDoc(collectionRef, {" ++ nl)) ;;
  items <- forEach (fun item index =>
             itemId <- when (addIds options)
                         (id <- generateId true ;;
                          ret ("        id: " ++ dq ++ id ++ dq ++ "," ++ nl)) ;;
             fields <- lift (entries (Some item)) ;;
             ret ("      {" ++ nl ++ itemId ++
                  forEachPure (fieldLine "        " firebaseValueToString
                                         (length fields)) fields 0 ++
                  "      }" ++ commaUnlessLast index (length dataArray) ++ nl))
           dataArray 0 ;;
  ret ("// Array-based document structure" ++ nl ++
       "// Function to add array-based document to Firestore" ++ nl ++
       "async function addArrayBasedDocument() {" ++ nl ++
       collectionRefLine collectionName ++
       "  // Create a single document with items array" ++ nl ++
       opening ++
       (if addTimestamps options then timestampLines else EmptyString) ++
       "    items: [" ++ nl ++
       items ++
       "    ]" ++ nl ++
       "  });" ++ nl ++ nl ++
       "  console.log(" ++ dq ++ "Array-based document added to " ++ collectionName ++
       " collection" ++ dq ++ ");" ++ nl ++
       "}" ++ nl ++ nl).

Definition renderIndexes (collectionName : string) (fields : list string) : string :=
  let fieldLineOf (field : string) (_ : nat) :=
    "  Field: " ++ field ++ ", Order: ASCENDING" ++ nl in
  "// Firebase indexes for collection: " ++ collectionName ++ nl ++
  "/*" ++ nl ++
  forEachPure fieldLineOf fields 0 ++
  (if Nat.ltb 1 (length fields)
   then nl ++ "  // Compound index suggestion:" ++ nl ++
        forEachPure fieldLineOf (firstn 2 fields) 0
   else EmptyString) ++
  "*/" ++ nl ++ nl ++
  "// Firebase CLI command example:" ++ nl ++
  "// firebase firestore:indexes --project your-project-id" ++ nl ++ nl.

Definition generateIndexSuggestions (jsonData : value) (collectionName : string)
  : M string :=
  fields <- lift (indexFields jsonData) ;;
  ret ("// Index Suggestions for Firebase" ++ nl ++
       "// Add these indexes in the Firebase console or using the Firebase CLI" ++
       nl ++ nl ++
       match fields with
       | [] => "// No obvious index candidates found in this data structure" ++ nl ++ nl
       | _ => renderIndexes collectionName fields
       end).

Definition collectionNameOf (jsonData : value) : Error + string :=
  if isArray jsonData then inr "items" else firstKeyOr jsonData "collection".

Definition header : string :=
  "// Firebase Firestore Code" ++ nl ++
  "// Requires Firebase SDK to be initialized in your project" ++ nl ++ nl ++
  "// Import Firebase modules" ++ nl ++
  "import { getFirestore, collection, doc, setDoc, addDoc, serverTimestamp } from " ++
  dq ++ "firebase/firestore" ++ dq ++ ";" ++ nl ++ nl ++
  "// Get Firestore instance" ++ nl ++
  "const db = getFirestore();" ++ nl ++ nl.

Definition generateFirebaseDocuments (jsonData : value) (structure : string)
           (options : Options) : M string :=
  collectionName <- lift (collectionNameOf jsonData) ;;
  body <- match structureOf structure with
          | Nested => generateNestedDocuments jsonData collectionName options
          | Flat => generateFlatDocuments jsonData collectionName options
          | References => generateReferencedDocuments jsonData collectionName options
          | Arrays => generateArrayBasedDocuments jsonData collectionName options
          end ;;
  indexes <- when (addIndexes options)
                  (generateIndexSuggestions jsonData collectionName) ;;
  ret (header ++ body ++ indexes).

End Firebase.

(* ================================================================== *)
(** ** dynamodbGenerator.js *)
(* ================================================================== *)

Module Dynamo.

Definition dynamoValueToString : value -> string :=
  valueToStringWith (fun iso => dq ++ iso ++ dq).

Definition flattenObject : option value -> Error + list (string * value) :=
  flattenObjectWith "_".

(** entityType, and singularType for an array of objects. *)
Definition extractEntities : list value -> Store -> Error + Store :=
  extractWith capitalize (fun key => singularName (capitalize key)).

(** The primary key: a generated id, or the text the caller supplies. *)
Definition idLine (options : Options) (indent fallback : string) : M string :=
  if addIds options
  then id <- generateId true ;;
       ret (indent ++ "id: " ++ dq ++ id ++ dq ++ "," ++ nl)
  else ret (indent ++ "id: " ++ dq ++ fallback ++ dq ++ "," ++ nl).

Definition sortKeyLine (options : Options) (indent : string) : M string :=
  when (truthyOpt (sortKey options))
       (now <- nowISO ;;
        ret (indent ++ orElse (sortKey options) EmptyString ++ ": " ++
             dq ++ now ++ dq ++ "," ++ nl)).

(** createdAt and updatedAt each read the clock. *)
Definition timestampLines (options : Options) (indent : string) : M string :=
  when (addTimestamps options)
       (created <- nowISO ;;
        updated <- nowISO ;;
        ret (indent ++ "createdAt: " ++ dq ++ created ++ dq ++ "," ++ nl ++
             indent ++ "updatedAt: " ++ dq ++ updated ++ dq ++ "," ++ nl)).

(** A data field; every line ends with a comma. *)
Definition dataLine (indent : string) (kv : string * value) (_ : nat) : string :=
  indent ++ fst kv ++ ": " ++ dynamoValueToString (snd kv) ++ "," ++ nl.

Definition catchBlock : string :=
  "  } catch (err) {" ++ nl ++
  "    console.error(" ++ dq ++ "Error:" ++ dq ++ ", err);" ++ nl ++
  "  }" ++ nl ++
  "}" ++ nl ++ nl.

(** The opening and the closing of one PutCommand. *)
Definition putOpen (tableName : string) : string :=
  "    await docClient.send(" ++ nl ++
  "      new PutCommand({" ++ nl ++
  "        TableName: " ++ dq ++ tableName ++ dq ++ "," ++ nl ++
  "        Item: {" ++ nl.

Definition putClose : string :=
  "        }" ++ nl ++
  "      })" ++ nl ++
  "    );" ++ nl ++ nl.

Definition generateNestedDocuments (jsonData : value) (tableName : string)
           (options : Options) : M string :=
  let dataArray := dataArrayOf jsonData in
  if Nat.leb (length dataArray) 25 then
    items <- forEach (fun item index =>
               id <- idLine options "        " (natToString (index + 1)) ;;
               sort <- sortKeyLine options "        " ;;
               stamps <- timestampLines options "        " ;;
               fields <- lift (entries (Some item)) ;;
               ret ("  // Item " ++ natToString (index + 1) ++ nl ++
                    "  items.push({" ++ nl ++
                    "    PutRequest: {" ++ nl ++
                    "      Item: {" ++ nl ++
                    id ++ sort ++ stamps ++
                    forEachPure (dataLine "        ") fields 0 ++
                    "      }" ++ nl ++
                    "    }" ++ nl ++
                    "  });" ++ nl ++ nl))
             dataArray 0 ;;
    ret ("// Nested document structure" ++ nl ++
         "// Function to add items using BatchWriteCommand" ++ nl ++
         "async function addNestedItems() {" ++ nl ++
         "  const items = [];" ++ nl ++ nl ++
         items ++
         "  const command = new BatchWriteCommand({" ++ nl ++
         "    RequestItems: {" ++ nl ++
         "      " ++ dq ++ tableName ++ dq ++ ": items" ++ nl ++
         "    }" ++ nl ++
         "  });" ++ nl ++ nl ++
         "  try {" ++ nl ++
         "    const response = await docClient.send(command);" ++ nl ++
         "    console.log(" ++ dq ++ "Success - items added to " ++ tableName ++ dq ++
         ");" ++ nl ++
         "    return response;" ++ nl ++
         catchBlock)
  else
    items <- forEach (fun item index =>
               id <- idLine options "          " (natToString (index + 1)) ;;
               sort <- sortKeyLine options "          " ;;
               stamps <- timestampLines options "          " ;;
               fields <- lift (entries (Some item)) ;;
               ret ("    // Item " ++ natToString (index + 1) ++ nl ++
                    putOpen tableName ++
                    id ++ sort ++ stamps ++
                    forEachPure (dataLine "          ") fields 0 ++
                    putClose))
             dataArray 0 ;;
    ret ("// Nested document structure" ++ nl ++
         "// Function to add items using individual PutCommand" ++ nl ++
         "async function addNestedItems() {" ++ nl ++
         "  try {" ++ nl ++
         items ++
         "    console.log(" ++ dq ++ "Success - " ++ natToString (length dataArray) ++
         " items added to " ++ tableName ++ dq ++ ");" ++ nl ++
         catchBlock).

Definition generateFlatDocuments (jsonData : value) (tableName : string)
           (options : Options) : M string :=
  let dataArray := dataArrayOf jsonData in
  items <- forEach (fun item index =>
             flattenedObject <- lift (flattenObject (Some item)) ;;
             id <- idLine options "          " (natToString (index + 1)) ;;
             sort <- sortKeyLine options "          " ;;
             stamps <- timestampLines options "          " ;;
             ret ("    // Item " ++ natToString (index + 1) ++ nl ++
                  putOpen tableName ++
                  id ++ sort ++ stamps ++
                  forEachPure (dataLine "          ") flattenedObject 0 ++
                  putClose))
           dataArray 0 ;;
  ret ("// Flat document structure" ++ nl ++
       "// Function to add flattened items" ++ nl ++
       "async function addFlatItems() {" ++ nl ++
       "  try {" ++ nl ++
       items ++
       "    console.log(" ++ dq ++ "Success - " ++ natToString (length dataArray) ++
       " flat items added to " ++ tableName ++ dq ++ ");" ++ nl ++
       catchBlock).

Definition referencedField (kv : string * value) (i : nat) : M string :=
  if isNonEmptyObject (snd kv)
  then refId <- generateId true ;;
       let refType := capitalize (fst kv) in
       ret ("          " ++ fst kv ++ "Id: " ++ dq ++ refId ++ dq ++ "," ++ nl ++
            "          " ++ fst kv ++ "Type: " ++ dq ++ refType ++ dq ++ "," ++ nl)
  else ret (dataLine "          " kv i).

Definition referencedEntity (tableName : string) (options : Options)
           (entry : string * list value) (_ : nat) : M string :=
  let (entityType, items) := entry in
  forEach (fun item index =>
    itemId <- generateId true ;;
    stamps <- timestampLines options "          " ;;
    fields <- lift (entries (Some item)) ;;
    lines <- forEach referencedField fields 0 ;;
    ret ("    // " ++ entityType ++ " item " ++ natToString (index + 1) ++ nl ++
         putOpen tableName ++
         "          PK: " ++ dq ++ entityType ++ "#" ++ itemId ++ dq ++ "," ++ nl ++
         "          SK: " ++ dq ++ entityType ++ "#" ++ itemId ++ dq ++ "," ++ nl ++
         "          type: " ++ dq ++ entityType ++ dq ++ "," ++ nl ++
         "          id: " ++ dq ++ itemId ++ dq ++ "," ++ nl ++
         stamps ++ lines ++
         putClose))
  items 0.

Definition generateReferencedDocuments (jsonData : value) (tableName : string)
           (options : Options) : M string :=
  let dataArray := dataArrayOf jsonData in
  entities <- lift (extractEntities dataArray (assignMain "Main" dataArray newStore)) ;;
  body <- forEach (referencedEntity tableName options) (members entities) 0 ;;
  ret ("// Referenced document structure using single table design" ++ nl ++
       "// This approach uses a single table with different item types" ++ nl ++ nl ++
       "// Function to add items with references" ++ nl ++
       "async function addReferencedItems() {" ++ nl ++
       "  try {" ++ nl ++
       body ++
       (if Nat.ltb 1 (length (members entities))
        then "    // Note: In a real application, you would create relationships" ++ nl ++
             "    // between entities using GSIs (Global Secondary Indexes)" ++ nl ++
             "    // Example: PK: " ++ dq ++ "Main#123" ++ dq ++ ", SK: " ++ dq ++
             "RelatedEntity#456" ++ dq ++ nl ++ nl
        else EmptyString) ++
       "    console.log(" ++ dq ++ "Success - items added to " ++ tableName ++
       " with references" ++ dq ++ ");" ++ nl ++
       catchBlock).

Definition generateArrayBasedDocuments (jsonData : value) (tableName : string)
           (options : Options) : M string :=
  let dataArray := dataArrayOf jsonData in
  id <- idLine options "          " "main-item" ;;
  stamps <- timestampLines options "          " ;;
  items <- forEach (fun item index =>
             itemId <- idLine options "              "
                              ("item-" ++ natToString (index + 1)) ;;
             fields <- lift (entries (Some item)) ;;
             ret ("            {" ++ nl ++ itemId ++
                  forEachPure (dataLine "              ") fields 0 ++
                  "            }" ++ commaUnlessLast index (length dataArray) ++ nl))
           dataArray 0 ;;
  ret ("// Array-based document structure" ++ nl ++
       "// Function to add a single item with array of sub-items" ++ nl ++
       "async function addArrayBasedItem() {" ++ nl ++
       "  try {" ++ nl ++
       "    // Create a single item with sub-items array" ++ nl ++
       putOpen tableName ++
       id ++ stamps ++
       "          items: [" ++ nl ++
       items ++
       "          ]" ++ nl ++
       putClose ++
       "    console.log(" ++ dq ++ "Success - array-based item added to " ++ tableName ++
       dq ++ ");" ++ nl ++
       catchBlock).

(** A backslash followed by a double quote, and a backslash. *)
Definition bq : string := String bsc dq.
Definition bs : string := String bsc EmptyString.

Definition renderIndexes (tableName : string) (fields : list string) : string :=
  let first := hd "undefined" fields in
  "// CloudFormation template snippet for GSIs" ++ nl ++
  "/*" ++ nl ++
  "Resources:" ++ nl ++
  "  " ++ tableName ++ "Table:" ++ nl ++
  "    Type: AWS::DynamoDB::Table" ++ nl ++
  "    Properties:" ++ nl ++
  "      TableName: " ++ tableName ++ nl ++
  "      AttributeDefinitions:" ++ nl ++
  "        - AttributeName: id" ++ nl ++
  "          AttributeType: S" ++ nl ++
  forEachPure (fun field _ =>
      "        - AttributeName: " ++ field ++ nl ++
      "          AttributeType: S" ++ nl) fields 0 ++
  "      KeySchema:" ++ nl ++
  "        - AttributeName: id" ++ nl ++
  "          KeyType: HASH" ++ nl ++
  "      GlobalSecondaryIndexes:" ++ nl ++
  forEachPure (fun field index =>
      "        - IndexName: " ++ field ++ "Index" ++ nl ++
      "          KeySchema:" ++ nl ++
      "            - AttributeName: " ++ field ++ nl ++
      "              KeyType: HASH" ++ nl ++
      "          Projection:" ++ nl ++
      "            ProjectionType: ALL" ++ nl ++
      (if Nat.ltb (S index) (length fields) then nl else EmptyString)) fields 0 ++
  "*/" ++ nl ++ nl ++
  "// AWS CLI command example:" ++ nl ++
  "// aws dynamodb update-table " ++ bs ++ nl ++
  "//   --table-name " ++ tableName ++ " " ++ bs ++ nl ++
  "//   --attribute-definitions AttributeName=" ++ first ++ ",AttributeType=S " ++
  bs ++ nl ++
  "//   --global-secondary-index-updates " ++ dq ++ "[{" ++ bq ++ "Create" ++ bq ++
  ":{" ++ bq ++ "IndexName" ++ bq ++ ":" ++ bq ++ first ++ "Index" ++ bq ++ "," ++
  bq ++ "KeySchema" ++ bq ++ ":[{" ++ bq ++ "AttributeName" ++ bq ++ ":" ++ bq ++
  first ++ bq ++ "," ++ bq ++ "KeyType" ++ bq ++ ":" ++ bq ++ "HASH" ++ bq ++ "}]," ++
  bq ++ "Projection" ++ bq ++ ":{" ++ bq ++ "ProjectionType" ++ bq ++ ":" ++ bq ++
  "ALL" ++ bq ++ "}}}]" ++ dq ++ nl ++ nl.

Definition generateIndexSuggestions (jsonData : value) (tableName : string)
  : M string :=
  fields <- lift (indexFields jsonData) ;;
  ret ("// DynamoDB Index Suggestions" ++ nl ++
       "// These are suggestions for Global Secondary Indexes (GSIs)" ++ nl ++ nl ++
       match fields with
       | [] => "// No obvious index candidates found in this data structure" ++ nl ++ nl
       | _ => renderIndexes tableName fields
       end).

Definition tableNameOf (jsonData : value) : Error + string :=
  if isArray jsonData then inr "Items" else firstKeyOr jsonData "DynamoTable".

Definition header : string :=
  "// AWS DynamoDB Code" ++ nl ++
  "// Requires AWS SDK to be initialized in your project" ++ nl ++ nl ++
  "// Import AWS SDK modules" ++ nl ++
  "import { DynamoDBClient } from " ++ dq ++ "@aws-sdk/client-dynamodb" ++ dq ++ ";" ++
  nl ++
  "import { DynamoDBDocumentClient, PutCommand, BatchWriteCommand } from " ++ dq ++
  "@aws-sdk/lib-dynamodb" ++ dq ++ ";" ++ nl ++ nl ++
  "// Initialize DynamoDB client" ++ nl ++
  "const client = new DynamoDBClient({ region: " ++ dq ++ "us-east-1" ++ dq ++ " });" ++
  nl ++
  "const docClient = DynamoDBDocumentClient.from(client);" ++ nl ++ nl.

Definition generateDynamoDBDocuments (jsonData : value) (structure : string)
           (options : Options) : M string :=
  tableName <- lift (tableNameOf jsonData) ;;
  body <- match structureOf structure with
          | Nested => generateNestedDocuments jsonData tableName options
          | Flat => generateFlatDocuments jsonData tableName options
          | References => generateReferencedDocuments jsonData tableName options
          | Arrays => generateArrayBasedDocuments jsonData tableName options
          end ;;
  indexes <- when (addIndexes options) (generateIndexSuggestions jsonData tableName) ;;
  ret (header ++ body ++ indexes).

End Dynamo.

(* ================================================================== *)
(** ** couchdbGenerator.js *)
(* ================================================================== *)

Module Couch.

Definition couchValueToString : value -> string :=
  valueToStringWith (fun iso => dq ++ iso ++ dq).

Definition flattenObject : option value -> Error + list (string * value) :=
  flattenObjectWith "_".

(** docTypes[key], and docTypes[singularKey] for an array of objects. *)
Definition extractReferencedDocTypes : list value -> Store -> Error + Store :=
  extractWith (fun key => key) singularName.

Definition idLine (indent : string) : M string :=
  id <- generateId true ;;
  ret (indent ++ "_id: " ++ dq ++ id ++ dq ++ "," ++ nl).

Definition timestampLines (indent : string) : M string :=
  now <- nowISO ;;
  ret (indent ++ "createdAt: " ++ dq ++ now ++ dq ++ "," ++ nl ++
       indent ++ "updatedAt: " ++ dq ++ now ++ dq ++ "," ++ nl).

(** The try/catch that sends the documents. *)
Definition sendBlock (call success failure : string) : string :=
  "  try {" ++ nl ++
  "    const response = await " ++ call ++ ";" ++ nl ++
  "    console.log(" ++ success ++ ");" ++ nl ++
  "    return response;" ++ nl ++
  "  } catch (err) {" ++ nl ++
  "    console.error(" ++ dq ++ failure ++ dq ++ ", err);" ++ nl ++
  "    throw err;" ++ nl ++
  "  }" ++ nl.

(** The two shapes shared by the nested and the flat generator: a bulk
    insert for more than one document, a single insert of dataArray[0]
    otherwise. [fieldsOf] is Object.entries for the nested generator and
    flattenObject for the flat one. *)
Definition bulkDocuments (fieldsOf : option value -> Error + list (string * value))
           (dataArray : list value) (options : Options) : M string :=
  forEach (fun item index =>
    fields <- lift (fieldsOf (Some item)) ;;
    ids <- when (addIds options) (idLine "      ") ;;
    stamps <- when (addTimestamps options) (timestampLines "      ") ;;
    ret ("    {" ++ nl ++ ids ++ stamps ++
         forEachPure (fieldLine "      " couchValueToString (length fields)) fields 0 ++
         "    }" ++ commaUnlessLast index (length dataArray) ++ nl))
  dataArray 0.

Definition singleDocument (fieldsOf : option value -> Error + list (string * value))
           (dataArray : list value) (options : Options) : M string :=
  let item := nth_error dataArray 0 in
  fields <- lift (fieldsOf item) ;;
  ids <- when (addIds options) (idLine "    ") ;;
  stamps <- when (addTimestamps options) (timestampLines "    ") ;;
  ret (ids ++ stamps ++
       forEachPure (fieldLine "    " couchValueToString (length fields)) fields 0).

Definition generateNestedDocuments (jsonData : value) (options : Options) : M string :=
  let dataArray := dataArrayOf jsonData in
  body <-
    (if Nat.ltb 1 (length dataArray) then
       docs <- bulkDocuments entries dataArray options ;;
       ret ("  // Prepare documents for bulk insert" ++ nl ++
            "  const docs = [" ++ nl ++
            docs ++
            "  ];" ++ nl ++ nl ++
            sendBlock "db.bulk({ docs })"
              (dq ++ "Bulk insert successful:" ++ dq ++ ", response.length, " ++ dq ++
               "documents inserted" ++ dq)
              "Error inserting documents:")
     else
       doc <- singleDocument entries dataArray options ;;
       ret ("  // Prepare document" ++ nl ++
            "  const doc = {" ++ nl ++
            doc ++
            "  };" ++ nl ++ nl ++
            sendBlock "db.insert(doc)"
              (dq ++ "Document inserted successfully:" ++ dq ++ ", response.id")
              "Error inserting document:")) ;;
  ret ("// Nested document structure" ++ nl ++
       "// Function to add nested documents" ++ nl ++
       "async function addNestedDocuments() {" ++ nl ++
       body ++
       "}" ++ nl ++ nl).

Definition generateFlatDocuments (jsonData : value) (options : Options) : M string :=
  let dataArray := dataArrayOf jsonData in
  body <-
    (if Nat.ltb 1 (length dataArray) then
       docs <- bulkDocuments flattenObject dataArray options ;;
       ret ("  // Prepare documents for bulk insert" ++ nl ++
            "  const docs = [" ++ nl ++
            docs ++
            "  ];" ++ nl ++ nl ++
            sendBlock "db.bulk({ docs })"
              (dq ++ "Bulk insert successful:" ++ dq ++ ", response.length, " ++ dq ++
               "flat documents inserted" ++ dq)
              "Error inserting flat documents:")
     else
       doc <- singleDocument flattenObject dataArray options ;;
       ret ("  // Prepare flat document" ++ nl ++
            "  const doc = {" ++ nl ++
            doc ++
            "  };" ++ nl ++ nl ++
            sendBlock "db.insert(doc)"
              (dq ++ "Flat document inserted successfully:" ++ dq ++ ", response.id")
              "Error inserting flat document:")) ;;
  ret ("// Flat document structure" ++ nl ++
       "// Function to add flat documents" ++ nl ++
       "async function addFlatDocuments() {" ++ nl ++
       body ++
       "}" ++ nl ++ nl).

Definition referencedField (count : nat) (kv : string * value) (i : nat) : M string :=
  if isNonEmptyObject (snd kv)
  then refId <- generateId true ;;
       let refType := fst kv in
       ret ("      " ++ fst kv ++ "Id: " ++ dq ++ refType ++ "_" ++ refId ++ dq ++ "," ++ nl)
  else ret (fieldLine "      " couchValueToString count kv i).

Definition referencedDocType (options : Options)
           (entry : string * list value) (_ : nat) : M string :=
  let (docType, items) := entry in
  docs <- forEach (fun item index =>
            docId <- generateId true ;;
            stamps <- when (addTimestamps options) (timestampLines "      ") ;;
            fields <- lift (entries (Some item)) ;;
            lines <- forEach (referencedField (length fields)) fields 0 ;;
            ret ("    {" ++ nl ++
                 "      _id: " ++ dq ++ docType ++ "_" ++ docId ++ dq ++ "," ++ nl ++
                 "      type: " ++ dq ++ docType ++ dq ++ "," ++ nl ++
                 stamps ++ lines ++
                 "    }" ++ commaUnlessLast index (length items) ++ nl))
          items 0 ;;
  ret ("  // " ++ docType ++ " documents" ++ nl ++
       "  const " ++ docType ++ "Docs = [" ++ nl ++
       docs ++
       "  ];" ++ nl ++ nl).

Definition generateReferencedDocuments (jsonData : value) (options : Options)
  : M string :=
  let dataArray := dataArrayOf jsonData in
  docTypes <- lift (extractReferencedDocTypes dataArray
                      (assignMain "main" dataArray newStore)) ;;
  body <- forEach (referencedDocType options) (members docTypes) 0 ;;
  ret ("// Referenced document structure" ++ nl ++
       "// Function to add documents with references" ++ nl ++
       "async function addReferencedDocuments() {" ++ nl ++
       body ++
       "  // Combine all documents for bulk insert" ++ nl ++
       "  const allDocs = [" ++ nl ++
       "    ..." ++ join ("Docs," ++ nl ++ "    ...") (map fst (members docTypes)) ++
       nl ++
       "  ];" ++ nl ++ nl ++
       sendBlock "db.bulk({ docs: allDocs })"
         (dq ++ "Bulk insert successful:" ++ dq ++ ", response.length, " ++ dq ++
          "documents with references inserted" ++ dq)
         "Error inserting documents with references:" ++
       "}" ++ nl ++ nl).

Definition generateArrayBasedDocuments (jsonData : value) (options : Options)
  : M string :=
  let dataArray := dataArrayOf jsonData in
  ids <- when (addIds options) (idLine "    ") ;;
  stamps <- when (addTimestamps options) (timestampLines "    ") ;;
  items <- forEach (fun item index =>
             itemId <- when (addIds options)
                         (id <- generateId true ;;
                          ret ("        id: " ++ dq ++ id ++ dq ++ "," ++ nl)) ;;
             fields <- lift (entries (Some item)) ;;
             ret ("      {" ++ nl ++ itemId ++
                  forEachPure (fieldLine "        " couchValueToString (length fields))
                              fields 0 ++
                  "      }" ++ commaUnlessLast index (length dataArray) ++ nl))
           dataArray 0 ;;
  ret ("// Array-based document structure" ++ nl ++
       "// Function to add array-based document" ++ nl ++
       "async function addArrayBasedDocument() {" ++ nl ++
       "  // Prepare document with items array" ++ nl ++
       "  const doc = {" ++ nl ++
       ids ++ stamps ++
       "    items: [" ++ nl ++
       items ++
       "    ]" ++ nl ++
       "  };" ++ nl ++ nl ++
       sendBlock "db.insert(doc)"
         (dq ++ "Array-based document inserted successfully:" ++ dq ++ ", response.id")
         "Error inserting array-based document:" ++
       "}" ++ nl ++ nl).

(** One db.createIndex call inside its try/catch. *)
Definition createIndexBlock (fieldList name created failed : string) : string :=
  "  try {" ++ nl ++
  "    await db.createIndex({" ++ nl ++
  "      index: { fields: [" ++ fieldList ++ "] }," ++ nl ++
  "      name: '" ++ name ++ "'" ++ nl ++
  "    });" ++ nl ++
  "    console.log(" ++ dq ++ created ++ dq ++ ");" ++ nl ++
  "  } catch (err) {" ++ nl ++
  "    console.error(" ++ dq ++ failed ++ dq ++ ", err);" ++ nl ++
  "  }" ++ nl.

Definition renderIndexes (fields : list string) : string :=
  "  // Create type index for document types" ++ nl ++
  createIndexBlock "'type'" "type-index"
    "Type index created successfully" "Error creating type index:" ++ nl ++
  forEachPure (fun field _ =>
      "  // Create index for " ++ field ++ nl ++
      createIndexBlock ("'" ++ field ++ "'") (field ++ "-index")
        (field ++ " index created successfully")
        ("Error creating " ++ field ++ " index:") ++ nl) fields 0 ++
  (if Nat.ltb 1 (length fields)
   then "  // Create compound index" ++ nl ++
        createIndexBlock
          (join ", " (map (fun f => "'" ++ f ++ "'") (firstn 2 fields)))
          "compound-index"
          "Compound index created successfully" "Error creating compound index:"
   else EmptyString).

Definition generateIndexSuggestions (jsonData : value) : M string :=
  fields <- lift (indexFields jsonData) ;;
  ret ("// CouchDB Index Suggestions" ++ nl ++
       "// Function to create indexes" ++ nl ++
       "async function createIndexes() {" ++ nl ++
       match fields with
       | [] => "  console.log(" ++ dq ++
               "No obvious index candidates found in this data structure" ++ dq ++ ");" ++ nl
       | _ => renderIndexes fields
       end ++
       "}" ++ nl ++ nl).

Definition header (dbName : string) : string :=
  "// CouchDB Code" ++ nl ++
  "// Requires nano (CouchDB client) to be installed" ++ nl ++ nl ++
  "// Import nano" ++ nl ++
  "const nano = require(" ++ dq ++ "nano" ++ dq ++ ")(" ++ dq ++ "http://localhost:5984" ++
  dq ++ ");" ++ nl ++ nl ++
  "// Create database if it doesn't exist" ++ nl ++
  "async function createDatabase() {" ++ nl ++
  "  try {" ++ nl ++
  "    await nano.db.create(" ++ dq ++ dbName ++ dq ++ ");" ++ nl ++
  "    console.log(" ++ dq ++ "Database '" ++ dbName ++ "' created" ++ dq ++ ");" ++ nl ++
  "  } catch (err) {" ++ nl ++
  "    if (err.statusCode === 412) {" ++ nl ++
  "      console.log(" ++ dq ++ "Database '" ++ dbName ++ "' already exists" ++ dq ++ ");" ++
  nl ++
  "    } else {" ++ nl ++
  "      console.error(" ++ dq ++ "Error creating database:" ++ dq ++ ", err);" ++ nl ++
  "    }" ++ nl ++
  "  }" ++ nl ++
  "}" ++ nl ++ nl ++
  "// Get database reference" ++ nl ++
  "const db = nano.use(" ++ dq ++ dbName ++ dq ++ ");" ++ nl ++ nl.

(** The call of the main function that matches the structure. *)
Definition mainCall (structure : string) : string :=
  match structureOf structure with
  | Nested => "  await addNestedDocuments();" ++ nl
  | Flat => "  await addFlatDocuments();" ++ nl
  | References => "  await addReferencedDocuments();" ++ nl
  | Arrays => "  await addArrayBasedDocument();" ++ nl
  end.

(** const dbName = options.dbName || 'nosql_generator_db' *)
Definition dbNameOf (options : Options) : string :=
  orElse (dbName options) "nosql_generator_db".

Definition generateCouchDBDocuments (jsonData : value) (structure : string)
           (options : Options) : M string :=
  body <- match structureOf structure with
          | Nested => generateNestedDocuments jsonData options
          | Flat => generateFlatDocuments jsonData options
          | References => generateReferencedDocuments jsonData options
          | Arrays => generateArrayBasedDocuments jsonData options
          end ;;
  indexes <- when (addIndexes options) (generateIndexSuggestions jsonData) ;;
  ret (header (dbNameOf options) ++
       body ++ indexes ++
       "// Main function to execute all operations" ++ nl ++
       "async function main() {" ++ nl ++
       "  await createDatabase();" ++ nl ++
       mainCall structure ++
       (if addIndexes options then "  await createIndexes();" ++ nl else EmptyString) ++
       "}" ++ nl ++ nl ++
       "// Run the main function" ++ nl ++
       "main().catch(err => console.error(" ++ dq ++ "Error:" ++ dq ++ ", err));" ++ nl).

End Couch.

(* ================================================================== *)
(** ** nosqlGenerator.js: generateNoSQL

    The validation of the inputs and the dispatch on the database type;
    the value returned is the [data] of the result record. The writes to
    the output element of the page are not part of the model. *)
(* ================================================================== *)

Definition generateNoSQL (jsonData : value) (dbType structure : string)
           (options : Options) : M string :=
  if falsy jsonData then throw (PlainError "No JSON data provided")
  else if String.eqb dbType EmptyString
  then throw (PlainError "No database type selected")
  else if String.eqb structure EmptyString
  then throw (PlainError "No document structure selected")
  else if String.eqb dbType "mongodb"
  then Mongo.generateMongoDBDocuments jsonData structure options
  else if String.eqb dbType "firebase"
  then Firebase.generateFirebaseDocuments jsonData structure options
  else if String.eqb dbType "dynamodb"
  then Dynamo.generateDynamoDBDocuments jsonData structure options
  else if String.eqb dbType "couchdb"
  then Couch.generateCouchDBDocuments jsonData structure options
  else throw (PlainError ("Unsupported database type: " ++ dbType)).

(* ================================================================== *)
(** ** Vocabulary of the statements *)
(* ================================================================== *)

(** [sub] occurs in [s]. *)
Definition Substring (s sub : string) : Prop :=
  exists before after, s = before ++ sub ++ after.


(** The computation returns a value, whatever the oracles answer. *)
Definition Returns (A : Type) (m : M A) : Prop :=
  forall w, exists a w', m w = Return a w'.

(** A document whose entries can be listed: anything but null. *)
Definition Listable (item : value) : Prop :=
  exists fields, entries (Some item) = inr fields.

(** Every document of the input can be listed. *)
Definition ListableDocuments (jsonData : value) : Prop :=
  forall item, In item (dataArrayOf jsonData) -> Listable item.

(** The flattened document as the specification describes it: one field
    for every path that leads from the document through object-valued
    fields to a value that is not an object, named by joining the keys of
    the path with the separator. [leavesOf sep v key] lists the fields
    that come from the value [v] reached under the joined name [key]. *)
Fixpoint leavesOf (sep : string) (v : value) (key : string) : list (string * value) :=
  match v with
  | VObj sub =>
      flat_map (fun kv => leavesOf sep (snd kv) (newKey sep key (fst kv))) sub
  | VDate _ => []
  | _ => [(key, v)]
  end.

Definition leaves (sep : string) (fields : list (string * value)) (prefix : string)
  : list (string * value) :=
  flat_map (fun kv => leavesOf sep (snd kv) (newKey sep prefix (fst kv))) fields.

(** What flattening one entry into [acc] does, against [leavesOf]. *)
Definition FlattenSpec (sep : string) (v : value) : Prop :=
  forall key acc,
    (forall kv, In kv (own (flattenEntry sep v key acc)) ->
                In kv (own acc) \/ In kv (leavesOf sep v key)) /\
    (forall k, In k (map fst (own acc)) ->
               In k (map fst (own (flattenEntry sep v key acc)))) /\
    (forall k u, In (k, u) (leavesOf sep v key) -> k <> "__proto__" ->
                 In k (map fst (own (flattenEntry sep v key acc)))).

(** The document of the flattening scenario. *)
Definition adaDocument : value :=
  VObj [("name", VStr "Ada"); ("address", VObj [("city", VStr "London")])].

(** Every item of every group can be listed. *)
Definition ListableGroups (groups : list (string * list value)) : Prop :=
  forall name items item, In (name, items) groups -> In item items -> Listable item.

(** Induction on values through their arrays and objects. *)
Unset Implicit Arguments.
Section ValueInduction.
Variable P : value -> Prop.
Hypothesis HNull : P VNull.
Hypothesis HBool : forall b, P (VBool b).
Hypothesis HNum : forall n, P (VNum n).
Hypothesis HStr : forall s, P (VStr s).
Hypothesis HDate : forall iso, P (VDate iso).
Hypothesis HArr : forall items, Forall P items -> P (VArr items).
Hypothesis HObj : forall fields, Forall (fun kv => P (snd kv)) fields -> P (VObj fields).

Fixpoint value_nested_ind (v : value) : P v :=
  match v with
  | VNull => HNull
  | VBool b => HBool b
  | VNum n => HNum n
  | VStr s => HStr s
  | VDate iso => HDate iso
  | VArr items =>
      HArr items
        ((fix go (l : list value) : Forall P l :=
            match l with
            | [] => Forall_nil _
            | x :: l' => Forall_cons x (value_nested_ind x) (go l')
            end) items)
  | VObj fields =>
      HObj fields
        ((fix go (l : list (string * value)) : Forall (fun kv => P (snd kv)) l :=
            match l with
            | [] => Forall_nil _
            | kv :: l' => Forall_cons kv (value_nested_ind (snd kv)) (go l')
            end) fields)
  end.
End ValueInduction.
Set Implicit Arguments.

(** The body of the callback of Object.entries(item).forEach in the
    extraction, the local function of [extractItem]. *)
Definition visitField (objectGroup arrayGroup : string -> string)
           (key : string) (v : value) (store : Store) : Error + Store :=
  match v with
  | VObj (_ :: _) => pushAll (objectGroup key) [v] store
  | VArr elems =>
      if isArrayOfObjects v
      then bindE (pushAll (arrayGroup key) elems store)
                 (fun store' => foldE (extractItem objectGroup arrayGroup) elems store')
      else inr store
  | _ => inr store
  end.

(** Every group of [s] is in [s'], possibly with more items at its end. *)
Definition Grows (s s' : Store) : Prop :=
  forall name items,
    getOwn name (members s) = Some items ->
    exists extra, getOwn name (members s') = Some (items ++ extra)%list.

(** If the items of [s] can all be listed, so can those of [s']. *)
Definition KeepsListable (s s' : Store) : Prop :=
  ListableGroups (members s) -> ListableGroups (members s').

(** The group [name] of [s] holds the item [v]. *)
Definition Holds (name : string) (v : value) (s : Store) : Prop :=
  exists items, getOwn name (members s) = Some items /\ In v items.







Section Filing.
(** The name of the group of an object-valued field, and of an array of
    objects, as functions of the key. *)
Variable objectGroup arrayGroup : string -> string.




End Filing.




(** The four backends and the name generateNoSQL knows each by. *)
Inductive Backend : Type := MongoDB | FirebaseDB | DynamoDB | CouchDB.

Definition backendName (b : Backend) : string :=
  match b with
  | MongoDB => "mongodb"
  | FirebaseDB => "firebase"
  | DynamoDB => "dynamodb"
  | CouchDB => "couchdb"
  end.

(** The null, scalar roots of the specification. *)
Definition isScalar (v : value) : bool :=
  match v with
  | VNull | VBool _ | VNum _ | VStr _ => true
  | _ => false
  end.




(** The sample document of the index advisor. *)
Definition sampleDocument : value :=
  VObj [ ("user_id", VNum 1); ("email", VStr "a@b.com");
         ("created_at", VStr "2024-01-01"); ("notes", VStr "free text") ].

Definition b2n (b : bool) : nat := if b then 1 else 0.

(** Oracles for the examples: the n-th identifier and the n-th instant. *)
Definition exampleWorld : World :=
  mkWorld (fun short n => (if short then "id" else "oid") ++ natToString n)
          (fun n => "2024-01-01T00:00:0" ++ natToString n ++ ".000Z") 0 0.

(** Parentheses, brackets and braces are properly nested in the text. *)
Fixpoint balancedFrom (stack : list ascii) (s : string) : bool :=
  match s with
  | EmptyString => match stack with [] => true | _ => false end
  | String c r =>
      if Ascii.eqb c "("%char then balancedFrom (")"%char :: stack) r
      else if Ascii.eqb c "["%char then balancedFrom ("]"%char :: stack) r
      else if Ascii.eqb c "{"%char then balancedFrom ("}"%char :: stack) r
      else if Ascii.eqb c ")"%char || Ascii.eqb c "]"%char || Ascii.eqb c "}"%char
      then match stack with
           | top :: stack' => Ascii.eqb top c && balancedFrom stack' r
           | [] => false
           end
      else balancedFrom stack r
  end.

Definition balanced (s : string) : bool := balancedFrom [] s.

(** Generation returns a balanced text. *)
Definition generatesBalanced (options : Options) (root : value)
           (b : Backend) (structure : string) : bool :=
  match generateNoSQL root (backendName b) structure options exampleWorld with
  | Return out _ => balanced out
  | Throw _ => false
  end.

(** The serializer of a backend, the text that follows the key of a
    reference field, and the generator of the referenced structure. *)
Definition toStringOf (b : Backend) : value -> string :=
  match b with
  | MongoDB => Mongo.mongoValueToString
  | FirebaseDB => Firebase.firebaseValueToString
  | DynamoDB => Dynamo.dynamoValueToString
  | CouchDB => Couch.couchValueToString
  end.




(** The name of the group that receives the documents themselves. *)
Definition mainGroupOf (b : Backend) (jsonData : value) : Error + string :=
  match b with
  | MongoDB => Mongo.collectionNameOf jsonData
  | FirebaseDB => Firebase.collectionNameOf jsonData
  | DynamoDB => inr "Main"
  | CouchDB => inr "main"
  end.

(** The extraction of a backend. *)
Definition extractOf (b : Backend) : list value -> Store -> Error + Store :=
  match b with
  | MongoDB => Mongo.extractReferencedCollections
  | FirebaseDB => Firebase.extractReferencedCollections
  | DynamoDB => Dynamo.extractEntities
  | CouchDB => Couch.extractReferencedDocTypes
  end.

(** Options with nothing set, and with the three flags set. *)
Definition allFlags : Options :=
  mkOptions true true true None None None None.

(** Options with nothing set. *)
Definition noOptions : Options :=
  mkOptions false false false None None None None.

(* ================================================================== *)
(** ** The layout of the generated code

    What the text of a generator is made of, stated from the shape of
    the code it writes; the answers of the oracles are existential. *)
(* ================================================================== *)

(** The texts of a list, one after the other. *)
Definition concatAll (blocks : list string) : string :=
  fold_right append EmptyString blocks.

(** [blocks] has one text for each element of [l], in order, and [P]
    relates the position of the element (counted from [index]), the
    element and its text. *)
Fixpoint Blocks (A : Type) (P : nat -> A -> string -> Prop) (l : list A)
         (index : nat) (blocks : list string) : Prop :=
  match l, blocks with
  | [], [] => True
  | x :: l', block :: blocks' => P index x block /\ Blocks P l' (S index) blocks'
  | _, _ => False
  end.

(** The key lines of a DynamoDB item at [indent]: the id, which is the
    text [position] unless addIds asks for a generated one; the sort key
    when options.sortKey names one; createdAt and updatedAt when
    addTimestamps is set. *)
Definition DynamoKeyLines (options : Options) (indent position keys : string) : Prop :=
  exists id sort created updated,
    (addIds options = false -> id = position) /\
    keys =
      indent ++ "id: " ++ dq ++ id ++ dq ++ "," ++ nl ++
      match sortKey options with
      | Some (String c name) =>
          indent ++ String c name ++ ": " ++ dq ++ sort ++ dq ++ "," ++ nl
      | _ => EmptyString
      end ++
      (if addTimestamps options
       then indent ++ "createdAt: " ++ dq ++ created ++ dq ++ "," ++ nl ++
            indent ++ "updatedAt: " ++ dq ++ updated ++ dq ++ "," ++ nl
       else EmptyString).

(** The data lines of a DynamoDB item at [indent]: one line per field,
    in the order of the fields, every line ending in a comma. *)
Definition dynamoDataLines (indent : string) (fields : list (string * value))
  : string :=
  concatAll
    (map (fun kv => indent ++ fst kv ++ ": " ++ Dynamo.dynamoValueToString (snd kv) ++
                    "," ++ nl) fields).

(** The push of the document at [index] onto the items of the batch. *)
Definition BatchItem (options : Options) (index : nat) (item : value)
           (block : string) : Prop :=
  exists keys fields,
    entries (Some item) = inr fields /\
    DynamoKeyLines options "        " (natToString (index + 1)) keys /\
    block =
      "  // Item " ++ natToString (index + 1) ++ nl ++
      "  items.push({" ++ nl ++
      "    PutRequest: {" ++ nl ++
      "      Item: {" ++ nl ++
      keys ++ dynamoDataLines "        " fields ++
      "      }" ++ nl ++
      "    }" ++ nl ++
      "  });" ++ nl ++ nl.

(** The PutCommand sent for the document at [index]. *)
Definition PutItem (tableName : string) (options : Options) (index : nat)
           (item : value) (block : string) : Prop :=
  exists keys fields,
    entries (Some item) = inr fields /\
    DynamoKeyLines options "          " (natToString (index + 1)) keys /\
    block =
      "    // Item " ++ natToString (index + 1) ++ nl ++
      "    await docClient.send(" ++ nl ++
      "      new PutCommand({" ++ nl ++
      "        TableName: " ++ dq ++ tableName ++ dq ++ "," ++ nl ++
      "        Item: {" ++ nl ++
      keys ++ dynamoDataLines "          " fields ++
      "        }" ++ nl ++
      "      })" ++ nl ++
      "    );" ++ nl ++ nl.

(** The function that pushes one item per document and sends them all in
    one BatchWriteCommand. *)
Definition batchFunction (tableName : string) (blocks : list string) : string :=
  "// Nested document structure" ++ nl ++
  "// Function to add items using BatchWriteCommand" ++ nl ++
  "async function addNestedItems() {" ++ nl ++
  "  const items = [];" ++ nl ++ nl ++
  concatAll blocks ++
  "  const command = new BatchWriteCommand({" ++ nl ++
  "    RequestItems: {" ++ nl ++
  "      " ++ dq ++ tableName ++ dq ++ ": items" ++ nl ++
  "    }" ++ nl ++
  "  });" ++ nl ++ nl ++
  "  try {" ++ nl ++
  "    const response = await docClient.send(command);" ++ nl ++
  "    console.log(" ++ dq ++ "Success - items added to " ++ tableName ++ dq ++ ");" ++ nl ++
  "    return response;" ++ nl ++
  "  } catch (err) {" ++ nl ++
  "    console.error(" ++ dq ++ "Error:" ++ dq ++ ", err);" ++ nl ++
  "  }" ++ nl ++
  "}" ++ nl ++ nl.

(** The function that sends one PutCommand per document. *)
Definition perItemFunction (tableName : string) (count : nat) (blocks : list string)
  : string :=
  "// Nested document structure" ++ nl ++
  "// Function to add items using individual PutCommand" ++ nl ++
  "async function addNestedItems() {" ++ nl ++
  "  try {" ++ nl ++
  concatAll blocks ++
  "    console.log(" ++ dq ++ "Success - " ++ natToString count ++ " items added to " ++
  tableName ++ dq ++ ");" ++ nl ++
  "  } catch (err) {" ++ nl ++
  "    console.error(" ++ dq ++ "Error:" ++ dq ++ ", err);" ++ nl ++
  "  }" ++ nl ++
  "}" ++ nl ++ nl.

(** *** The code with references *)

















(** *** How the code of a structure opens, and where it names its target *)








(* ================================================================== *)
(** ** Vocabulary of the further properties *)
(* ================================================================== *)



(** How often the nested and the flat generator of a backend read the
    clock for one document. The ObjectId that the MongoDB generators ask
    of generateId costs a reading; the short identifiers of the other
    backends cost none. *)
Definition clockReadsPerDocument (b : Backend) (options : Options) : nat :=
  match b with
  | MongoDB => b2n (addIds options) + b2n (addTimestamps options)
  | CouchDB => b2n (addTimestamps options)
  | FirebaseDB => 0
  | DynamoDB => b2n (truthyOpt (sortKey options)) + 2 * b2n (addTimestamps options)
  end.

(** The function that the CouchDB code of a structure defines. *)
Definition couchFunctionOf (s : Structure) : string :=
  match s with
  | Nested => "addNestedDocuments"
  | Flat => "addFlatDocuments"
  | References => "addReferencedDocuments"
  | Arrays => "addArrayBasedDocument"
  end.

(** No document the extraction lists is null: neither the item itself,
    nor, through the arrays of objects among its fields, an element of
    such an array. The local function follows the one of [extractItem]. *)
Fixpoint extractable (item : value) : bool :=
  let field (v : value) : bool :=
    match v with
    | VArr elems => if isArrayOfObjects v then forallb extractable elems else true
    | _ => true
    end in
  match item with
  | VNull => false
  | VObj fields => forallb (fun kv => field (snd kv)) fields
  | VArr elems => forallb field elems
  | VStr _ | VNum _ | VBool _ | VDate _ => true
  end.

(** The local function of [extractable]. *)
Definition extractableField (v : value) : bool :=
  match v with
  | VArr elems => if isArrayOfObjects v then forallb extractable elems else true
  | _ => true
  end.

(** The store of the CouchDB extraction: it inherits the names of
    Object.prototype and none of them is a group. *)
Definition NoGroupInherited (s : Store) : Prop :=
  inheritedNames s = objectPrototypeNames /\
  forall name, In name (map fst (members s)) -> inList name objectPrototypeNames = false.

(* ================================================================== *)
(** ** jsonFormatter.js: validation and metrics

    The checks of validateJson push onto the arrays of the validation
    object they are handed; here each returns the object after its
    pushes. A warning or an issue is the object literal that the code
    pushes. formatterState.lastInput is an argument of validateJson. A
    for...in loop over a parsed object visits its own properties in the
    order Object.entries lists them, and visits nothing on a Date. *)
(* ================================================================== *)

Module JsonFormatter.

Record Validation : Type := mkValidation {
  valid : bool;
  issues : list value;
  warnings : list value
}.

(** const validation = { valid: true, issues: [], warnings: [] } *)
Definition newValidation : Validation := mkValidation true [] [].

(** validation.warnings.push({ type, path, message }) *)
Definition pushWarning (type path message : string) (validation : Validation)
  : Validation :=
  mkValidation (valid validation) (issues validation)
    (warnings validation ++
     [VObj [("type", VStr type); ("path", VStr path); ("message", VStr message)]]).

(** path || 'root' *)
Definition orRoot (path : string) : string :=
  match path with
  | EmptyString => "root"
  | _ => path
  end.

(** path ? path + '[' + index + ']' : '[' + index + ']' *)
Definition itemPath (path : string) (index : nat) : string :=
  match path with
  | EmptyString => "[" ++ natToString index ++ "]"
  | _ => path ++ "[" ++ natToString index ++ "]"
  end.

(** path ? path + '.' + key : key *)
Definition propPath (path key : string) : string :=
  match path with
  | EmptyString => key
  | _ => path ++ "." ++ key
  end.

(** typeof v === 'object' && v !== null *)
Definition isObject (v : value) : bool :=
  match v with
  | VObj _ | VArr _ | VDate _ => true
  | _ => false
  end.

(** data.forEach((item, index) => ...) for a callback that updates a state. *)
Fixpoint foldIndexed (A St : Type) (f : nat -> A -> St -> St) (l : list A) (index : nat)
         (s : St) : St :=
  match l with
  | [] => s
  | x :: l' => foldIndexed f l' (S index) (f index x s)
  end.

Fixpoint checkEmptyCollections (data : value) (path : string) (validation : Validation)
         {struct data} : Validation :=
  match data with
  | VArr items =>
      let validation :=
        match items with
        | [] => pushWarning "emptyArray" (orRoot path)
                  ("Empty array found at " ++ orRoot path) validation
        | _ => validation
        end in
      foldIndexed
        (fun index item acc =>
           if isObject item
           then checkEmptyCollections item (itemPath path index) acc
           else acc)
        items 0 validation
  | VObj fields =>
      let validation :=
        match fields with
        | [] => pushWarning "emptyObject" (orRoot path)
                  ("Empty object found at " ++ orRoot path) validation
        | _ => validation
        end in
      fold_left
        (fun acc kv =>
           if isObject (snd kv)
           then checkEmptyCollections (snd kv) (propPath path (fst kv)) acc
           else acc)
        fields validation
  | VDate _ =>
      pushWarning "emptyObject" (orRoot path)
        ("Empty object found at " ++ orRoot path) validation
  | VNull | VBool _ | VNum _ | VStr _ => validation
  end.

(** The type name that checkArrayConsistency gives to an item. *)
Definition typeName (item : value) : string :=
  match item with
  | VNull => "null"
  | VArr _ => "array"
  | VStr _ => "string"
  | VNum _ => "number"
  | VBool _ => "boolean"
  | VObj _ | VDate _ => "object"
  end.

(** [...new Set(types)]: the first occurrence of each name, in order. *)
Fixpoint uniqueFrom (seen l : list string) : list string :=
  match l with
  | [] => []
  | x :: l' =>
      if inList x seen then uniqueFrom seen l' else x :: uniqueFrom (x :: seen) l'
  end.

Definition unique (l : list string) : list string := uniqueFrom [] l.

Fixpoint checkArrayConsistency (data : value) (path : string) (validation : Validation)
         {struct data} : Validation :=
  match data with
  | VArr items =>
      if Nat.ltb 1 (length items) then
        let uniqueTypes := unique (map typeName items) in
        let validation :=
          if Nat.ltb 1 (length uniqueTypes)
          then pushWarning "inconsistentArray" (orRoot path)
                 ("Array at " ++ orRoot path ++ " contains mixed types: " ++
                  join ", " uniqueTypes) validation
          else validation in
        foldIndexed
          (fun index item acc =>
             if isObject item
             then checkArrayConsistency item (itemPath path index) acc
             else acc)
          items 0 validation
      else validation
  | VObj fields =>
      fold_left
        (fun acc kv =>
           if isObject (snd kv)
           then checkArrayConsistency (snd kv) (propPath path (fst kv)) acc
           else acc)
        fields validation
  | VDate _ | VNull | VBool _ | VNum _ | VStr _ => validation
  end.

Definition MAX_RECOMMENDED_DEPTH : nat := 10.

Fixpoint checkNestingDepth (data : value) (path : string) (depth : nat)
         (validation : Validation) {struct data} : Validation :=
  let validation :=
    if Nat.ltb MAX_RECOMMENDED_DEPTH depth
    then pushWarning "deepNesting" (orRoot path)
           ("Deep nesting (depth " ++ natToString depth ++ ") at " ++ orRoot path)
           validation
    else validation in
  match data with
  | VArr items =>
      foldIndexed
        (fun index item acc =>
           if isObject item
           then checkNestingDepth item (itemPath path index) (depth + 1) acc
           else acc)
        items 0 validation
  | VObj fields =>
      fold_left
        (fun acc kv =>
           if isObject (snd kv)
           then checkNestingDepth (snd kv) (propPath path (fst kv)) (depth + 1) acc
           else acc)
        fields validation
  | VDate _ | VNull | VBool _ | VNum _ | VStr _ => validation
  end.

Definition LARGE_ARRAY_THRESHOLD : nat := 1000.

Fixpoint checkLargeArrays (data : value) (path : string) (validation : Validation)
         {struct data} : Validation :=
  match data with
  | VArr items =>
      let validation :=
        if Nat.ltb LARGE_ARRAY_THRESHOLD (length items)
        then pushWarning "largeArray" (orRoot path)
               ("Large array (" ++ natToString (length items) ++ " items) at " ++
                orRoot path) validation
        else validation in
      foldIndexed
        (fun index item acc =>
           if isObject item
           then checkLargeArrays item (itemPath path index) acc
           else acc)
        items 0 validation
  | VObj fields =>
      fold_left
        (fun acc kv =>
           if isObject (snd kv)
           then checkLargeArrays (snd kv) (propPath path (fst kv)) acc
           else acc)
        fields validation
  | VDate _ | VNull | VBool _ | VNum _ | VStr _ => validation
  end.

(** *** checkDuplicateKeys

    The regular expression matches a double quote, one or more characters
    other than a double quote, a double quote, and then looks ahead for
    white space and a colon. exec resumes after the closing quote of a
    match and otherwise tries the next position. *)

(** \s, on the code units below 256: tab, line feed, vertical tab, form
    feed, carriage return, space and the no-break space. *)
Definition isSpace (c : ascii) : bool :=
  let n := nat_of_ascii c in
  (Nat.leb 9 n && Nat.leb n 13) || Nat.eqb n 32 || Nat.eqb n 160.

(** The characters before the first double quote of the text, and the
    text after that quote. *)
Fixpoint untilQuote (s : string) : option (string * string) :=
  match s with
  | EmptyString => None
  | String c r =>
      if Ascii.eqb c dqc then Some (EmptyString, r)
      else match untilQuote r with
           | Some (key, rest) => Some (String c key, rest)
           | None => None
           end
  end.

(** The lookahead: white space, then a colon. *)
Fixpoint colonAhead (s : string) : bool :=
  match s with
  | EmptyString => false
  | String c r =>
      if Ascii.eqb c ":"%char then true
      else if isSpace c then colonAhead r
      else false
  end.

(** The key of the match that begins with the first character of the
    text, if there is one. *)
Definition keyAt (s : string) : option string :=
  match s with
  | EmptyString => None
  | String c r =>
      if Ascii.eqb c dqc then
        match untilQuote r with
        | Some (String k key, rest) =>
            if colonAhead rest then Some (String k key) else None
        | _ => None
        end
      else None
  end.

(** The matches of the while loop over the text: the key, its line and
    its position. [position] is the index of the first character of the
    text, [line] the number of line feeds before it plus one, and [skip]
    the number of characters that remain of the last match. *)
Fixpoint matches (s : string) (position line skip : nat)
  : list (string * (nat * nat)) :=
  match s with
  | EmptyString => []
  | String c r =>
      let line' := if Ascii.eqb c (ascii_of_nat 10) then S line else line in
      match skip with
      | S n => matches r (S position) line' n
      | O =>
          match keyAt s with
          | Some key =>
              (key, (line, position)) ::
              matches r (S position) line' (String.length key + 1)
          | None => matches r (S position) line' 0
          end
      end
  end.

(** { line: lineNumber, position } *)
Definition occurrence (line position : nat) : value :=
  VObj [("line", VNum (Z.of_nat line)); ("position", VNum (Z.of_nat position))].

(** o.line, printed *)
Definition lineOf (o : value) : string :=
  match o with
  | VObj (("line", VNum n) :: _) => numberToString n
  | _ => EmptyString
  end.

(** The for...in loop over keys: an issue for every key found twice. *)
Definition reportDuplicate (validation : Validation) (entry : string * list value)
  : Validation :=
  let (key, occurrences) := entry in
  if Nat.ltb 1 (length occurrences)
  then mkValidation false
         (issues validation ++
          [VObj [("type", VStr "duplicateKey"); ("key", VStr key);
                 ("occurrences", VArr occurrences);
                 ("message",
                  VStr ("Duplicate key " ++ dq ++ key ++ dq ++ " found at lines " ++
                        join ", " (map lineOf occurrences)))]])
         (warnings validation)
  else validation.

Definition checkDuplicateKeys (jsonString : string) (validation : Validation)
  : Error + Validation :=
  match foldE (fun m keys =>
                 pushAll (fst m) [occurrence (fst (snd m)) (snd (snd m))] keys)
              (matches jsonString 0 1 0) newStore with
  | inl e => inl e
  | inr keys => inr (fold_left reportDuplicate (members keys) validation)
  end.

Definition validateJson (lastInput : option string) (jsonData : value)
  : Error + Validation :=
  let validation := checkEmptyCollections jsonData EmptyString newValidation in
  let validation := checkArrayConsistency jsonData EmptyString validation in
  let validation := checkNestingDepth jsonData EmptyString 0 validation in
  let validation := checkLargeArrays jsonData EmptyString validation in
  if truthyOpt lastInput
  then checkDuplicateKeys (orElse lastInput EmptyString) validation
  else inr validation.

(** *** generateJsonMetadata: the counters of calculateJsonMetrics *)

Record ValueTypes : Type := mkValueTypes {
  strings : nat;
  numbers : nat;
  booleans : nat;
  nulls : nat;
  objects : nat;
  arrays : nat
}.

Record Metadata : Type := mkMetadata {
  size : nat;
  nodeCount : nat;
  depth : nat;
  arrayCount : nat;
  objectCount : nat;
  keyCount : nat;
  valueTypes : ValueTypes
}.

(** The metadata object as generateJsonMetadata hands it to
    calculateJsonMetrics, [bytes] being the size it has computed. *)
Definition newMetadata (bytes : nat) : Metadata :=
  mkMetadata bytes 0 0 0 0 0 (mkValueTypes 0 0 0 0 0 0).

(** metadata.nodeCount++; metadata.depth = Math.max(metadata.depth, depth) *)
Definition countNode (level : nat) (m : Metadata) : Metadata :=
  mkMetadata (size m) (S (nodeCount m)) (Nat.max (depth m) level)
             (arrayCount m) (objectCount m) (keyCount m) (valueTypes m).

(** metadata.arrayCount++; metadata.valueTypes.array++ *)
Definition countArray (m : Metadata) : Metadata :=
  let t := valueTypes m in
  mkMetadata (size m) (nodeCount m) (depth m) (S (arrayCount m)) (objectCount m)
             (keyCount m)
             (mkValueTypes (strings t) (numbers t) (booleans t) (nulls t) (objects t)
                           (S (arrays t))).

(** metadata.objectCount++; metadata.valueTypes.object++;
    metadata.keyCount += Object.keys(data).length *)
Definition countObject (keys : nat) (m : Metadata) : Metadata :=
  let t := valueTypes m in
  mkMetadata (size m) (nodeCount m) (depth m) (arrayCount m) (S (objectCount m))
             (keyCount m + keys)
             (mkValueTypes (strings t) (numbers t) (booleans t) (nulls t)
                           (S (objects t)) (arrays t)).

(** metadata.valueTypes.null++ and metadata.valueTypes[typeof data]++ *)
Definition countScalar (data : value) (m : Metadata) : Metadata :=
  let t := valueTypes m in
  mkMetadata (size m) (nodeCount m) (depth m) (arrayCount m) (objectCount m)
             (keyCount m)
             match data with
             | VNull =>
                 mkValueTypes (strings t) (numbers t) (booleans t) (S (nulls t))
                              (objects t) (arrays t)
             | VStr _ =>
                 mkValueTypes (S (strings t)) (numbers t) (booleans t) (nulls t)
                              (objects t) (arrays t)
             | VNum _ =>
                 mkValueTypes (strings t) (S (numbers t)) (booleans t) (nulls t)
                              (objects t) (arrays t)
             | VBool _ =>
                 mkValueTypes (strings t) (numbers t) (S (booleans t)) (nulls t)
                              (objects t) (arrays t)
             | _ => t
             end.

Fixpoint calculateJsonMetrics (data : value) (metadata : Metadata) (level : nat)
         {struct data} : Metadata :=
  let metadata := countNode level metadata in
  match data with
  | VArr items =>
      fold_left (fun acc item => calculateJsonMetrics item acc (level + 1))
                items (countArray metadata)
  | VObj fields =>
      fold_left (fun acc kv => calculateJsonMetrics (snd kv) acc (level + 1))
                fields (countObject (length fields) metadata)
  | VDate _ => countObject 0 metadata
  | VNull | VStr _ | VNum _ | VBool _ => countScalar data metadata
  end.

(** *** sortJsonKeys

    Object.keys(value).sort() puts the names in the order of their code
    units; the callback of reduce stores each of them, with its value,
    into an object that is empty at first. *)

Fixpoint insertSorted (k : string) (l : list string) : list string :=
  match l with
  | [] => [k]
  | x :: r => if String.leb k x then k :: x :: r else x :: insertSorted k r
  end.

Definition sortKeys (l : list string) : list string := fold_right insertSorted [] l.

(** A Date has no key; a name that Object.keys lists is an own property,
    so the lookup of the callback finds a value. *)
Definition sortJsonKeys (key : string) (v : value) : value :=
  match v with
  | VObj fields =>
      VObj (own (fold_left
                   (fun sorted k =>
                      match getOwn k fields with
                      | Some x => assign k x sorted
                      | None => sorted
                      end)
                   (sortKeys (map fst fields)) emptyObject))
  | VDate _ => VObj []
  | VArr _ | VNull | VBool _ | VNum _ | VStr _ => v
  end.

End JsonFormatter.

(** [v'] is [v] with the warnings [extra] pushed. *)
Definition Adds (extra : list value) (v v' : JsonFormatter.Validation) : Prop :=
  v' = JsonFormatter.mkValidation (JsonFormatter.valid v) (JsonFormatter.issues v)
         (JsonFormatter.warnings v ++ extra)%list.

(** Some array or object inside the value, the value included, has no
    element or no key. A Date has no key. *)
Fixpoint hasEmptyCollection (v : value) : bool :=
  match v with
  | VArr items =>
      match items with [] => true | _ => existsb hasEmptyCollection items end
  | VObj fields =>
      match fields with
      | [] => true
      | _ => existsb (fun kv => hasEmptyCollection (snd kv)) fields
      end
  | VDate _ => true
  | VNull | VBool _ | VNum _ | VStr _ => false
  end.

(** Some array inside the value, the value included, has more than 1000
    elements. *)
Fixpoint hasLargeArray (v : value) : bool :=
  match v with
  | VArr items => Nat.ltb 1000 (length items) || existsb hasLargeArray items
  | VObj fields => existsb (fun kv => hasLargeArray (snd kv)) fields
  | VDate _ | VNull | VBool _ | VNum _ | VStr _ => false
  end.

(** How deep the arrays and objects of the value are nested: 0 for a
    value that holds no array and no object, and one more than the
    deepest array or object among the elements or field values of an
    array or object. *)
Fixpoint nesting (v : value) : nat :=
  match v with
  | VArr items =>
      fold_right (fun x acc => if JsonFormatter.isObject x
                               then Nat.max (S (nesting x)) acc else acc) 0 items
  | VObj fields =>
      fold_right (fun kv acc => if JsonFormatter.isObject (snd kv)
                                then Nat.max (S (nesting (snd kv))) acc else acc)
                 0 fields
  | VDate _ | VNull | VBool _ | VNum _ | VStr _ => 0
  end.

(** The height of the value as a tree: 0 for a scalar, a Date, an empty
    array and an empty object, and one more than the highest element or
    field value otherwise. *)
Fixpoint height (v : value) : nat :=
  match v with
  | VArr items => fold_right (fun x acc => Nat.max (S (height x)) acc) 0 items
  | VObj fields =>
      fold_right (fun kv acc => Nat.max (S (height (snd kv))) acc) 0 fields
  | VDate _ | VNull | VBool _ | VNum _ | VStr _ => 0
  end.

(** The sum of the six counters of valueTypes. *)
Definition typesTotal (t : JsonFormatter.ValueTypes) : nat :=
  JsonFormatter.strings t + JsonFormatter.numbers t + JsonFormatter.booleans t +
  JsonFormatter.nulls t + JsonFormatter.objects t + JsonFormatter.arrays t.

(** From [m] to [m'] the traversal has kept the size, has raised the
    depth to at least [h], and has counted every node once in nodeCount
    and once in a counter of valueTypes, every array in arrayCount and
    every object in objectCount. *)
Definition Counted (h : nat) (m m' : JsonFormatter.Metadata) : Prop :=
  JsonFormatter.size m' = JsonFormatter.size m /\
  JsonFormatter.depth m' = Nat.max (JsonFormatter.depth m) h /\
  JsonFormatter.nodeCount m' + typesTotal (JsonFormatter.valueTypes m) =
    JsonFormatter.nodeCount m + typesTotal (JsonFormatter.valueTypes m') /\
  JsonFormatter.arrayCount m' + JsonFormatter.arrays (JsonFormatter.valueTypes m) =
    JsonFormatter.arrayCount m + JsonFormatter.arrays (JsonFormatter.valueTypes m') /\
  JsonFormatter.objectCount m' + JsonFormatter.objects (JsonFormatter.valueTypes m) =
    JsonFormatter.objectCount m + JsonFormatter.objects (JsonFormatter.valueTypes m').

(** The validation object is marked invalid exactly when it holds an
    issue, and every issue it holds reports a key found at least twice. *)
Definition IssuesAreDuplicates (v : JsonFormatter.Validation) : Prop :=
  (JsonFormatter.valid v = true <-> JsonFormatter.issues v = []) /\
  forall issue, In issue (JsonFormatter.issues v) ->
    exists key occurrences message,
      issue = VObj [("type", VStr "duplicateKey"); ("key", VStr key);
                    ("occurrences", VArr occurrences); ("message", VStr message)] /\
      2 <= length occurrences.

(** The text is made of white space only. *)
Fixpoint blank (s : string) : bool :=
  match s with
  | EmptyString => true
  | String c r => JsonFormatter.isSpace c && blank r
  end.

(** The text holds no double quote. *)
Fixpoint quoteFree (s : string) : bool :=
  match s with
  | EmptyString => true
  | String c r => negb (Ascii.eqb c dqc) && quoteFree r
  end.

(** A key that the lookahead cannot mistake for white space before a
    colon: it holds no double quote and begins with a character that is
    neither white space nor a colon. *)
Definition plainKey (key : string) : bool :=
  quoteFree key &&
  match key with
  | EmptyString => false
  | String c _ => negb (JsonFormatter.isSpace c) && negb (Ascii.eqb c ":"%char)
  end.

(** *** The index statements

    The statement each backend writes for one candidate, and the one it
    writes for the first two candidates together. DynamoDB writes no
    compound statement; its command-line example creates the index of the
    first candidate only. *)

Definition singleIndex (b : Backend) (field : string) : string :=
  match b with
  | MongoDB =>
      ".createIndex({ " ++ field ++ ": 1 }, { name: " ++
      dq ++ field ++ "_index" ++ dq ++ " });" ++ nl
  | FirebaseDB => "  Field: " ++ field ++ ", Order: ASCENDING" ++ nl
  | DynamoDB =>
      "        - IndexName: " ++ field ++ "Index" ++ nl ++
      "          KeySchema:" ++ nl ++
      "            - AttributeName: " ++ field ++ nl ++
      "              KeyType: HASH" ++ nl
  | CouchDB =>
      Couch.createIndexBlock ("'" ++ field ++ "'") (field ++ "-index")
        (field ++ " index created successfully")
        ("Error creating " ++ field ++ " index:")
  end.

Definition compoundIndex (b : Backend) (first second : string) : string :=
  match b with
  | MongoDB =>
      ".createIndex({ " ++ first ++ ": 1, " ++ second ++ ": 1 }, { name: " ++
      dq ++ "compound_index" ++ dq ++ " });" ++ nl
  | FirebaseDB =>
      "  // Compound index suggestion:" ++ nl ++
      singleIndex FirebaseDB first ++ singleIndex FirebaseDB second
  | DynamoDB => EmptyString
  | CouchDB =>
      Couch.createIndexBlock ("'" ++ first ++ "', '" ++ second ++ "'") "compound-index"
        "Compound index created successfully" "Error creating compound index:"
  end.

Definition cliExample (first : string) : string :=
  "--attribute-definitions AttributeName=" ++ first ++ ",AttributeType=S " ++
  Dynamo.bs ++ nl ++
  "//   --global-secondary-index-updates " ++ dq ++ "[{" ++ Dynamo.bq ++ "Create" ++
  Dynamo.bq ++ ":{" ++ Dynamo.bq ++ "IndexName" ++ Dynamo.bq ++ ":" ++ Dynamo.bq ++
  first ++ "Index" ++ Dynamo.bq.

(** The text of the suggestions that depends on the candidates. *)
Definition suggestionsOf (b : Backend) (name : string) (fields : list string) : string :=
  match fields with
  | [] => "No obvious index candidates found in this data structure"
  | _ =>
      match b with
      | MongoDB => Mongo.renderIndexes name fields
      | FirebaseDB => Firebase.renderIndexes name fields
      | DynamoDB => Dynamo.renderIndexes name fields
      | CouchDB => Couch.renderIndexes fields
      end
  end.

(** *** The enumeration order of own properties

    [precedes k k'] holds when an object that owns both names lists [k]
    before [k'] whatever the order of their creation is, or may do so:
    array indices in ascending order, then the other names. *)

Definition precedes (k k' : string) : Prop :=
  match arrayIndex k, arrayIndex k' with
  | Some n, Some m => (n < m)%N
  | Some _, None => True
  | None, Some _ => False
  | None, None => k <> k'
  end.

(** The names are distinct and in an order of enumeration. *)
Fixpoint Enumerated (keys : list string) : Prop :=
  match keys with
  | [] => True
  | k :: rest => Forall (precedes k) rest /\ Enumerated rest
  end.

(* ================================================================== *)
(** ** utils.js: escapeHtml and the case converters

    The characters of a text are its code units; the classes \w, \s and
    [A-Z] and the boundary \b are those of a regular expression without
    flags other than g. *)
(* ================================================================== *)

Module Utils.

(** escapeMap[match], and the character itself when it is none of the
    five that the regular expression of escapeHtml matches. *)
Definition escapeChar (c : ascii) : string :=
  if Ascii.eqb c "&"%char then "&amp;"
  else if Ascii.eqb c "<"%char then "&lt;"
  else if Ascii.eqb c ">"%char then "&gt;"
  else if Ascii.eqb c dqc then "&quot;"
  else if Ascii.eqb c "'"%char then "&#039;"
  else String c EmptyString.

Fixpoint escapeHtml (html : string) : string :=
  match html with
  | EmptyString => EmptyString
  | String c r => escapeChar c ++ escapeHtml r
  end.

(** \w *)
Definition isWord (c : ascii) : bool :=
  isUpper c || isLower c || isDigit c || Ascii.eqb c "_"%char.

(** str.replace(/(?:^\w|[A-Z]|\b\w)/g, (word, index) => index === 0 ?
    word.toLowerCase() : other(word)): a character matches when it is a
    capital, or a word character that begins the text or follows a
    character that is not a word character. [afterWord] tells whether the
    character before the rest [s] is a word character and [index] is the
    offset of [s] in the text. *)
Fixpoint replaceWords (other : ascii -> string) (afterWord : bool) (index : nat)
         (s : string) : string :=
  match s with
  | EmptyString => EmptyString
  | String c r =>
      (if isUpper c || (isWord c && negb afterWord)
       then if Nat.eqb index 0 then String (lowerChar c) EmptyString else other c
       else String c EmptyString) ++
      replaceWords other (isWord c) (S index) r
  end.

(** str.replace(/\s+|[...]/g, by): every run of white space and every
    character of the class is replaced by [by]. [inRun] tells whether the
    character before [s] is white space. *)
Fixpoint replaceSeparators (single : ascii -> bool) (by_ : string) (inRun : bool)
         (s : string) : string :=
  match s with
  | EmptyString => EmptyString
  | String c r =>
      if JsonFormatter.isSpace c
      then (if inRun then EmptyString else by_) ++ replaceSeparators single by_ true r
      else if single c then by_ ++ replaceSeparators single by_ false r
      else String c (replaceSeparators single by_ false r)
  end.

Definition toCamelCase (str : string) : string :=
  replaceSeparators (fun c => Ascii.eqb c "-"%char || Ascii.eqb c "_"%char) EmptyString
    false
    (replaceWords (fun c => String (upperChar c) EmptyString) false 0 str).

Definition toSnakeCase (str : string) : string :=
  replaceSeparators (fun c => Ascii.eqb c "-"%char) "_" false
    (replaceWords (fun c => String "_"%char (String (lowerChar c) EmptyString)) false 0 str).

Definition toKebabCase (str : string) : string :=
  replaceSeparators (fun c => Ascii.eqb c "_"%char) "-" false
    (replaceWords (fun c => String "-"%char (String (lowerChar c) EmptyString)) false 0 str).

End Utils.

(** The text holds the character. *)
Fixpoint occurs (c : ascii) (s : string) : bool :=
  match s with
  | EmptyString => false
  | String d r => Ascii.eqb d c || occurs c r
  end.

(** No character of the text is one that escapeHtml replaces. *)
Definition plainText (s : string) : bool :=
  negb (occurs "&"%char s || occurs "<"%char s || occurs ">"%char s ||
        occurs dqc s || occurs "'"%char s).

(** A word of small letters. *)
Fixpoint smallLetters (s : string) : bool :=
  match s with
  | EmptyString => true
  | String c r => isLower c && smallLetters r
  end.

(** Two of the items have different type names. *)
Definition mixed (items : list value) : bool :=
  existsb (fun x =>
    existsb (fun y =>
      negb (String.eqb (JsonFormatter.typeName x) (JsonFormatter.typeName y))) items)
    items.

(** Some array inside the value, the value included, has items of
    different type names. *)
Fixpoint hasMixedArray (v : value) : bool :=
  match v with
  | VArr items => mixed items || existsb hasMixedArray items
  | VObj fields => existsb (fun kv => hasMixedArray (snd kv)) fields
  | VDate _ | VNull | VBool _ | VNum _ | VStr _ => false
  end.

(** The name is not an array index. *)
Definition nonIndex (k : string) : bool :=
  match arrayIndex k with
  | Some _ => false
  | None => true
  end.

(** The object under construction after the names [stored], taken from
    the fields, have been stored. *)
Definition Stored (fields : list (string * value)) (stored : list string)
           (o : Flattened) : Prop :=
  (forall k, In k stored -> getOwn k (own o) = getOwn k fields) /\
  (forall k, ~ In k stored -> getOwn k (own o) = None) /\
  Enumerated (map fst (own o)) /\
  filter nonIndex (map fst (own o)) = filter nonIndex stored.

(** *** Failure of a generation *)

(** The computation throws [e], whatever the oracles answer. *)
Definition Fails (A : Type) (e : Error) (m : M A) : Prop :=
  forall w, m w = Throw e.

(** The computation returns, or throws [e]. *)
Definition ReturnsOrFails (A : Type) (e : Error) (m : M A) : Prop :=
  forall w, (exists a w', m w = Return a w') \/ m w = Throw e.

(** The generator reads dataArray[0] when there are fewer than two
    documents: the nested and the flat generator of CouchDB. *)
Definition readsFirstDocument (b : Backend) (s : Structure) : bool :=
  match b, s with
  | CouchDB, Nested | CouchDB, Flat => true
  | _, _ => false
  end.

(** The group [name] of the store holds at least [n] items. *)
Definition AtLeast (name : string) (n : nat) (s : Store) : Prop :=
  exists items, getOwn name (members s) = Some items /\ n <= length items.

(** *** What calculateJsonMetrics counts *)

(** The number of the nodes of the value, the value included, that
    satisfy [p]. *)
Fixpoint countNodes (p : value -> bool) (v : value) : nat :=
  (if p v then 1 else 0) +
  match v with
  | VArr items => fold_right (fun x acc => countNodes p x + acc) 0 items
  | VObj fields => fold_right (fun kv acc => countNodes p (snd kv) + acc) 0 fields
  | VDate _ | VNull | VBool _ | VNum _ | VStr _ => 0
  end.

(** The number of the fields of all the objects of the value. *)
Fixpoint countKeys (v : value) : nat :=
  match v with
  | VArr items => fold_right (fun x acc => countKeys x + acc) 0 items
  | VObj fields =>
      length fields + fold_right (fun kv acc => countKeys (snd kv) + acc) 0 fields
  | VDate _ | VNull | VBool _ | VNum _ | VStr _ => 0
  end.

Definition isString (v : value) : bool := match v with VStr _ => true | _ => false end.
Definition isNumber (v : value) : bool := match v with VNum _ => true | _ => false end.
Definition isBoolean (v : value) : bool := match v with VBool _ => true | _ => false end.
Definition isNull (v : value) : bool := match v with VNull => true | _ => false end.

(** From [m] to [m'] every counter has grown by the number of the nodes
    of the values [l] that it counts, keyCount by their number of fields. *)
Definition Tallied (l : list value) (m m' : JsonFormatter.Metadata) : Prop :=
  let total (count : value -> nat) := fold_right (fun x acc => count x + acc) 0 l in
  JsonFormatter.nodeCount m' = JsonFormatter.nodeCount m + total (countNodes (fun _ => true)) /\
  JsonFormatter.keyCount m' = JsonFormatter.keyCount m + total countKeys /\
  JsonFormatter.arrayCount m' = JsonFormatter.arrayCount m + total (countNodes isArray) /\
  JsonFormatter.objectCount m' =
    JsonFormatter.objectCount m + total (countNodes isPlainObject) /\
  JsonFormatter.strings (JsonFormatter.valueTypes m') =
    JsonFormatter.strings (JsonFormatter.valueTypes m) + total (countNodes isString) /\
  JsonFormatter.numbers (JsonFormatter.valueTypes m') =
    JsonFormatter.numbers (JsonFormatter.valueTypes m) + total (countNodes isNumber) /\
  JsonFormatter.booleans (JsonFormatter.valueTypes m') =
    JsonFormatter.booleans (JsonFormatter.valueTypes m) + total (countNodes isBoolean) /\
  JsonFormatter.nulls (JsonFormatter.valueTypes m') =
    JsonFormatter.nulls (JsonFormatter.valueTypes m) + total (countNodes isNull).

(** The identifier that the DynamoDB generators write for the document
    at [index] when addIds is off. *)
Definition positionalId (s : Structure) (index : nat) : string :=
  match s with
  | Arrays => "item-" ++ natToString (index + 1)
  | _ => natToString (index + 1)
  end.


(* ================================================================== *)
(** ** Strings *)
(* ================================================================== *)

Unset Implicit Arguments.

Lemma append_assoc (a b c : string) : (a ++ b) ++ c = a ++ (b ++ c).
Proof.
  induction a as [| x a IH]; simpl; [reflexivity | now rewrite IH].
Qed.

Lemma append_empty_r (a : string) : a ++ EmptyString = a.
Proof.
  induction a as [| x a IH]; simpl; [reflexivity | now rewrite IH].
Qed.

Lemma substring_refl (s : string) : Substring s s.
Proof.
  exists EmptyString, EmptyString. simpl. now rewrite append_empty_r.
Qed.

Lemma substring_app_l (a b sub : string) : Substring a sub -> Substring (a ++ b) sub.
Proof.
  intros (p & q & ->). exists p, (q ++ b). now rewrite !append_assoc.
Qed.

Lemma substring_app_r (a b sub : string) : Substring b sub -> Substring (a ++ b) sub.
Proof.
  intros (p & q & ->). exists (a ++ p), q. now rewrite !append_assoc.
Qed.

Lemma substring_trans (a b c : string) :
  Substring a b -> Substring b c -> Substring a c.
Proof.
  intros (p & q & ->) (p' & q' & ->).
  exists (p ++ p'), (q' ++ q). now rewrite !append_assoc.
Qed.



(* ================================================================== *)
(** ** The value serializers (claim C1) *)
(* ================================================================== *)





(* ================================================================== *)
(** ** The index advisor (claims C6 and C7) *)
(* ================================================================== *)

(** C6, as stated, fails: handed the sample document itself, the scan
    looks at no field, in any backend, and the candidate list is empty. *)
Lemma C6_object_input_not_sampled :
  indexFields sampleDocument = inr [] /\
  Mongo.generateIndexSuggestions sampleDocument "users" exampleWorld =
  Return ("// Index Suggestions" ++ nl ++
          "// No obvious index candidates found in this data structure" ++ nl)
         exampleWorld.
Proof.
  split; reflexivity.
Qed.

(** C6, amended: when the input is an array whose first element is the
    sample document, the scan shared by the four backends yields exactly
    user_id, email, created_at, in field order and without notes, and each
    backend renders that list; when the input is not an array, or is the
    empty array, the list is empty. *)
Theorem C6_sample_candidates :
  forall (rest : list value) (name : string) (w : World),
    indexFields (VArr (sampleDocument :: rest)) =
      inr ["user_id"; "email"; "created_at"] /\
    indexFields sampleDocument = inr [] /\
    indexFields (VArr []) = inr [] /\
    Mongo.generateIndexSuggestions (VArr (sampleDocument :: rest)) name w =
      Return ("// Index Suggestions" ++ nl ++
              Mongo.renderIndexes name ["user_id"; "email"; "created_at"]) w /\
    Firebase.generateIndexSuggestions (VArr (sampleDocument :: rest)) name w =
      Return ("// Index Suggestions for Firebase" ++ nl ++
              "// Add these indexes in the Firebase console or using the Firebase CLI" ++
              nl ++ nl ++
              Firebase.renderIndexes name ["user_id"; "email"; "created_at"]) w /\
    Dynamo.generateIndexSuggestions (VArr (sampleDocument :: rest)) name w =
      Return ("// DynamoDB Index Suggestions" ++ nl ++
              "// These are suggestions for Global Secondary Indexes (GSIs)" ++
              nl ++ nl ++
              Dynamo.renderIndexes name ["user_id"; "email"; "created_at"]) w /\
    Couch.generateIndexSuggestions (VArr (sampleDocument :: rest)) w =
      Return ("// CouchDB Index Suggestions" ++ nl ++
              "// Function to create indexes" ++ nl ++
              "async function createIndexes() {" ++ nl ++
              Couch.renderIndexes ["user_id"; "email"; "created_at"] ++
              "}" ++ nl ++ nl) w.
Proof.
  intros rest name w. repeat split; reflexivity.
Qed.

Lemma count_occ_fieldPushes (key k : string) (v : value) :
  count_occ string_dec (fieldPushes (k, v)) key =
  if String.eqb k key
  then b2n (idHeuristic k) + b2n (dateHeuristic k v) + b2n (nameHeuristic k)
  else 0.
Proof.
  unfold fieldPushes. rewrite !count_occ_app.
  destruct (String.eqb_spec k key) as [-> | N].
  - destruct (idHeuristic key), (dateHeuristic key v), (nameHeuristic key);
      simpl; destruct (string_dec key key); try contradiction; reflexivity.
  - destruct (idHeuristic k), (dateHeuristic k v), (nameHeuristic k);
      simpl; destruct (string_dec k key); try contradiction; reflexivity.
Qed.

Lemma count_occ_pushes_absent (fields : list (string * value)) (key : string) :
  ~ In key (map fst fields) ->
  count_occ string_dec (flat_map fieldPushes fields) key = 0.
Proof.
  induction fields as [| [k v] fields IH]; intros H; [reflexivity |].
  cbn [flat_map]. rewrite count_occ_app, count_occ_fieldPushes.
  destruct (String.eqb_spec k key) as [-> | _].
  - exfalso. apply H. now left.
  - apply IH. intros I. apply H. now right.
Qed.

Lemma count_occ_pushes (fields : list (string * value)) (key : string) (v : value) :
  NoDup (map fst fields) -> In (key, v) fields ->
  count_occ string_dec (flat_map fieldPushes fields) key =
  b2n (idHeuristic key) + b2n (dateHeuristic key v) + b2n (nameHeuristic key).
Proof.
  induction fields as [| [k u] fields IH]; intros D I; [contradiction |].
  cbn [map fst] in D. inversion D as [| ? ? Hk D']; subst.
  cbn [flat_map]. rewrite count_occ_app, count_occ_fieldPushes.
  destruct I as [E | I].
  - inversion E; subst. rewrite String.eqb_refl.
    rewrite count_occ_pushes_absent by exact Hk. lia.
  - destruct (String.eqb_spec k key) as [-> | _].
    + exfalso. apply Hk. change key with (fst (key, v)). now apply in_map.
    + now apply IH.
Qed.

(** C7, as stated, fails: a field that satisfies two heuristics is pushed
    twice. *)
Lemma C7_duplicate_candidate :
  indexFields (VArr [VObj [("user_id", VStr "2024-01-01")]]) =
  inr ["user_id"; "user_id"].
Proof.
  reflexivity.
Qed.

(** C7, amended: the candidate sequence holds a field name once for each
    of the three heuristic groups the field satisfies (identifier, date or
    time, name or email), hence at most three times, and exactly once when
    the field satisfies one group only; the names of the sample document
    being distinct. *)
Theorem C7_candidate_multiplicity :
  forall (sampleItem : value) (rest : list value) (fields : list (string * value)),
    entries (Some sampleItem) = inr fields ->
    NoDup (map fst fields) ->
    exists candidates,
      indexFields (VArr (sampleItem :: rest)) = inr candidates /\
      (forall key v, In (key, v) fields ->
         count_occ string_dec candidates key =
           b2n (idHeuristic key) + b2n (dateHeuristic key v) + b2n (nameHeuristic key) /\
         count_occ string_dec candidates key <= 3) /\
      (forall key, ~ In key (map fst fields) ->
         count_occ string_dec candidates key = 0).
Proof.
  intros sampleItem rest fields E D.
  exists (flat_map fieldPushes fields). split; [| split].
  - unfold indexFields. now rewrite E.
  - intros key v I. rewrite (count_occ_pushes _ _ _ D I). split; [reflexivity |].
    destruct (idHeuristic key), (dateHeuristic key v), (nameHeuristic key);
      simpl; lia.
  - intros key H. now apply count_occ_pushes_absent.
Qed.

Lemma C7_candidate_multiplicity_witness :
  exists candidates,
    indexFields (VArr [VObj [("user_id", VStr "2024-01-01"); ("notes", VStr "x")]]) =
      inr candidates /\
    count_occ string_dec candidates "user_id" = 2.
Proof.
  destruct (C7_candidate_multiplicity
              (VObj [("user_id", VStr "2024-01-01"); ("notes", VStr "x")]) []
              [("user_id", VStr "2024-01-01"); ("notes", VStr "x")] eq_refl)
    as (candidates & E & H & _).
  - repeat constructor; simpl; intuition discriminate.
  - exists candidates. split; [exact E |].
    destruct (H "user_id" (VStr "2024-01-01")) as [C _]; [now left |].
    exact C.
Defined.

(* ================================================================== *)
(** ** Computations that return *)
(* ================================================================== *)

Lemma Returns_ret (A : Type) (a : A) : Returns (ret a).
Proof.
  intros w. now exists a, w.
Qed.

Lemma Returns_bind (A B : Type) (m : M A) (k : A -> M B) :
  Returns m -> (forall a, Returns (k a)) -> Returns (bind m k).
Proof.
  intros Hm Hk w. unfold bind.
  destruct (Hm w) as (a & w1 & ->). apply Hk.
Qed.

Lemma Returns_generateId (short : bool) : Returns (generateId short).
Proof.
  intros w. unfold generateId. eauto.
Qed.

Lemma Returns_nowISO : Returns nowISO.
Proof.
  intros w. unfold nowISO. eauto.
Qed.

Lemma Returns_when (cond : bool) (m : M string) : Returns m -> Returns (when cond m).
Proof.
  intros H. destruct cond; simpl; [exact H | apply Returns_ret].
Qed.

Lemma Returns_lift (A : Type) (r : Error + A) (a : A) : r = inr a -> Returns (lift r).
Proof.
  intros ->. apply Returns_ret.
Qed.

Lemma Returns_bind_lift (A B : Type) (r : Error + A) (a : A) (k : A -> M B) :
  r = inr a -> Returns (k a) -> Returns (bind (lift r) k).
Proof.
  intros -> H w. apply H.
Qed.

Lemma Returns_forEach (A : Type) (f : A -> nat -> M string) (l : list A) :
  (forall x index, In x l -> Returns (f x index)) ->
  forall index, Returns (forEach f l index).
Proof.
  induction l as [| x l IH]; intros H index; simpl.
  - apply Returns_ret.
  - apply Returns_bind; [apply H; now left |].
    intros s. apply Returns_bind; [| intros rest; apply Returns_ret].
    apply IH. intros y j I. apply H. now right.
Qed.

Lemma bind_Return (A B : Type) (m : M A) (k : A -> M B) (w w' : World) (b : B) :
  bind m k w = Return b w' ->
  exists a w1, m w = Return a w1 /\ k a w1 = Return b w'.
Proof.
  unfold bind. destruct (m w) as [a w1 | e]; [| discriminate].
  intros H. now exists a, w1.
Qed.

Lemma lift_Return (A : Type) (r : Error + A) (w w' : World) (a : A) :
  lift r w = Return a w' -> r = inr a /\ w' = w.
Proof.
  destruct r as [e | x]; simpl; [discriminate |].
  unfold ret. intros H. inversion H. now split.
Qed.

Lemma ret_Return (A : Type) (a b : A) (w w' : World) :
  ret a w = Return b w' -> b = a /\ w' = w.
Proof.
  unfold ret. intros H. inversion H. now split.
Qed.

(** The text a forEach returns holds the text of each of its callbacks. *)
Lemma forEach_holds (A : Type) (f : A -> nat -> M string) (l : list A) :
  forall index w out w',
    forEach f l index w = Return out w' ->
    forall x, In x l ->
      exists j w1 s w2, f x j w1 = Return s w2 /\ Substring out s.
Proof.
  induction l as [| y l IH]; intros index w out w' H x I; [contradiction |].
  simpl in H.
  apply bind_Return in H as (s & w1 & Hs & H).
  apply bind_Return in H as (rest & w2 & Hrest & H).
  apply ret_Return in H as [-> ->].
  destruct I as [-> | I].
  - exists index, w, s, w1. split; [exact Hs |].
    apply substring_app_l, substring_refl.
  - destruct (IH _ _ _ _ Hrest x I) as (j & wa & t & wb & Ht & S).
    exists j, wa, t, wb. split; [exact Ht |]. now apply substring_app_r.
Qed.

Lemma forEachPure_holds (A : Type) (f : A -> nat -> string) (l : list A) :
  forall index x, In x l ->
    exists j, Substring (forEachPure f l index) (f x j).
Proof.
  induction l as [| y l IH]; intros index x I; [contradiction |].
  simpl. destruct I as [-> | I].
  - exists index. apply substring_app_l, substring_refl.
  - destruct (IH (S index) x I) as (j & S). exists j. now apply substring_app_r.
Qed.

(** The text a forEach returns is the texts of its callbacks, one per
    element and in order. *)
Lemma forEach_blocks (A : Type) (f : A -> nat -> M string)
      (P : nat -> A -> string -> Prop) (l : list A) :
  (forall x i w s w', In x l -> f x i w = Return s w' -> P i x s) ->
  forall index w out w',
    forEach f l index w = Return out w' ->
    exists blocks, Blocks P l index blocks /\ out = concatAll blocks.
Proof.
  induction l as [| y l IH]; intros Hf index w out w' H; simpl in H.
  - apply ret_Return in H as [-> _]. now exists [].
  - apply bind_Return in H as (s & w1 & Hs & H).
    apply bind_Return in H as (rest & w2 & Hrest & H).
    apply ret_Return in H as [-> _].
    destruct (IH (fun x i wa t wb I => Hf x i wa t wb (or_intror I)) _ _ _ _ Hrest)
      as (blocks & B & ->).
    exists (s :: blocks). split; [| reflexivity].
    split; [| exact B]. exact (Hf y index w s w1 (or_introl eq_refl) Hs).
Qed.

Lemma Blocks_length (A : Type) (P : nat -> A -> string -> Prop) (l : list A) :
  forall index blocks, Blocks P l index blocks -> length blocks = length l.
Proof.
  induction l as [| x l IH]; intros index [| block blocks] B; simpl in B;
    try contradiction; [reflexivity |].
  simpl. f_equal. exact (IH _ _ (proj2 B)).
Qed.

(** A pure forEach whose callback ignores the index is a map. *)
Lemma forEachPure_map (A : Type) (f : A -> nat -> string) (g : A -> string)
      (l : list A) :
  (forall x i, f x i = g x) ->
  forall index, forEachPure f l index = concatAll (map g l).
Proof.
  intros H. induction l as [| x l IH]; intros index; simpl; [reflexivity |].
  now rewrite H, IH.
Qed.



Lemma fieldLine_holds (indent : string) (toString : value -> string) (count i : nat)
      (kv : string * value) :
  Substring (fieldLine indent toString count kv i)
            (fst kv ++ ": " ++ toString (snd kv)).
Proof.
  unfold fieldLine. exists indent. eexists. rewrite !append_assoc. reflexivity.
Qed.

(** Walks a right-nested concatenation down to its part [x]. *)
Ltac reach x :=
  repeat match goal with
         | |- Substring (?a ++ _) _ =>
             match a with context [x] => apply substring_app_l end
         | |- Substring (_ ++ _) _ => apply substring_app_r
         end.



(** Goals of the form [Returns m], [m] built from the combinators. *)
Ltac returns_step :=
  match goal with
  | |- Returns (ret _) => apply Returns_ret
  | |- Returns (bind _ _) => apply Returns_bind; [| intro]
  | |- Returns (generateId _) => apply Returns_generateId
  | |- Returns nowISO => apply Returns_nowISO
  | |- Returns (when _ _) => apply Returns_when
  | |- Returns (forEach _ _ _) => apply Returns_forEach; intros ? ? ?
  | |- Returns (if ?c then _ else _) => destruct c
  | E : ?r = inr _ |- Returns (lift ?r) => exact (Returns_lift _ _ _ E)
  end.

Ltac returns_tac := repeat returns_step.

Lemma flattenObjectWith_listable (sep : string) (item : value) :
  Listable item -> exists fields, flattenObjectWith sep (Some item) = inr fields.
Proof.
  intros (fields & E). unfold flattenObjectWith, flattenObjectAt. rewrite E. eauto.
Qed.

Ltac returns_listable :=
  match goal with
  | H : ListableDocuments ?d, I : In ?x (dataArrayOf ?d)
    |- Returns (lift (entries (Some ?x))) =>
      let E := fresh "E" in
      destruct (H x I) as [? E]; exact (Returns_lift _ _ _ E)
  | H : ListableDocuments ?d, I : In ?x (dataArrayOf ?d)
    |- Returns (lift (flattenObjectWith ?sep (Some ?x))) =>
      let E := fresh "E" in
      destruct (flattenObjectWith_listable sep x (H x I)) as [? E];
      exact (Returns_lift _ _ _ E)
  end.

Ltac returns_all := repeat first [returns_listable | returns_step].

(* ------------------------------------------------------------------ *)
(** *** The nested, flat and array-based generators return on listable
        documents *)
(* ------------------------------------------------------------------ *)

Section ReturnsOnListable.
Variable jsonData : value.
Variable name : string.
Variable options : Options.
Hypothesis listable : ListableDocuments jsonData.

Lemma mongo_nested_returns : Returns (Mongo.generateNestedDocuments jsonData name options).
Proof.
  unfold Mongo.generateNestedDocuments, Mongo.idLine, Mongo.timestampLines.
  returns_all.
Qed.

Lemma mongo_flat_returns : Returns (Mongo.generateFlatDocuments jsonData name options).
Proof.
  unfold Mongo.generateFlatDocuments, Mongo.idLine, Mongo.timestampLines,
    Mongo.flattenObject.
  returns_all.
Qed.

Lemma mongo_arrays_returns :
  Returns (Mongo.generateArrayBasedDocuments jsonData name options).
Proof.
  unfold Mongo.generateArrayBasedDocuments, Mongo.idLine, Mongo.timestampLines.
  returns_all.
Qed.

Lemma firebase_nested_returns :
  Returns (Firebase.generateNestedDocuments jsonData name options).
Proof.
  unfold Firebase.generateNestedDocuments, Firebase.openDocument.
  returns_all.
Qed.

Lemma firebase_flat_returns :
  Returns (Firebase.generateFlatDocuments jsonData name options).
Proof.
  unfold Firebase.generateFlatDocuments, Firebase.openDocument, Firebase.flattenObject.
  returns_all.
Qed.

Lemma firebase_arrays_returns :
  Returns (Firebase.generateArrayBasedDocuments jsonData name options).
Proof.
  unfold Firebase.generateArrayBasedDocuments.
  returns_all.
Qed.

Lemma dynamo_nested_returns :
  Returns (Dynamo.generateNestedDocuments jsonData name options).
Proof.
  unfold Dynamo.generateNestedDocuments, Dynamo.idLine, Dynamo.sortKeyLine,
    Dynamo.timestampLines.
  returns_all.
Qed.

Lemma dynamo_flat_returns :
  Returns (Dynamo.generateFlatDocuments jsonData name options).
Proof.
  unfold Dynamo.generateFlatDocuments, Dynamo.idLine, Dynamo.sortKeyLine,
    Dynamo.timestampLines, Dynamo.flattenObject.
  returns_all.
Qed.

Lemma dynamo_arrays_returns :
  Returns (Dynamo.generateArrayBasedDocuments jsonData name options).
Proof.
  unfold Dynamo.generateArrayBasedDocuments, Dynamo.idLine, Dynamo.timestampLines.
  returns_all.
Qed.

Lemma couch_arrays_returns :
  Returns (Couch.generateArrayBasedDocuments jsonData options).
Proof.
  unfold Couch.generateArrayBasedDocuments, Couch.idLine, Couch.timestampLines.
  returns_all.
Qed.

(** The CouchDB nested and flat generators read dataArray[0] when there
    are fewer than two documents: they need one. *)
Hypothesis nonempty : dataArrayOf jsonData <> [].

Lemma couch_nested_returns : Returns (Couch.generateNestedDocuments jsonData options).
Proof.
  unfold Couch.generateNestedDocuments, Couch.bulkDocuments, Couch.singleDocument,
    Couch.idLine, Couch.timestampLines.
  destruct (dataArrayOf jsonData) as [| item rest] eqn:D; [contradiction |].
  assert (L : Listable item) by (apply listable; rewrite D; now left).
  destruct L as [fields E].
  rewrite <- D. returns_all. rewrite D. simpl. exact (Returns_lift _ _ _ E).
Qed.

Lemma couch_flat_returns : Returns (Couch.generateFlatDocuments jsonData options).
Proof.
  unfold Couch.generateFlatDocuments, Couch.bulkDocuments, Couch.singleDocument,
    Couch.idLine, Couch.timestampLines, Couch.flattenObject.
  destruct (dataArrayOf jsonData) as [| item rest] eqn:D; [contradiction |].
  assert (L : Listable item) by (apply listable; rewrite D; now left).
  destruct (flattenObjectWith_listable "_" item L) as [fields E].
  rewrite <- D. returns_all. rewrite D. simpl. exact (Returns_lift _ _ _ E).
Qed.

End ReturnsOnListable.

(* ================================================================== *)
(** ** Own properties *)
(* ================================================================== *)

Section OwnPropertyFacts.
Variable A : Type.
Implicit Types (o : list (string * A)) (k : string) (v : A).

Lemma getOwn_In k v o : getOwn k o = Some v -> In (k, v) o.
Proof.
  induction o as [| [k' v'] o IH]; simpl; [discriminate |].
  destruct (String.eqb_spec k' k) as [-> | _].
  - intros E. inversion E. now left.
  - intros E. right. now apply IH.
Qed.

Lemma In_getOwn k v o : In (k, v) o -> exists v', getOwn k o = Some v'.
Proof.
  induction o as [| [k' v'] o IH]; simpl; [contradiction |].
  intros [E | I].
  - inversion E; subst. rewrite String.eqb_refl. eauto.
  - destruct (String.eqb k' k); eauto.
Qed.

Lemma replaceOwn_In k v o k' v' :
  In (k', v') (replaceOwn k v o) -> (k', v') = (k, v) \/ In (k', v') o.
Proof.
  induction o as [| [k0 v0] o IH]; simpl; [tauto |].
  destruct (String.eqb_spec k0 k) as [-> | N]; simpl.
  - intros [E | I]; [now left | right; now right].
  - intros [E | I]; [right; now left |].
    destruct (IH I); [now left | right; now right].
Qed.

Lemma insertIndex_In n k v o k' v' :
  In (k', v') (insertIndex n k v o) <-> (k', v') = (k, v) \/ In (k', v') o.
Proof.
  induction o as [| [k0 v0] o IH]; simpl.
  - intuition congruence.
  - destruct (arrayIndex k0) as [m |]; [destruct (m <? n)%N |]; simpl;
      rewrite ?IH; intuition congruence.
Qed.

Lemma createOwn_In k v o k' v' :
  In (k', v') (createOwn k v o) <-> (k', v') = (k, v) \/ In (k', v') o.
Proof.
  unfold createOwn. destruct (arrayIndex k) as [n |].
  - apply insertIndex_In.
  - rewrite in_app_iff. simpl. intuition congruence.
Qed.

Lemma setOwn_In k v o k' v' :
  In (k', v') (setOwn k v o) -> (k', v') = (k, v) \/ In (k', v') o.
Proof.
  unfold setOwn. destruct (getOwn k o).
  - apply replaceOwn_In.
  - apply createOwn_In.
Qed.

Lemma getOwn_replaceOwn k v o k' :
  getOwn k' (replaceOwn k v o) =
  if String.eqb k k' then option_map (fun _ => v) (getOwn k o) else getOwn k' o.
Proof.
  induction o as [| [k0 v0] o IH]; simpl.
  - now destruct (String.eqb k k').
  - destruct (String.eqb_spec k0 k) as [-> | N]; simpl.
    + destruct (String.eqb_spec k k') as [-> | N']; [reflexivity |].
      reflexivity.
    + destruct (String.eqb_spec k0 k') as [-> | N'].
      * destruct (String.eqb_spec k k') as [-> | _]; [contradiction | reflexivity].
      * exact IH.
Qed.

Lemma getOwn_insertIndex n k v o k' :
  getOwn k o = None ->
  getOwn k' (insertIndex n k v o) = if String.eqb k k' then Some v else getOwn k' o.
Proof.
  induction o as [| [k0 v0] o IH]; simpl; intros H.
  - reflexivity.
  - destruct (String.eqb_spec k0 k) as [-> | N]; [discriminate |].
    destruct (arrayIndex k0) as [m |]; [destruct (m <? n)%N |]; simpl;
      try reflexivity.
    rewrite (IH H).
    destruct (String.eqb_spec k0 k') as [-> | N'];
      destruct (String.eqb_spec k k') as [-> | N'']; congruence.
Qed.

Lemma getOwn_app k' o1 o2 :
  getOwn k' (o1 ++ o2)%list =
  match getOwn k' o1 with Some v => Some v | None => getOwn k' o2 end.
Proof.
  induction o1 as [| [k0 v0] o1 IH]; simpl; [reflexivity |].
  now destruct (String.eqb k0 k').
Qed.

Lemma getOwn_createOwn k v o k' :
  getOwn k o = None ->
  getOwn k' (createOwn k v o) = if String.eqb k k' then Some v else getOwn k' o.
Proof.
  intros H. unfold createOwn. destruct (arrayIndex k) as [n |].
  - now apply getOwn_insertIndex.
  - rewrite getOwn_app. simpl.
    destruct (String.eqb_spec k k') as [-> | N].
    + now rewrite H.
    + now destruct (getOwn k' o).
Qed.

Lemma getOwn_setOwn k v o k' :
  getOwn k' (setOwn k v o) = if String.eqb k k' then Some v else getOwn k' o.
Proof.
  unfold setOwn. destruct (getOwn k o) eqn:G.
  - rewrite getOwn_replaceOwn, G. reflexivity.
  - now apply getOwn_createOwn.
Qed.

End OwnPropertyFacts.

(* ================================================================== *)
(** ** The referenced generators return on listable groups *)
(* ================================================================== *)

Ltac returns_group H :=
  apply Returns_forEach; intros [? ?] ? ?; cbn beta iota;
  returns_step;
  [ apply Returns_forEach; intros ? ? ?;
    match goal with
    | I : In (?n, ?l) _, J : In ?x ?l |- _ =>
        let E := fresh "E" in destruct (H n l x I J) as [? E];
        returns_all
    end
  | returns_all ].

Lemma mongo_groups_return (options : Options) (groups : list (string * list value)) :
  ListableGroups groups ->
  forall index, Returns (forEach (Mongo.referencedCollection options) groups index).
Proof.
  intros H. unfold Mongo.referencedCollection, Mongo.referencedField,
    Mongo.idLine, Mongo.timestampLines.
  returns_group H.
Qed.

Lemma firebase_groups_return (options : Options) (groups : list (string * list value)) :
  ListableGroups groups ->
  forall index, Returns (forEach (Firebase.referencedCollection options) groups index).
Proof.
  intros H. unfold Firebase.referencedCollection, Firebase.referencedField.
  returns_group H.
Qed.

Lemma dynamo_groups_return (name : string) (options : Options)
      (groups : list (string * list value)) :
  ListableGroups groups ->
  forall index, Returns (forEach (Dynamo.referencedEntity name options) groups index).
Proof.
  intros H. unfold Dynamo.referencedEntity, Dynamo.referencedField,
    Dynamo.timestampLines.
  apply Returns_forEach; intros [entityType items] i I; cbn beta iota.
  apply Returns_forEach; intros item j J.
  destruct (H _ _ _ I J) as [fields E]. returns_all.
Qed.

Lemma couch_groups_return (options : Options) (groups : list (string * list value)) :
  ListableGroups groups ->
  forall index, Returns (forEach (Couch.referencedDocType options) groups index).
Proof.
  intros H. unfold Couch.referencedDocType, Couch.referencedField,
    Couch.idLine, Couch.timestampLines.
  returns_group H.
Qed.

(* ================================================================== *)
(** ** Scalar roots (claim C2) *)
(* ================================================================== *)

Lemma scalar_listable (r : value) :
  isScalar r = true -> r <> VNull -> ListableDocuments r.
Proof.
  intros S N item I.
  destruct r; try discriminate; try contradiction;
    destruct I as [<- | []]; unfold Listable; simpl; eauto.
Qed.

Lemma scalar_extract (objectGroup arrayGroup : string -> string) (r : value)
      (store : Store) :
  isScalar r = true -> r <> VNull ->
  extractWith objectGroup arrayGroup (dataArrayOf r) store = inr store.
Proof.
  intros S N. destruct r; try discriminate; try contradiction; reflexivity.
Qed.

Lemma assignMain_groups (name : string) (items : list value) :
  (forall item, In item items -> Listable item) ->
  ListableGroups (members (assignMain name items newStore)).
Proof.
  intros H n l item I J. unfold assignMain in I.
  destruct (String.eqb name "__proto__"); simpl in I; [contradiction |].
  apply setOwn_In in I as [E | []]. inversion E; subst. now apply H.
Qed.

Lemma indexFields_listable (jsonData : value) :
  ListableDocuments jsonData -> exists fields, indexFields jsonData = inr fields.
Proof.
  intros H. destruct jsonData as [| | | | | items |]; try (now eexists).
  destruct items as [| sampleItem rest]; [now eexists |].
  destruct (H sampleItem) as [fields E]; [now left |].
  unfold indexFields. rewrite E. eauto.
Qed.

Lemma firstKeyOr_listable (jsonData : value) (fallback : string) :
  Listable jsonData -> exists name, firstKeyOr jsonData fallback = inr name.
Proof.
  intros [fields E]. unfold firstKeyOr. rewrite E.
  destruct fields as [| [k v] rest]; eauto.
Qed.

Lemma name_listable (jsonData : value) (arrayName fallback : string) :
  ListableDocuments jsonData ->
  exists name,
    (if isArray jsonData then inr arrayName else firstKeyOr jsonData fallback)
    = inr name.
Proof.
  intros H. destruct (isArray jsonData) eqn:A; [eauto |].
  apply firstKeyOr_listable. apply H.
  destruct jsonData; try discriminate; now left.
Qed.

Section ScalarRoot.
Variable r : value.
Variable structure : string.
Variable options : Options.
Hypothesis scalar : isScalar r = true.
Hypothesis notNull : r <> VNull.

Let listable : ListableDocuments r := scalar_listable r scalar notNull.

Lemma scalar_dataArray_nonempty : dataArrayOf r <> [].
Proof.
  destruct r; discriminate.
Qed.

Lemma mongo_scalar_returns :
  Returns (Mongo.generateMongoDBDocuments r structure options).
Proof.
  unfold Mongo.generateMongoDBDocuments, Mongo.collectionNameOf.
  destruct (name_listable r "items" "collection" listable) as [name E].
  apply (Returns_bind_lift _ _ _ _ _ E).
  apply Returns_bind; [| intros body; apply Returns_bind; [| intros; apply Returns_ret]].
  - destruct (structureOf structure).
    + now apply mongo_nested_returns.
    + now apply mongo_flat_returns.
    + unfold Mongo.generateReferencedDocuments, Mongo.extractReferencedCollections.
      apply (Returns_bind_lift _ _ _ _ _ (scalar_extract _ _ r _ scalar notNull)).
      apply Returns_bind; [| intros; apply Returns_ret].
      apply mongo_groups_return, assignMain_groups. exact listable.
    + now apply mongo_arrays_returns.
  - apply Returns_when. unfold Mongo.generateIndexSuggestions.
    destruct (indexFields_listable r listable) as [fields F].
    apply (Returns_bind_lift _ _ _ _ _ F). apply Returns_ret.
Qed.

Lemma firebase_scalar_returns :
  Returns (Firebase.generateFirebaseDocuments r structure options).
Proof.
  unfold Firebase.generateFirebaseDocuments, Firebase.collectionNameOf.
  destruct (name_listable r "items" "collection" listable) as [name E].
  apply (Returns_bind_lift _ _ _ _ _ E).
  apply Returns_bind; [| intros body; apply Returns_bind; [| intros; apply Returns_ret]].
  - destruct (structureOf structure).
    + now apply firebase_nested_returns.
    + now apply firebase_flat_returns.
    + unfold Firebase.generateReferencedDocuments,
        Firebase.extractReferencedCollections.
      apply (Returns_bind_lift _ _ _ _ _ (scalar_extract _ _ r _ scalar notNull)).
      apply Returns_bind; [| intros; apply Returns_ret].
      apply firebase_groups_return, assignMain_groups. exact listable.
    + now apply firebase_arrays_returns.
  - apply Returns_when. unfold Firebase.generateIndexSuggestions.
    destruct (indexFields_listable r listable) as [fields F].
    apply (Returns_bind_lift _ _ _ _ _ F). apply Returns_ret.
Qed.

Lemma dynamo_scalar_returns :
  Returns (Dynamo.generateDynamoDBDocuments r structure options).
Proof.
  unfold Dynamo.generateDynamoDBDocuments, Dynamo.tableNameOf.
  destruct (name_listable r "Items" "DynamoTable" listable) as [name E].
  apply (Returns_bind_lift _ _ _ _ _ E).
  apply Returns_bind; [| intros body; apply Returns_bind; [| intros; apply Returns_ret]].
  - destruct (structureOf structure).
    + now apply dynamo_nested_returns.
    + now apply dynamo_flat_returns.
    + unfold Dynamo.generateReferencedDocuments, Dynamo.extractEntities.
      apply (Returns_bind_lift _ _ _ _ _ (scalar_extract _ _ r _ scalar notNull)).
      apply Returns_bind; [| intros; apply Returns_ret].
      apply dynamo_groups_return, assignMain_groups. exact listable.
    + now apply dynamo_arrays_returns.
  - apply Returns_when. unfold Dynamo.generateIndexSuggestions.
    destruct (indexFields_listable r listable) as [fields F].
    apply (Returns_bind_lift _ _ _ _ _ F). apply Returns_ret.
Qed.

Lemma couch_scalar_returns :
  Returns (Couch.generateCouchDBDocuments r structure options).
Proof.
  unfold Couch.generateCouchDBDocuments.
  apply Returns_bind; [| intros body; apply Returns_bind; [| intros; apply Returns_ret]].
  - destruct (structureOf structure).
    + apply couch_nested_returns; [exact listable | exact scalar_dataArray_nonempty].
    + apply couch_flat_returns; [exact listable | exact scalar_dataArray_nonempty].
    + unfold Couch.generateReferencedDocuments, Couch.extractReferencedDocTypes.
      apply (Returns_bind_lift _ _ _ _ _ (scalar_extract _ _ r _ scalar notNull)).
      apply Returns_bind; [| intros; apply Returns_ret].
      apply couch_groups_return, assignMain_groups. exact listable.
    + now apply couch_arrays_returns.
  - apply Returns_when. unfold Couch.generateIndexSuggestions.
    destruct (indexFields_listable r listable) as [fields F].
    apply (Returns_bind_lift _ _ _ _ _ F). apply Returns_ret.
Qed.

End ScalarRoot.

(** C2, as stated, fails: the number 42 and the string hello are turned
    into code by every backend; here the MongoDB nested output. *)
Lemma C2_scalar_root_accepted :
  generateNoSQL (VNum 42) "mongodb" "nested" noOptions exampleWorld =
    Return (Mongo.header ++ "use nosql_generator_db;" ++ nl ++ nl ++
            "// Nested document structure" ++ nl ++
            "db.collection.insertMany([" ++ nl ++
            "  {" ++ nl ++
            "  }" ++ nl ++
            "]);" ++ nl ++ nl) exampleWorld /\
  generateNoSQL (VStr "hello") "couchdb" "flat" noOptions exampleWorld =
    Return (Couch.header "nosql_generator_db" ++
            "// Flat document structure" ++ nl ++
            "// Function to add flat documents" ++ nl ++
            "async function addFlatDocuments() {" ++ nl ++
            "  // Prepare flat document" ++ nl ++
            "  const doc = {" ++ nl ++
            "    0: " ++ dq ++ "h" ++ dq ++ "," ++ nl ++
            "    1: " ++ dq ++ "e" ++ dq ++ "," ++ nl ++
            "    2: " ++ dq ++ "l" ++ dq ++ "," ++ nl ++
            "    3: " ++ dq ++ "l" ++ dq ++ "," ++ nl ++
            "    4: " ++ dq ++ "o" ++ dq ++ nl ++
            "  };" ++ nl ++ nl ++
            Couch.sendBlock "db.insert(doc)"
              (dq ++ "Flat document inserted successfully:" ++ dq ++ ", response.id")
              "Error inserting flat document:" ++
            "}" ++ nl ++ nl ++
            "// Main function to execute all operations" ++ nl ++
            "async function main() {" ++ nl ++
            "  await createDatabase();" ++ nl ++
            "  await addFlatDocuments();" ++ nl ++
            "}" ++ nl ++ nl ++
            "// Run the main function" ++ nl ++
            "main().catch(err => console.error(" ++ dq ++ "Error:" ++ dq ++ ", err));" ++
            nl) exampleWorld.
Proof.
  split; vm_compute; reflexivity.
Qed.

(** C2, amended: for every backend, every structure name and all options,
    generation from a scalar root raises an error (No JSON data provided)
    exactly when the root is falsy, that is null, false, 0 or the empty
    string; from any other scalar, such as 42 or hello, it returns a
    generated code string. *)
Theorem C2_scalar_roots :
  forall (root : value) (b : Backend) (structure : string) (options : Options)
         (w : World),
    isScalar root = true ->
    structure <> EmptyString ->
    (falsy root = true ->
       generateNoSQL root (backendName b) structure options w =
       Throw (PlainError "No JSON data provided")) /\
    (falsy root = false ->
       exists out w',
         generateNoSQL root (backendName b) structure options w = Return out w').
Proof.
  intros root b structure options w S NE. split; intros F.
  - unfold generateNoSQL. now rewrite F.
  - unfold generateNoSQL. rewrite F.
    assert (N : root <> VNull) by (intros ->; discriminate).
    destruct (String.eqb_spec structure EmptyString) as [-> | _]; [contradiction |].
    destruct b; cbn [backendName String.eqb Ascii.eqb Bool.eqb].
    + now apply mongo_scalar_returns.
    + now apply firebase_scalar_returns.
    + now apply dynamo_scalar_returns.
    + now apply couch_scalar_returns.
Qed.

Lemma C2_scalar_roots_witness :
  (exists out w',
     generateNoSQL (VNum 42) "dynamodb" "references" noOptions exampleWorld =
     Return out w') /\
  generateNoSQL (VNum 0) "dynamodb" "references" noOptions exampleWorld =
  Throw (PlainError "No JSON data provided").
Proof.
  split.
  - apply (C2_scalar_roots (VNum 42) DynamoDB "references" noOptions exampleWorld
             eq_refl); [discriminate | reflexivity].
  - apply (C2_scalar_roots (VNum 0) DynamoDB "references" noOptions exampleWorld
             eq_refl); [discriminate | reflexivity].
Defined.

(* ================================================================== *)
(** ** Generation returns on documents that can be listed *)
(* ================================================================== *)

Lemma not_null_listable (jsonData : value) :
  ~ In VNull (dataArrayOf jsonData) -> ListableDocuments jsonData.
Proof.
  intros N item I. destruct item; try (eexists; reflexivity). contradiction.
Qed.

Lemma suggestions_return (jsonData : value) (render : list string -> string)
      (cond : bool) :
  ListableDocuments jsonData ->
  Returns (when cond (fields <- lift (indexFields jsonData) ;; ret (render fields))).
Proof.
  intros L. apply Returns_when.
  destruct (indexFields_listable jsonData L) as [fields F].
  apply (Returns_bind_lift _ _ _ _ _ F). apply Returns_ret.
Qed.

(** The nested, flat and array-based generations return when no document
    is null and, where dataArray[0] is read, there is a document. *)
Lemma documents_return (b : Backend) (jsonData : value) (structure : string)
      (options : Options) :
  falsy jsonData = false -> structure <> EmptyString ->
  structureOf structure <> References ->
  ~ In VNull (dataArrayOf jsonData) ->
  (readsFirstDocument b (structureOf structure) = true -> dataArrayOf jsonData <> []) ->
  Returns (generateNoSQL jsonData (backendName b) structure options).
Proof.
  intros T S R N First. pose proof (not_null_listable jsonData N) as L.
  unfold generateNoSQL. rewrite T.
  destruct (String.eqb_spec structure EmptyString) as [E | _]; [contradiction |].
  destruct b; cbn [backendName String.eqb Ascii.eqb Bool.eqb].
  - unfold Mongo.generateMongoDBDocuments, Mongo.collectionNameOf.
    destruct (name_listable jsonData "items" "collection" L) as [name E].
    apply (Returns_bind_lift _ _ _ _ _ E).
    apply Returns_bind; [| intros body; apply Returns_bind; [| intros; apply Returns_ret]].
    + destruct (structureOf structure); [| | contradiction |].
      * now apply mongo_nested_returns.
      * now apply mongo_flat_returns.
      * now apply mongo_arrays_returns.
    + now apply suggestions_return.
  - unfold Firebase.generateFirebaseDocuments, Firebase.collectionNameOf.
    destruct (name_listable jsonData "items" "collection" L) as [name E].
    apply (Returns_bind_lift _ _ _ _ _ E).
    apply Returns_bind; [| intros body; apply Returns_bind; [| intros; apply Returns_ret]].
    + destruct (structureOf structure); [| | contradiction |].
      * now apply firebase_nested_returns.
      * now apply firebase_flat_returns.
      * now apply firebase_arrays_returns.
    + now apply suggestions_return.
  - unfold Dynamo.generateDynamoDBDocuments, Dynamo.tableNameOf.
    destruct (name_listable jsonData "Items" "DynamoTable" L) as [name E].
    apply (Returns_bind_lift _ _ _ _ _ E).
    apply Returns_bind; [| intros body; apply Returns_bind; [| intros; apply Returns_ret]].
    + destruct (structureOf structure); [| | contradiction |].
      * now apply dynamo_nested_returns.
      * now apply dynamo_flat_returns.
      * now apply dynamo_arrays_returns.
    + now apply suggestions_return.
  - unfold Couch.generateCouchDBDocuments.
    apply Returns_bind; [| intros body; apply Returns_bind; [| intros; apply Returns_ret]].
    + destruct (structureOf structure); [| | contradiction |].
      * apply couch_nested_returns; [exact L | now apply First].
      * apply couch_flat_returns; [exact L | now apply First].
      * now apply couch_arrays_returns.
    + now apply suggestions_return.
Qed.

(* ================================================================== *)
(** ** The batch threshold of the DynamoDB generator (claim C3) *)
(* ================================================================== *)

Lemma dynamo_key_lines (options : Options) (indent position : string)
      (w w1 w2 w3 : World) (id sort stamps : string) :
  Dynamo.idLine options indent position w = Return id w1 ->
  Dynamo.sortKeyLine options indent w1 = Return sort w2 ->
  Dynamo.timestampLines options indent w2 = Return stamps w3 ->
  DynamoKeyLines options indent position (id ++ sort ++ stamps).
Proof.
  unfold Dynamo.idLine, Dynamo.sortKeyLine, Dynamo.timestampLines, DynamoKeyLines.
  intros I K T.
  assert (Hi : exists x, (addIds options = false -> x = position) /\
                         id = indent ++ "id: " ++ dq ++ x ++ dq ++ "," ++ nl).
  { destruct (addIds options).
    - apply bind_Return in I as (x & wa & _ & I). apply ret_Return in I as [-> _].
      exists x. split; [discriminate | reflexivity].
    - apply ret_Return in I as [-> _]. exists position. now split. }
  destruct Hi as (x & Hx & ->).
  assert (Hk : exists now,
             sort = match sortKey options with
                    | Some (String c name) =>
                        indent ++ String c name ++ ": " ++ dq ++ now ++ dq ++ "," ++ nl
                    | _ => EmptyString
                    end).
  { destruct (sortKey options) as [[| c name] |]; simpl in K.
    - apply ret_Return in K as [-> _]. now exists EmptyString.
    - apply bind_Return in K as (now & wa & _ & K). apply ret_Return in K as [-> _].
      now exists now.
    - apply ret_Return in K as [-> _]. now exists EmptyString. }
  destruct Hk as (now & ->).
  assert (Ht : exists created updated,
             stamps = if addTimestamps options
                      then indent ++ "createdAt: " ++ dq ++ created ++ dq ++ "," ++ nl ++
                           indent ++ "updatedAt: " ++ dq ++ updated ++ dq ++ "," ++ nl
                      else EmptyString).
  { destruct (addTimestamps options); simpl in T.
    - apply bind_Return in T as (created & wa & _ & T).
      apply bind_Return in T as (updated & wb & _ & T).
      apply ret_Return in T as [-> _]. now exists created, updated.
    - apply ret_Return in T as [-> _]. now exists EmptyString, EmptyString. }
  destruct Ht as (created & updated & ->).
  exists x, now, created, updated. split; [exact Hx |].
  rewrite !append_assoc. reflexivity.
Qed.

Lemma dynamo_data_lines (indent : string) (fields : list (string * value)) :
  forEachPure (Dynamo.dataLine indent) fields 0 = dynamoDataLines indent fields.
Proof.
  apply forEachPure_map. reflexivity.
Qed.

Lemma dynamo_nested_layout (jsonData : value) (tableName : string)
      (options : Options) (w w' : World) (out : string) :
  Dynamo.generateNestedDocuments jsonData tableName options w = Return out w' ->
  exists blocks,
    length blocks = length (dataArrayOf jsonData) /\
    (length (dataArrayOf jsonData) <= 25 ->
       Blocks (BatchItem options) (dataArrayOf jsonData) 0 blocks /\
       out = batchFunction tableName blocks) /\
    (25 < length (dataArrayOf jsonData) ->
       Blocks (PutItem tableName options) (dataArrayOf jsonData) 0 blocks /\
       out = perItemFunction tableName (length (dataArrayOf jsonData)) blocks).
Proof.
  intros E. unfold Dynamo.generateNestedDocuments in E.
  destruct (Nat.leb (length (dataArrayOf jsonData)) 25) eqn:L.
  - apply bind_Return in E as (items & w1 & Hi & E).
    apply ret_Return in E as [-> ->].
    apply (forEach_blocks _ _ (BatchItem options)) in Hi as (blocks & B & ->).
    + exists blocks. split; [exact (Blocks_length _ _ _ _ _ B) |]. split.
      * intros _. split; [exact B | reflexivity].
      * intros G. apply Nat.leb_le in L. lia.
    + intros item index wa block wb _ Hb.
      apply bind_Return in Hb as (id & w2 & Hid & Hb).
      apply bind_Return in Hb as (sort & w3 & Hsort & Hb).
      apply bind_Return in Hb as (stamps & w4 & Hstamps & Hb).
      apply bind_Return in Hb as (fields & w5 & Hf & Hb).
      apply lift_Return in Hf as [Hf _]. apply ret_Return in Hb as [-> _].
      exists (id ++ sort ++ stamps), fields. split; [exact Hf |].
      split; [exact (dynamo_key_lines _ _ _ _ _ _ _ _ _ _ Hid Hsort Hstamps) |].
      rewrite dynamo_data_lines, !append_assoc. reflexivity.
  - apply bind_Return in E as (items & w1 & Hi & E).
    apply ret_Return in E as [-> ->].
    apply (forEach_blocks _ _ (PutItem tableName options)) in Hi as (blocks & B & ->).
    + exists blocks. split; [exact (Blocks_length _ _ _ _ _ B) |]. split.
      * intros G. apply Nat.leb_gt in L. lia.
      * intros _. split; [exact B | reflexivity].
    + intros item index wa block wb _ Hb.
      apply bind_Return in Hb as (id & w2 & Hid & Hb).
      apply bind_Return in Hb as (sort & w3 & Hsort & Hb).
      apply bind_Return in Hb as (stamps & w4 & Hstamps & Hb).
      apply bind_Return in Hb as (fields & w5 & Hf & Hb).
      apply lift_Return in Hf as [Hf _]. apply ret_Return in Hb as [-> _].
      exists (id ++ sort ++ stamps), fields. split; [exact Hf |].
      split; [exact (dynamo_key_lines _ _ _ _ _ _ _ _ _ _ Hid Hsort Hstamps) |].
      unfold Dynamo.putOpen, Dynamo.putClose.
      rewrite dynamo_data_lines, !append_assoc. reflexivity.
Qed.

(** C3: on every sequence of listable documents the nested DynamoDB
    generator returns. For at most 25 documents its text is the batch
    function: one push of a PutRequest per document, in the order of the
    documents and each with the fields of its document, followed by the
    one BatchWriteCommand that is sent. For more than 25 documents it is
    the per-item function: one PutCommand sent per document, in order and
    each with the fields of its document. The dispatcher hands the nested
    policy to this generator. *)
Theorem C3_batch_threshold :
  forall (jsonData : value) (tableName : string) (options : Options) (w : World),
    ListableDocuments jsonData ->
    (exists out w' blocks,
       Dynamo.generateNestedDocuments jsonData tableName options w = Return out w' /\
       length blocks = length (dataArrayOf jsonData) /\
       (length (dataArrayOf jsonData) <= 25 ->
          Blocks (BatchItem options) (dataArrayOf jsonData) 0 blocks /\
          out = batchFunction tableName blocks) /\
       (25 < length (dataArrayOf jsonData) ->
          Blocks (PutItem tableName options) (dataArrayOf jsonData) 0 blocks /\
          out = perItemFunction tableName (length (dataArrayOf jsonData)) blocks)) /\
    (forall structure,
       falsy jsonData = false -> structure <> EmptyString ->
       structureOf structure = Nested ->
       exists name body w1 indexes w',
         Dynamo.tableNameOf jsonData = inr name /\
         Dynamo.generateNestedDocuments jsonData name options w = Return body w1 /\
         generateNoSQL jsonData "dynamodb" structure options w =
           Return (Dynamo.header ++ body ++ indexes) w').
Proof.
  intros jsonData tableName options w H. split.
  - destruct (dynamo_nested_returns jsonData tableName options H w) as (out & w' & E).
    destruct (dynamo_nested_layout _ _ _ _ _ _ E) as (blocks & L & Small & Large).
    exists out, w', blocks.
    split; [exact E | split; [exact L | split; [exact Small | exact Large]]].
  - intros structure F N S.
    destruct (name_listable jsonData "Items" "DynamoTable" H) as [name En].
    destruct (dynamo_nested_returns jsonData name options H w) as (body & w1 & E).
    destruct (indexFields_listable jsonData H) as [candidates C].
    exists name, body, w1.
    unfold generateNoSQL. rewrite F.
    destruct (String.eqb_spec structure EmptyString) as [Q | _]; [contradiction |].
    cbn [String.eqb Ascii.eqb Bool.eqb].
    unfold Dynamo.generateDynamoDBDocuments, Dynamo.tableNameOf.
    unfold bind at 1. rewrite En. cbn [lift ret]. rewrite S.
    unfold bind at 1. rewrite E.
    unfold Dynamo.generateIndexSuggestions.
    destruct (addIndexes options); cbn [when].
    + unfold bind, lift, ret. rewrite C. eauto.
    + unfold bind, ret. eauto.
Qed.

Lemma C3_batch_threshold_witness :
  (exists out w' blocks,
     Dynamo.generateNestedDocuments (VArr (repeat (VObj []) 25)) "Items" noOptions
       exampleWorld = Return out w' /\
     length blocks = 25 /\
     Blocks (BatchItem noOptions) (repeat (VObj []) 25) 0 blocks /\
     out = batchFunction "Items" blocks) /\
  (exists out w' blocks,
     Dynamo.generateNestedDocuments (VArr (repeat (VObj []) 26)) "Items" noOptions
       exampleWorld = Return out w' /\
     length blocks = 26 /\
     Blocks (PutItem "Items" noOptions) (repeat (VObj []) 26) 0 blocks /\
     out = perItemFunction "Items" 26 blocks).
Proof.
  split.
  - destruct (C3_batch_threshold (VArr (repeat (VObj []) 25)) "Items" noOptions
                exampleWorld) as [(out & w' & blocks & E & L & A & _) _].
    + intros item I. apply repeat_spec in I. subst. now exists [].
    + exists out, w', blocks. split; [exact E |]. split; [exact L |].
      apply A. simpl. lia.
  - destruct (C3_batch_threshold (VArr (repeat (VObj []) 26)) "Items" noOptions
                exampleWorld) as [(out & w' & blocks & E & L & _ & B) _].
    + intros item I. apply repeat_spec in I. subst. now exists [].
    + exists out, w', blocks. split; [exact E |]. split; [exact L |].
      apply B. simpl. lia.
Defined.

(* ================================================================== *)
(** ** Empty inputs (claim C8) *)
(* ================================================================== *)

(** C8 fails on the code: with the empty array the CouchDB nested and
    flat generators take the single-document branch and read
    dataArray[0], which is undefined; Object.entries then throws a
    TypeError, whatever the options. *)
Theorem C8_couch_empty_array_throws :
  forall (options : Options) (w : World),
    generateNoSQL (VArr []) "couchdb" "nested" options w = Throw cannotConvert /\
    generateNoSQL (VArr []) "couchdb" "flat" options w = Throw cannotConvert.
Proof.
  intros options w. split; reflexivity.
Qed.

(** Every other combination of backend, structure and empty root returns
    a text whose parentheses, brackets and braces are balanced. *)
Lemma empty_inputs_elsewhere :
  forall options, In options [noOptions; allFlags] ->
    (forall b structure,
        In b [MongoDB; FirebaseDB; DynamoDB; CouchDB] ->
        In structure ["nested"; "flat"; "references"; "arrays"] ->
        generatesBalanced options (VObj []) b structure = true) /\
    (forall b structure,
        In b [MongoDB; FirebaseDB; DynamoDB] ->
        In structure ["nested"; "flat"; "references"; "arrays"] ->
        generatesBalanced options (VArr []) b structure = true) /\
    (forall structure,
        In structure ["references"; "arrays"] ->
        generatesBalanced options (VArr []) CouchDB structure = true).
Proof.
  intros options O. simpl in O.
  repeat match goal with
         | H : _ \/ _ |- _ => destruct H
         | H : False |- _ => contradiction
         end; subst;
    (split; [| split]); intros; simpl in *;
    repeat match goal with
           | H : _ \/ _ |- _ => destruct H
           | H : False |- _ => contradiction
           end; subst; vm_compute; reflexivity.
Qed.

(* ================================================================== *)
(** ** Pushing to a group *)
(* ================================================================== *)

Lemma bindE_inr (A : Type) (r : Error + A) : bindE r (fun a => inr a) = r.
Proof.
  now destruct r.
Qed.

Lemma pushAll_appends (name : string) (items : list value) (store store' : Store) :
  pushAll name items store = inr store' ->
  exists old, getOwn name (members store') = Some (old ++ items)%list.
Proof.
  unfold pushAll. destruct (getOwn name (members store)) as [old |] eqn:G.
  - intros E. inversion E; subst; clear E. exists old. simpl.
    rewrite getOwn_replaceOwn, String.eqb_refl, G. reflexivity.
  - destruct (inList name (inheritedNames store)); [discriminate |].
    intros E. inversion E; subst; clear E. exists []. simpl.
    rewrite (getOwn_createOwn _ _ _ _ _ G), String.eqb_refl. reflexivity.
Qed.


(* ================================================================== *)
(** ** Flattening (claim C5) *)
(* ================================================================== *)


Lemma keys_getOwn (A : Type) (k : string) (o : list (string * A)) :
  In k (map fst o) <-> exists v, getOwn k o = Some v.
Proof.
  split.
  - intros I. apply in_map_iff in I as ([k' v] & <- & I).
    now apply In_getOwn in I.
  - intros [v G]. apply getOwn_In in G.
    change k with (fst (k, v)). now apply in_map.
Qed.

Lemma setOwn_keeps (A : Type) (k k' : string) (v : A) (o : list (string * A)) :
  In k' (map fst o) -> In k' (map fst (setOwn k v o)).
Proof.
  rewrite !keys_getOwn. intros [u G]. rewrite getOwn_setOwn.
  destruct (String.eqb k k'); eauto.
Qed.

Lemma setOwn_adds (A : Type) (k : string) (v : A) (o : list (string * A)) :
  In k (map fst (setOwn k v o)).
Proof.
  rewrite keys_getOwn, getOwn_setOwn, String.eqb_refl. eauto.
Qed.

Lemma assign_In (k : string) (v : value) (o : Flattened) (kv : string * value) :
  In kv (own (assign k v o)) -> kv = (k, v) \/ In kv (own o).
Proof.
  unfold assign. destruct (String.eqb k "__proto__" && negb (protoNull o)).
  - destruct v; simpl; auto.
  - simpl. destruct kv as [k' v']. apply setOwn_In.
Qed.

Lemma assign_keeps (k k' : string) (v : value) (o : Flattened) :
  In k' (map fst (own o)) -> In k' (map fst (own (assign k v o))).
Proof.
  unfold assign. destruct (String.eqb k "__proto__" && negb (protoNull o)).
  - destruct v; simpl; auto.
  - simpl. apply setOwn_keeps.
Qed.

Lemma assign_adds (k : string) (v : value) (o : Flattened) :
  k <> "__proto__" -> In k (map fst (own (assign k v o))).
Proof.
  intros N. unfold assign.
  destruct (String.eqb_spec k "__proto__") as [E | _]; [contradiction |].
  simpl. apply setOwn_adds.
Qed.

Lemma objectAssign_In (source : list (string * value)) :
  forall (target : Flattened) (kv : string * value),
    In kv (own (fold_left (fun acc e => assign (fst e) (snd e) acc) source target)) ->
    In kv (own target) \/ In kv source.
Proof.
  induction source as [| [k v] source IH]; intros target kv I; simpl in *; [now left |].
  destruct (IH _ _ I) as [J | J]; [| right; now right].
  destruct (assign_In _ _ _ _ J) as [-> | J']; [right; now left | now left].
Qed.

Lemma objectAssign_keeps (source : list (string * value)) :
  forall (target : Flattened) (k : string),
    In k (map fst (own target)) ->
    In k (map fst (own (fold_left (fun acc e => assign (fst e) (snd e) acc)
                                  source target))).
Proof.
  induction source as [| [k0 v0] source IH]; intros target k I; simpl; [exact I |].
  apply IH. now apply assign_keeps.
Qed.

Lemma objectAssign_adds (source : list (string * value)) :
  forall (target : Flattened) (k : string) (v : value),
    In (k, v) source -> k <> "__proto__" ->
    In k (map fst (own (fold_left (fun acc e => assign (fst e) (snd e) acc)
                                  source target))).
Proof.
  induction source as [| [k0 v0] source IH]; intros target k v I N; [contradiction |].
  simpl. destruct I as [E | I].
  - inversion E; subst. apply objectAssign_keeps. now apply assign_adds.
  - now apply (IH _ _ v).
Qed.

Section FlattenFacts.
Variable sep : string.

(** The loop over the entries of an object, each entry meeting its
    specification. *)
Lemma flatten_fold (prefix : string) (fields : list (string * value)) :
  Forall (fun kv => FlattenSpec sep (snd kv)) fields ->
  forall acc,
    (forall kv, In kv (own (flattenFields sep fields prefix acc)) ->
                In kv (own acc) \/ In kv (leaves sep fields prefix)) /\
    (forall k, In k (map fst (own acc)) ->
               In k (map fst (own (flattenFields sep fields prefix acc)))) /\
    (forall k u, In (k, u) (leaves sep fields prefix) -> k <> "__proto__" ->
                 In k (map fst (own (flattenFields sep fields prefix acc)))).
Proof.
  unfold flattenFields, leaves.
  induction 1 as [| [k0 v0] fields H0 HF IH]; intros acc; simpl.
  - repeat split; auto. intros k u [].
  - destruct (H0 (newKey sep prefix k0) acc) as (S0 & K0 & C0).
    destruct (IH (flattenEntry sep v0 (newKey sep prefix k0) acc)) as (S1 & K1 & C1).
    simpl in *. repeat split.
    + intros kv I. rewrite in_app_iff.
      destruct (S1 kv I) as [J | J]; [| now right; right].
      destruct (S0 kv J) as [J' | J']; [now left | now right; left].
    + intros k I. apply K1, K0, I.
    + intros k u I N. apply in_app_iff in I as [I | I].
      * apply K1. now apply (C0 k u).
      * now apply (C1 k u).
Qed.

Lemma flattenEntry_spec (v : value) : FlattenSpec sep v.
Proof.
  induction v using value_nested_ind; intros key acc;
    try (cbn [flattenEntry leavesOf]; repeat split;
         [ intros kv I; destruct (assign_In _ _ _ _ I) as [-> | J];
           [right; now left | now left]
         | intros k I; now apply assign_keeps
         | intros k u [E | []] N; inversion E; subst; now apply assign_adds ]).
  - cbn [flattenEntry leavesOf]. unfold objectAssign. simpl. repeat split; auto.
    intros k u [].
  - cbn [flattenEntry leavesOf]. unfold objectAssign.
    destruct (flatten_fold key fields H emptyObject) as (S & K & C).
    unfold flattenFields, leaves in S, K, C.
    repeat split.
    + intros kv I. destruct (objectAssign_In _ _ _ I) as [J | J]; [now left |].
      destruct (S kv J) as [[] | J']. now right.
    + intros k I. now apply objectAssign_keeps.
    + intros k u I N. specialize (C k u I N).
      apply keys_getOwn in C as [u' G]. apply getOwn_In in G.
      now apply (objectAssign_adds _ _ k u').
Qed.

Lemma leavesOf_not_object (v : value) :
  forall key kv, In kv (leavesOf sep v key) -> isPlainObject (snd kv) = false.
Proof.
  induction v using value_nested_ind; intros key kv I; cbn [leavesOf] in I;
    try (destruct I as [<- | []]; reflexivity); try contradiction.
  apply in_flat_map in I as (e & Ie & I).
  rewrite Forall_forall in H. exact (H e Ie _ _ I).
Qed.

Lemma flattenObjectWith_spec (item : value) (fields result : list (string * value)) :
  entries (Some item) = inr fields ->
  flattenObjectWith sep (Some item) = inr result ->
  (forall k v, In (k, v) result ->
     isPlainObject v = false /\ In (k, v) (leaves sep fields EmptyString)) /\
  (forall k v, In (k, v) (leaves sep fields EmptyString) -> k <> "__proto__" ->
     In k (map fst result)).
Proof.
  intros E F. unfold flattenObjectWith, flattenObjectAt in F. rewrite E in F.
  inversion F; subst; clear F.
  destruct (flatten_fold EmptyString fields) with (acc := emptyObject)
    as (S & _ & C).
  { apply Forall_forall. intros kv _. apply flattenEntry_spec. }
  split.
  - intros k v I. destruct (S _ I) as [[] | J]. split; [| exact J].
    unfold leaves in J. apply in_flat_map in J as (e & _ & J).
    exact (leavesOf_not_object _ _ _ J).
  - exact C.
Qed.

End FlattenFacts.

(* ------------------------------------------------------------------ *)
(** *** The flat generators write the fields of flattenObject *)
(* ------------------------------------------------------------------ *)

Lemma lines_hold (indent : string) (toString : value -> string)
      (fields : list (string * value)) (kv : string * value) :
  In kv fields ->
  Substring (forEachPure (fieldLine indent toString (length fields)) fields 0)
            (fst kv ++ ": " ++ toString (snd kv)).
Proof.
  intros I. destruct (forEachPure_holds _ (fieldLine indent toString (length fields))
                        fields 0 kv I) as [j S].
  eapply substring_trans; [exact S | apply fieldLine_holds].
Qed.

Lemma dataLines_hold (indent : string) (fields : list (string * value))
      (kv : string * value) :
  In kv fields ->
  Substring (forEachPure (Dynamo.dataLine indent) fields 0)
            (fst kv ++ ": " ++ Dynamo.dynamoValueToString (snd kv)).
Proof.
  intros I. destruct (forEachPure_holds _ (Dynamo.dataLine indent) fields 0 kv I)
    as [j S].
  eapply substring_trans; [exact S |]. unfold Dynamo.dataLine.
  exists indent. eexists. rewrite !append_assoc. reflexivity.
Qed.




(* ================================================================== *)
(** ** Reference extraction (claim C4) *)
(* ================================================================== *)

Lemma Grows_refl (s : Store) : Grows s s.
Proof.
  intros name items G. exists []. now rewrite app_nil_r.
Qed.

Lemma Grows_trans (s1 s2 s3 : Store) : Grows s1 s2 -> Grows s2 s3 -> Grows s1 s3.
Proof.
  intros A B name items G.
  destruct (A _ _ G) as [e1 G1]. destruct (B _ _ G1) as [e2 G2].
  exists (e1 ++ e2)%list. now rewrite app_assoc.
Qed.

Lemma Holds_grows (name : string) (v : value) (s s' : Store) :
  Grows s s' -> Holds name v s -> Holds name v s'.
Proof.
  intros G (items & E & I). destruct (G _ _ E) as [extra E'].
  exists (items ++ extra)%list. split; [exact E' |]. apply in_or_app. now left.
Qed.

Lemma pushAll_grows (name : string) (items : list value) (s s' : Store) :
  pushAll name items s = inr s' -> Grows s s'.
Proof.
  unfold pushAll. destruct (getOwn name (members s)) as [old |] eqn:G.
  - intros E. inversion E; subst; clear E. intros n l Gn. simpl.
    rewrite getOwn_replaceOwn, G. simpl.
    destruct (String.eqb_spec name n) as [-> | _].
    + rewrite G in Gn. inversion Gn; subst. now exists items.
    + exists []. now rewrite app_nil_r.
  - destruct (inList name (inheritedNames s)); [discriminate |].
    intros E. inversion E; subst; clear E. intros n l Gn. simpl.
    rewrite (getOwn_createOwn _ _ _ _ _ G).
    destruct (String.eqb_spec name n) as [-> | _]; [congruence |].
    exists []. now rewrite app_nil_r.
Qed.

Lemma pushAll_holds (name : string) (items : list value) (s s' : Store) (v : value) :
  pushAll name items s = inr s' -> In v items -> Holds name v s'.
Proof.
  intros E I. destruct (pushAll_appends _ _ _ _ E) as [old G].
  exists (old ++ items)%list. split; [exact G |]. apply in_or_app. now right.
Qed.

Lemma bindE_inr_inv (A B : Type) (r : Error + A) (k : A -> Error + B) (b : B) :
  bindE r k = inr b -> exists a, r = inr a /\ k a = inr b.
Proof.
  destruct r as [e | a]; simpl; [discriminate |]. eauto.
Qed.

Lemma foldIndexedE_foldE (A : Type) (f : string -> A -> Store -> Error + Store)
      (l : list A) :
  forall i s,
    foldIndexedE f l i s = foldE (fun kv => f (fst kv) (snd kv)) (indexed l i) s.
Proof.
  induction l as [| x l IH]; intros i s; simpl; [reflexivity |].
  destruct (f (natToString i) x s); simpl; [reflexivity | apply IH].
Qed.

Lemma indexed_values (A : Type) (l : list A) :
  forall i kv, In kv (indexed l i) -> In (snd kv) l.
Proof.
  induction l as [| x l IH]; intros i kv I; simpl in *; [contradiction |].
  destruct I as [<- | I]; [now left | right; now apply (IH (S i))].
Qed.

Lemma chars_strings (s : string) (v : value) :
  In v (chars s) -> isNonEmptyObject v = false.
Proof.
  induction s as [| c s IH]; simpl; [contradiction |].
  intros [<- | I]; [reflexivity | now apply IH].
Qed.

Lemma extractItem_VObj (objectGroup arrayGroup : string -> string)
      (fields : list (string * value)) (s : Store) :
  extractItem objectGroup arrayGroup (VObj fields) s =
  foldE (fun kv => visitField objectGroup arrayGroup (fst kv) (snd kv)) fields s.
Proof.
  reflexivity.
Qed.

Lemma extractItem_VArr (objectGroup arrayGroup : string -> string)
      (elems : list value) (s : Store) :
  extractItem objectGroup arrayGroup (VArr elems) s =
  foldIndexedE (visitField objectGroup arrayGroup) elems 0 s.
Proof.
  reflexivity.
Qed.

(** A reflexive and transitive relation between stores that every push of
    the extraction satisfies relates the store before the extraction to
    the store after it. *)
Section Related.
Variable R : Store -> Store -> Prop.
Hypothesis R_refl : forall s, R s s.
Hypothesis R_trans : forall a b c, R a b -> R b c -> R a c.

Lemma foldE_related (A : Type) (f : A -> Store -> Error + Store) (l : list A) :
  (forall x s s', In x l -> f x s = inr s' -> R s s') ->
  forall s s', foldE f l s = inr s' -> R s s'.
Proof.
  induction l as [| x l IH]; intros H s s' E; simpl in E.
  - inversion E. apply R_refl.
  - apply bindE_inr_inv in E as (s1 & E1 & E).
    apply R_trans with s1.
    + apply (H x); [now left | exact E1].
    + apply IH; [| exact E]. intros y a b I. apply H. now right.
Qed.

Variable objectGroup arrayGroup : string -> string.
Hypothesis R_object :
  forall key items s s', pushAll (objectGroup key) items s = inr s' -> R s s'.
Hypothesis R_array :
  forall key items s s', pushAll (arrayGroup key) items s = inr s' -> R s s'.

Lemma extract_related (v : value) :
  (forall s s', extractItem objectGroup arrayGroup v s = inr s' -> R s s') /\
  (forall key s s', visitField objectGroup arrayGroup key v s = inr s' -> R s s').
Proof.
  induction v as [| b | n | t | iso | items H | fields H] using value_nested_ind;
    try (split; [intros s s' E | intros key s s' E]; simpl in E;
         try discriminate; inversion E; apply R_refl).
  - rewrite Forall_forall in H. split.
    + intros s s' E. rewrite extractItem_VArr, foldIndexedE_foldE in E.
      revert E. apply foldE_related. intros kv a b I.
      apply (proj2 (H (snd kv) (indexed_values _ _ _ _ I))).
    + intros key s s' E. unfold visitField in E.
      destruct (isArrayOfObjects (VArr items)).
      * apply bindE_inr_inv in E as (s1 & E1 & E).
        apply R_trans with s1; [now apply R_array in E1 |].
        revert E. apply foldE_related. intros x a b I. apply (proj1 (H x I)).
      * inversion E. apply R_refl.
  - rewrite Forall_forall in H. split.
    + intros s s' E. rewrite extractItem_VObj in E.
      revert E. apply foldE_related. intros kv a b I. apply (proj2 (H kv I)).
    + intros key s s' E. unfold visitField in E. destruct fields.
      * inversion E. apply R_refl.
      * now apply R_object in E.
Qed.

Lemma extractWith_related (items : list value) (s s' : Store) :
  extractWith objectGroup arrayGroup items s = inr s' -> R s s'.
Proof.
  apply foldE_related. intros x a b _. apply (proj1 (extract_related x)).
Qed.
End Related.

Lemma foldE_holds (A : Type) (f : A -> Store -> Error + Store) (l : list A)
      (x0 : A) (name : string) (v : value) :
  (forall x s s', In x l -> f x s = inr s' -> Grows s s') ->
  (forall s s', f x0 s = inr s' -> Holds name v s') ->
  In x0 l ->
  forall s s', foldE f l s = inr s' -> Holds name v s'.
Proof.
  induction l as [| x l IH]; intros Hg Hh I s s' E; [contradiction |].
  simpl in E. apply bindE_inr_inv in E as (s1 & E1 & E).
  assert (Hg' : forall y a b, In y l -> f y a = inr b -> Grows a b)
    by (intros y a b J; apply Hg; now right).
  destruct I as [-> | I].
  - apply Holds_grows with s1; [| now apply (Hh s)].
    now apply (foldE_related Grows Grows_refl Grows_trans _ f l Hg').
  - now apply (IH Hg' Hh I s1).
Qed.

Section ExtractionFacts.
Variable objectGroup arrayGroup : string -> string.

Lemma extract_grows (v : value) :
  (forall s s', extractItem objectGroup arrayGroup v s = inr s' -> Grows s s') /\
  (forall key s s',
      visitField objectGroup arrayGroup key v s = inr s' -> Grows s s').
Proof.
  apply (extract_related Grows Grows_refl Grows_trans objectGroup arrayGroup).
  - intros key items s s'. apply pushAll_grows.
  - intros key items s s'. apply pushAll_grows.
Qed.

Lemma extractWith_grows (items : list value) (s s' : Store) :
  extractWith objectGroup arrayGroup items s = inr s' -> Grows s s'.
Proof.
  apply (extractWith_related Grows Grows_refl Grows_trans objectGroup arrayGroup).
  - intros key l a b. apply pushAll_grows.
  - intros key l a b. apply pushAll_grows.
Qed.

Lemma visitField_holds (key : string) (v : value) (s s' : Store) :
  isNonEmptyObject v = true ->
  visitField objectGroup arrayGroup key v s = inr s' ->
  Holds (objectGroup key) v s'.
Proof.
  intros N E. destruct v; try discriminate. destruct fields; [discriminate |].
  unfold visitField in E. apply (pushAll_holds _ _ _ _ _ E). now left.
Qed.

(** A non-empty object that is the value of a field of a document is in
    the group of that field once the document has been visited. *)
Lemma extractItem_holds (item : value) (fields : list (string * value))
      (k : string) (v : value) (s s' : Store) :
  entries (Some item) = inr fields -> In (k, v) fields ->
  isNonEmptyObject v = true ->
  extractItem objectGroup arrayGroup item s = inr s' ->
  Holds (objectGroup k) v s'.
Proof.
  intros E I N X.
  assert (G : forall (l : list (string * value)) a b,
             foldE (fun kv => visitField objectGroup arrayGroup (fst kv) (snd kv))
                   l a = inr b ->
             In (k, v) l -> Holds (objectGroup k) v b).
  { intros l a b F J. revert F.
    apply (foldE_holds _ _ l (k, v)); [| | exact J].
    - intros x c d _. apply (proj2 (extract_grows (snd x))).
    - intros c d. now apply visitField_holds. }
  destruct item; simpl in E; try discriminate; inversion E; subst; clear E;
    try contradiction.
  - apply indexed_values in I. apply chars_strings in I. simpl in *. congruence.
  - rewrite extractItem_VArr, foldIndexedE_foldE in X. now apply (G _ _ _ X).
  - rewrite extractItem_VObj in X. now apply (G _ _ _ X).
Qed.

Lemma extractWith_holds (items : list value) (item : value)
      (fields : list (string * value)) (k : string) (v : value) (s s' : Store) :
  In item items -> entries (Some item) = inr fields -> In (k, v) fields ->
  isNonEmptyObject v = true ->
  extractWith objectGroup arrayGroup items s = inr s' ->
  Holds (objectGroup k) v s'.
Proof.
  intros I E J N. apply (foldE_holds _ _ items item); [| | exact I].
  - intros x a b _. apply (proj1 (extract_grows x)).
  - intros a b. now apply (extractItem_holds item fields).
Qed.

End ExtractionFacts.

(* ------------------------------------------------------------------ *)
(** *** What an extraction files, exactly *)
(* ------------------------------------------------------------------ *)






Section FilingFacts.
Variable objectGroup arrayGroup : string -> string.











End FilingFacts.




(* ------------------------------------------------------------------ *)
(** *** What the referenced generators write for the groups *)
(* ------------------------------------------------------------------ *)











Lemma assignMain_main (name : string) (items : list value) :
  name <> "__proto__" ->
  getOwn name (members (assignMain name items newStore)) = Some items.
Proof.
  intros N. unfold assignMain.
  destruct (String.eqb_spec name "__proto__") as [E | _]; [contradiction |].
  simpl. now rewrite getOwn_setOwn, String.eqb_refl.
Qed.

Lemma extractOf_with (b : Backend) :
  exists objectGroup arrayGroup, extractOf b = extractWith objectGroup arrayGroup.
Proof.
  destruct b; do 2 eexists; reflexivity.
Qed.

Lemma foldE_each (A : Type) (f : A -> Store -> Error + Store) (l : list A) :
  forall s s', foldE f l s = inr s' ->
    forall x, In x l -> exists a b, f x a = inr b.
Proof.
  induction l as [| y l IH]; intros s s' E x I; [contradiction |].
  simpl in E. apply bindE_inr_inv in E as (s1 & E1 & E).
  destruct I as [-> | I]; [eauto | exact (IH _ _ E x I)].
Qed.

Lemma extractItem_listable (objectGroup arrayGroup : string -> string)
      (item : value) (s s' : Store) :
  extractItem objectGroup arrayGroup item s = inr s' -> Listable item.
Proof.
  destruct item; simpl; try discriminate; intros _; unfold Listable; simpl; eauto.
Qed.

Lemma extractWith_listable (objectGroup arrayGroup : string -> string)
      (items : list value) (s s' : Store) :
  extractWith objectGroup arrayGroup items s = inr s' ->
  forall item, In item items -> Listable item.
Proof.
  intros E item I. destruct (foldE_each _ _ _ _ _ E item I) as (a & b & X).
  exact (extractItem_listable _ _ _ _ _ X).
Qed.

Lemma pushAll_listable (name : string) (items : list value) (s s' : Store) :
  pushAll name items s = inr s' ->
  (forall x, In x items -> Listable x) ->
  ListableGroups (members s) -> ListableGroups (members s').
Proof.
  unfold pushAll. destruct (getOwn name (members s)) as [old |] eqn:G.
  - intros E Hi L n l x I J. inversion E; subst; clear E. simpl in I.
    apply replaceOwn_In in I as [E | I]; [| exact (L n l x I J)].
    inversion E; subst. apply in_app_or in J as [J | J]; [| now apply Hi].
    exact (L name old x (getOwn_In _ _ _ _ G) J).
  - destruct (inList name (inheritedNames s)); [discriminate |].
    intros E Hi L n l x I J. inversion E; subst; clear E. simpl in I.
    apply createOwn_In in I as [E | I]; [| exact (L n l x I J)].
    inversion E; subst. now apply Hi.
Qed.

Lemma KeepsListable_refl (s : Store) : KeepsListable s s.
Proof.
  intros L. exact L.
Qed.

Lemma KeepsListable_trans (a b c : Store) :
  KeepsListable a b -> KeepsListable b c -> KeepsListable a c.
Proof.
  intros A B L. apply B, A, L.
Qed.

(** The extraction only files items that can be listed. *)
Lemma extract_listable (objectGroup arrayGroup : string -> string) (v : value) :
  (forall s s', extractItem objectGroup arrayGroup v s = inr s' ->
                KeepsListable s s') /\
  (forall key s s', visitField objectGroup arrayGroup key v s = inr s' ->
                    KeepsListable s s').
Proof.
  pose proof (foldE_related KeepsListable KeepsListable_refl KeepsListable_trans)
    as Fold.
  induction v as [| b | n | t | iso | items H | fields H] using value_nested_ind;
    try (split; [intros s s' E | intros key s s' E]; simpl in E;
         try discriminate; inversion E; subst; apply KeepsListable_refl).
  - rewrite Forall_forall in H. split.
    + intros s s' E. rewrite extractItem_VArr, foldIndexedE_foldE in E.
      revert E. apply Fold. intros kv a b I.
      apply (proj2 (H (snd kv) (indexed_values _ _ _ _ I))).
    + intros key s s' E. unfold visitField in E.
      destruct (isArrayOfObjects (VArr items));
        [| inversion E; subst; apply KeepsListable_refl].
      apply bindE_inr_inv in E as (s1 & E1 & E).
      apply KeepsListable_trans with s1.
      * intros L. apply (pushAll_listable _ _ _ _ E1); [| exact L].
        intros x I. destruct (foldE_each _ _ _ _ _ E x I) as (a & b & X).
        exact (extractItem_listable _ _ _ _ _ X).
      * revert E. apply Fold. intros x a b I. apply (proj1 (H x I)).
  - rewrite Forall_forall in H. split.
    + intros s s' E. rewrite extractItem_VObj in E.
      revert E. apply Fold. intros kv a b I. apply (proj2 (H kv I)).
    + intros key s s' E. unfold visitField in E. destruct fields as [| f fields].
      * inversion E; subst. apply KeepsListable_refl.
      * intros L. apply (pushAll_listable _ _ _ _ E); [| exact L].
        intros x [<- | []]. unfold Listable. simpl. eauto.
Qed.

Lemma extractOf_listable (b : Backend) (main : string) (dataArray : list value)
      (store : Store) :
  extractOf b dataArray (assignMain main dataArray newStore) = inr store ->
  (forall item, In item dataArray -> Listable item) /\
  ListableGroups (members store).
Proof.
  destruct (extractOf_with b) as (og & ag & Eq). rewrite Eq. intros E.
  pose proof (extractWith_listable og ag _ _ _ E) as L. split; [exact L |].
  assert (K : KeepsListable (assignMain main dataArray newStore) store).
  { revert E.
    apply (foldE_related KeepsListable KeepsListable_refl KeepsListable_trans).
    intros x s s' _. apply (proj1 (extract_listable og ag x)). }
  apply K. now apply assignMain_groups.
Qed.

(** When the extraction throws nothing, the referenced generation of
    every backend returns. *)
Lemma references_return (b : Backend) (jsonData : value) (options : Options)
      (main : string) (store : Store) :
  falsy jsonData = false ->
  mainGroupOf b jsonData = inr main ->
  extractOf b (dataArrayOf jsonData)
    (assignMain main (dataArrayOf jsonData) newStore) = inr store ->
  Returns (generateNoSQL jsonData (backendName b) "references" options).
Proof.
  intros F Em X. destruct (extractOf_listable _ _ _ _ X) as [L G].
  destruct (indexFields_listable jsonData L) as [candidates C].
  unfold generateNoSQL. rewrite F.
  destruct b; cbn [backendName String.eqb Ascii.eqb Bool.eqb];
    cbn [mainGroupOf extractOf] in Em, X.
  - unfold Mongo.generateMongoDBDocuments.
    apply (Returns_bind_lift _ _ _ _ _ Em).
    change (structureOf "references") with References. cbv iota.
    apply Returns_bind; [| intros body; apply Returns_bind; [| intros; apply Returns_ret]].
    + unfold Mongo.generateReferencedDocuments.
      apply (Returns_bind_lift _ _ _ _ _ X).
      apply Returns_bind; [| intros; apply Returns_ret].
      now apply mongo_groups_return.
    + apply Returns_when. unfold Mongo.generateIndexSuggestions.
      apply (Returns_bind_lift _ _ _ _ _ C). apply Returns_ret.
  - unfold Firebase.generateFirebaseDocuments.
    apply (Returns_bind_lift _ _ _ _ _ Em).
    change (structureOf "references") with References. cbv iota.
    apply Returns_bind; [| intros body; apply Returns_bind; [| intros; apply Returns_ret]].
    + unfold Firebase.generateReferencedDocuments.
      apply (Returns_bind_lift _ _ _ _ _ X).
      apply Returns_bind; [| intros; apply Returns_ret].
      now apply firebase_groups_return.
    + apply Returns_when. unfold Firebase.generateIndexSuggestions.
      apply (Returns_bind_lift _ _ _ _ _ C). apply Returns_ret.
  - inversion Em; subst main. unfold Dynamo.generateDynamoDBDocuments.
    destruct (name_listable jsonData "Items" "DynamoTable" L) as [name En].
    apply (Returns_bind_lift _ _ _ _ _ En).
    change (structureOf "references") with References. cbv iota.
    apply Returns_bind; [| intros body; apply Returns_bind; [| intros; apply Returns_ret]].
    + unfold Dynamo.generateReferencedDocuments.
      apply (Returns_bind_lift _ _ _ _ _ X).
      apply Returns_bind; [| intros; apply Returns_ret].
      now apply dynamo_groups_return.
    + apply Returns_when. unfold Dynamo.generateIndexSuggestions.
      apply (Returns_bind_lift _ _ _ _ _ C). apply Returns_ret.
  - inversion Em; subst main. unfold Couch.generateCouchDBDocuments.
    change (structureOf "references") with References. cbv iota.
    apply Returns_bind; [| intros body; apply Returns_bind; [| intros; apply Returns_ret]].
    + unfold Couch.generateReferencedDocuments.
      apply (Returns_bind_lift _ _ _ _ _ X).
      apply Returns_bind; [| intros; apply Returns_ret].
      now apply couch_groups_return.
    + apply Returns_when. unfold Couch.generateIndexSuggestions.
      apply (Returns_bind_lift _ _ _ _ _ C). apply Returns_ret.
Qed.


(* ------------------------------------------------------------------ *)
(** *** The layout of the code with references *)
(* ------------------------------------------------------------------ *)




















(* ================================================================== *)
(** ** The names of the extracted groups (claim C9) *)
(* ================================================================== *)









(* ================================================================== *)
(** ** The target names (claim C10) *)
(* ================================================================== *)















(* ================================================================== *)
(** ** Generation and the oracles *)
(* ================================================================== *)








Section FlagsOff.
Variable options : Options.
Hypothesis noIds : addIds options = false.
Hypothesis noStamps : addTimestamps options = false.
Hypothesis noSortKey : truthyOpt (sortKey options) = false.





End FlagsOff.













(** The count is settled once the flags are known. *)
Ltac count options :=
  unfold clockReadsPerDocument;
  destruct (addIds options), (addTimestamps options), (truthyOpt (sortKey options));
  simpl; lia.



Section DrawsPerDocument.
Variable jsonData : value.
Variable options : Options.




End DrawsPerDocument.



(* ================================================================== *)
(** ** The dispatch: index suggestions, structure names, backend names *)
(* ================================================================== *)

Lemma bind_Return_intro (A B : Type) (m : M A) (k : A -> M B) (w w1 : World) (a : A)
      (r : Outcome B) :
  m w = Return a w1 -> k a w1 = r -> bind m k w = r.
Proof.
  intros Hm Hk. unfold bind. now rewrite Hm.
Qed.

Lemma suggestions_Return (jsonData : value) (render : list string -> string)
      (w w' : World) (text : string) :
  (fields <- lift (indexFields jsonData) ;; ret (render fields)) w = Return text w' ->
  w' = w /\ exists fields, text = render fields.
Proof.
  intros E. apply bind_Return in E as (fields & w1 & L & E).
  apply lift_Return in L as [_ ->]. apply ret_Return in E as [-> ->].
  split; [reflexivity | now exists fields].
Qed.

(** X3: in the MongoDB, Firebase and DynamoDB generators the index
    suggestions are text appended after the documents: a generation with
    addIndexes set that returns is the generation with addIndexes off, in
    the same world, followed by the suggestions; the documents are the
    same and the oracles are read in the same way. *)
Theorem X3_index_suggestions_are_appended :
  forall (b : Backend) (jsonData : value) (structure : string)
         (ids stamps : bool) (db sort coll table : option string)
         (w w' : World) (out : string),
    b <> CouchDB ->
    generateNoSQL jsonData (backendName b) structure
      (mkOptions ids stamps true db sort coll table) w = Return out w' ->
    exists documents suggestions,
      generateNoSQL jsonData (backendName b) structure
        (mkOptions ids stamps false db sort coll table) w = Return documents w' /\
      out = documents ++ suggestions /\
      Substring suggestions "Index Suggestions".
Proof.
  intros b jsonData structure ids stamps db sort coll table w w' out N.
  unfold generateNoSQL. destruct (falsy jsonData); [discriminate |].
  destruct b; [| | | contradiction];
    cbn [backendName String.eqb Ascii.eqb Bool.eqb];
    (destruct (String.eqb structure EmptyString); [discriminate |]); intros E.
  - unfold Mongo.generateMongoDBDocuments in E.
    apply bind_Return in E as (name & w1 & Hn & E).
    apply bind_Return in E as (body & w2 & Hb & E).
    apply bind_Return in E as (indexes & w3 & Hi & E).
    apply ret_Return in E as [-> ->].
    apply suggestions_Return in Hi as [-> [fields Hf]]. cbv beta in Hf.
    exists (Mongo.header ++ "use " ++ orElse db "nosql_generator_db" ++ ";" ++ nl ++ nl ++
            body), indexes.
    split; [| split].
    + unfold Mongo.generateMongoDBDocuments.
      eapply bind_Return_intro; [exact Hn |].
      eapply bind_Return_intro; [exact Hb |].
      cbn [when addIndexes dbName]. unfold bind, ret. now rewrite append_empty_r.
    + cbn [dbName]. now rewrite !append_assoc.
    + rewrite Hf. exists "// ". eexists. reflexivity.
  - unfold Firebase.generateFirebaseDocuments in E.
    apply bind_Return in E as (name & w1 & Hn & E).
    apply bind_Return in E as (body & w2 & Hb & E).
    apply bind_Return in E as (indexes & w3 & Hi & E).
    apply ret_Return in E as [-> ->].
    apply suggestions_Return in Hi as [-> [fields Hf]]. cbv beta in Hf.
    exists (Firebase.header ++ body), indexes.
    split; [| split].
    + unfold Firebase.generateFirebaseDocuments.
      eapply bind_Return_intro; [exact Hn |].
      eapply bind_Return_intro; [exact Hb |].
      cbn [when addIndexes]. unfold bind, ret. now rewrite append_empty_r.
    + now rewrite !append_assoc.
    + rewrite Hf. exists "// ". eexists. reflexivity.
  - unfold Dynamo.generateDynamoDBDocuments in E.
    apply bind_Return in E as (name & w1 & Hn & E).
    apply bind_Return in E as (body & w2 & Hb & E).
    apply bind_Return in E as (indexes & w3 & Hi & E).
    apply ret_Return in E as [-> ->].
    apply suggestions_Return in Hi as [-> [fields Hf]]. cbv beta in Hf.
    exists (Dynamo.header ++ body), indexes.
    split; [| split].
    + unfold Dynamo.generateDynamoDBDocuments.
      eapply bind_Return_intro; [exact Hn |].
      eapply bind_Return_intro; [exact Hb |].
      cbn [when addIndexes]. unfold bind, ret. now rewrite append_empty_r.
    + now rewrite !append_assoc.
    + rewrite Hf. exists "// DynamoDB ". eexists. reflexivity.
Qed.

Lemma X3_index_suggestions_are_appended_witness :
  exists documents suggestions,
    generateNoSQL (VArr [sampleDocument]) "firebase" "arrays" noOptions exampleWorld =
      Return documents exampleWorld /\
    Substring suggestions "Index Suggestions".
Proof.
  destruct (X3_index_suggestions_are_appended FirebaseDB (VArr [sampleDocument])
              "arrays" false false None None None None exampleWorld exampleWorld _
              ltac:(discriminate) eq_refl) as (documents & suggestions & E & _ & S).
  exists documents, suggestions. split; [exact E | exact S].
Defined.

Lemma structureOf_default (structure : string) :
  structure <> "flat" -> structure <> "references" -> structure <> "arrays" ->
  structureOf structure = Nested.
Proof.
  intros F R A. unfold structureOf.
  destruct (String.eqb_spec structure "flat"); [contradiction |].
  destruct (String.eqb_spec structure "references"); [contradiction |].
  destruct (String.eqb_spec structure "arrays"); [contradiction | reflexivity].
Qed.

(** X4: a structure name that is none of flat, references and arrays is
    not rejected: every backend treats it as nested. For a non-empty name
    generateNoSQL does, in every world, exactly what it does for the name
    nested; in the CouchDB code this includes the function that main
    awaits. *)
Theorem X4_unknown_structure_is_nested :
  forall (b : Backend) (jsonData : value) (structure : string) (options : Options)
         (w : World),
    structure <> EmptyString ->
    structure <> "flat" -> structure <> "references" -> structure <> "arrays" ->
    generateNoSQL jsonData (backendName b) structure options w =
    generateNoSQL jsonData (backendName b) "nested" options w.
Proof.
  intros b jsonData structure options w E F R A.
  pose proof (structureOf_default structure F R A) as S.
  unfold generateNoSQL. destruct (falsy jsonData); [reflexivity |].
  destruct (String.eqb_spec structure EmptyString); [contradiction |].
  destruct b; cbn [backendName String.eqb Ascii.eqb Bool.eqb];
    unfold Mongo.generateMongoDBDocuments, Firebase.generateFirebaseDocuments,
      Dynamo.generateDynamoDBDocuments, Couch.generateCouchDBDocuments,
      Couch.mainCall;
    rewrite S; reflexivity.
Qed.

Lemma X4_unknown_structure_is_nested_witness :
  generateNoSQL adaDocument "couchdb" "Nested" noOptions exampleWorld =
  generateNoSQL adaDocument "couchdb" "nested" noOptions exampleWorld.
Proof.
  apply (X4_unknown_structure_is_nested CouchDB adaDocument "Nested" noOptions
           exampleWorld); discriminate.
Defined.

(** X5: generateNoSQL returns code only for data that is not falsy, a
    non-empty structure name and one of the four backend names, compared
    exactly; for any other non-empty backend name, given such data and
    such a structure name, it throws the error Unsupported database type
    followed by the name as it was given. *)
Theorem X5_only_known_backends_generate :
  forall (jsonData : value) (dbType structure : string) (options : Options)
         (w : World),
    (forall out w',
       generateNoSQL jsonData dbType structure options w = Return out w' ->
       falsy jsonData = false /\ structure <> EmptyString /\
       In dbType ["mongodb"; "firebase"; "dynamodb"; "couchdb"]) /\
    (falsy jsonData = false -> dbType <> EmptyString -> structure <> EmptyString ->
     ~ In dbType ["mongodb"; "firebase"; "dynamodb"; "couchdb"] ->
     generateNoSQL jsonData dbType structure options w =
     Throw (PlainError ("Unsupported database type: " ++ dbType))).
Proof.
  intros jsonData dbType structure options w. unfold generateNoSQL. split.
  - intros out w'. destruct (falsy jsonData); [discriminate |].
    destruct (String.eqb_spec dbType EmptyString); [discriminate |].
    destruct (String.eqb_spec structure EmptyString); [discriminate |].
    destruct (String.eqb_spec dbType "mongodb");
      [intros _; subst; simpl; auto 7 |].
    destruct (String.eqb_spec dbType "firebase");
      [intros _; subst; simpl; auto 7 |].
    destruct (String.eqb_spec dbType "dynamodb");
      [intros _; subst; simpl; auto 7 |].
    destruct (String.eqb_spec dbType "couchdb");
      [intros _; subst; simpl; auto 7 | discriminate].
  - intros -> D S N.
    destruct (String.eqb_spec dbType EmptyString); [contradiction |].
    destruct (String.eqb_spec structure EmptyString); [contradiction |].
    simpl in N.
    destruct (String.eqb_spec dbType "mongodb"); [subst; tauto |].
    destruct (String.eqb_spec dbType "firebase"); [subst; tauto |].
    destruct (String.eqb_spec dbType "dynamodb"); [subst; tauto |].
    destruct (String.eqb_spec dbType "couchdb"); [subst; tauto | reflexivity].
Qed.

Lemma X5_only_known_backends_generate_witness :
  generateNoSQL adaDocument "MongoDB" "nested" noOptions exampleWorld =
  Throw (PlainError "Unsupported database type: MongoDB").
Proof.
  apply (X5_only_known_backends_generate adaDocument "MongoDB" "nested" noOptions
           exampleWorld); try discriminate; [reflexivity |].
  simpl. intros [H | [H | [H | [H | []]]]]; discriminate.
Defined.

(* ================================================================== *)
(** ** The main function of the CouchDB code *)
(* ================================================================== *)

(** Walks a concatenation down to the part that begins with [x]. *)
Ltac until x :=
  repeat match goal with
         | |- Substring (x ++ _) _ => fail 1
         | |- Substring (?a ++ _) _ =>
             match a with context [x] => apply substring_app_l end
         | |- Substring (_ ++ _) _ => apply substring_app_r
         end.

(** The text at hand begins with the text looked for. *)
Ltac begins := exists EmptyString; eexists; reflexivity.

(** X6: in the code the CouchDB generator returns, main awaits only
    functions that the code defines: createDatabase, the function of the
    structure (the nested one for an unknown structure name) and, when
    addIndexes is set, createIndexes. *)
Theorem X6_couch_main_awaits_defined_functions :
  forall (jsonData : value) (structure : string) (options : Options)
         (w w' : World) (out : string),
    generateNoSQL jsonData "couchdb" structure options w = Return out w' ->
    let f := couchFunctionOf (structureOf structure) in
    Substring out ("async function createDatabase() {" ++ nl) /\
    Substring out ("  await createDatabase();" ++ nl) /\
    Substring out ("async function " ++ f ++ "() {" ++ nl) /\
    Substring out ("  await " ++ f ++ "();" ++ nl) /\
    (addIndexes options = true ->
       Substring out ("async function createIndexes() {" ++ nl) /\
       Substring out ("  await createIndexes();" ++ nl)).
Proof.
  intros jsonData structure options w w' out. unfold generateNoSQL.
  destruct (falsy jsonData); [discriminate |].
  cbn [String.eqb Ascii.eqb Bool.eqb].
  destruct (String.eqb structure EmptyString); [discriminate |]. intros E.
  unfold Couch.generateCouchDBDocuments in E.
  apply bind_Return in E as (body & w1 & Hb & E).
  apply bind_Return in E as (indexes & w2 & Hi & E).
  apply ret_Return in E as [-> _].
  cbv zeta. repeat apply conj.
  - unfold Couch.header. until "async function createDatabase() {". begins.
  - until "  await createDatabase();". begins.
  - unfold Couch.mainCall.
    destruct (structureOf structure); cbn [couchFunctionOf];
      unfold Couch.generateNestedDocuments, Couch.generateFlatDocuments,
        Couch.generateReferencedDocuments, Couch.generateArrayBasedDocuments in Hb;
      repeat (apply bind_Return in Hb as (? & ? & _ & Hb));
      apply ret_Return in Hb as [-> _]; apply substring_app_r, substring_app_l.
    + until "async function addNestedDocuments() {". begins.
    + until "async function addFlatDocuments() {". begins.
    + until "async function addReferencedDocuments() {". begins.
    + until "async function addArrayBasedDocument() {". begins.
  - until (Couch.mainCall structure). apply substring_app_l. unfold Couch.mainCall.
    destruct (structureOf structure); cbn [couchFunctionOf]; begins.
  - intros I. rewrite I in Hi. cbn [when] in Hi.
    unfold Couch.generateIndexSuggestions in Hi.
    apply bind_Return in Hi as (fields & w3 & _ & Hi).
    apply ret_Return in Hi as [-> _]. split.
    + do 2 apply substring_app_r. apply substring_app_l.
      until "async function createIndexes() {". begins.
    + rewrite I. until "  await createIndexes();". begins.
Qed.

Lemma X6_couch_main_awaits_defined_functions_witness :
  exists out,
    Substring out ("async function addNestedDocuments() {" ++ nl) /\
    Substring out ("  await addNestedDocuments();" ++ nl).
Proof.
  eexists.
  pose proof (X6_couch_main_awaits_defined_functions adaDocument "tree" noOptions
                exampleWorld exampleWorld _ eq_refl) as (_ & _ & D & A & _).
  split; [exact D | exact A].
Defined.

(* ================================================================== *)
(** ** When the extraction of the groups throws *)
(* ================================================================== *)

Lemma extractable_VObj (fields : list (string * value)) :
  extractable (VObj fields) = forallb (fun kv => extractableField (snd kv)) fields.
Proof.
  reflexivity.
Qed.

Lemma extractable_VArr (elems : list value) :
  extractable (VArr elems) = forallb extractableField elems.
Proof.
  reflexivity.
Qed.

(** An invariant of the store that every push of the extraction keeps,
    and under which every push returns, makes the extraction return on
    extractable items. *)
Section ExtractionReturns.
Variable objectGroup arrayGroup : string -> string.
Variable Safe : Store -> Prop.
Hypothesis push_object :
  forall key items s, Safe s ->
    exists s', pushAll (objectGroup key) items s = inr s' /\ Safe s'.
Hypothesis push_array :
  forall key items s, Safe s ->
    exists s', pushAll (arrayGroup key) items s = inr s' /\ Safe s'.

Lemma foldE_returns (A : Type) (f : A -> Store -> Error + Store) (l : list A) :
  (forall x s, In x l -> Safe s -> exists s', f x s = inr s' /\ Safe s') ->
  forall s, Safe s -> exists s', foldE f l s = inr s' /\ Safe s'.
Proof.
  induction l as [| x l IH]; intros H s S; simpl.
  - now exists s.
  - destruct (H x s (or_introl eq_refl) S) as (s1 & E1 & S1). rewrite E1. simpl.
    apply IH; [| exact S1]. intros y a I. apply H. now right.
Qed.

Lemma extract_returns (v : value) :
  (extractable v = true ->
   forall s, Safe s ->
     exists s', extractItem objectGroup arrayGroup v s = inr s' /\ Safe s') /\
  (extractableField v = true ->
   forall key s, Safe s ->
     exists s', visitField objectGroup arrayGroup key v s = inr s' /\ Safe s').
Proof.
  induction v as [| b | n | t | iso | items H | fields H] using value_nested_ind;
    try (split; [intros X s S | intros X key s S]; simpl in *;
         try discriminate; now exists s).
  - rewrite Forall_forall in H. split.
    + intros X s S. rewrite extractItem_VArr, foldIndexedE_foldE.
      rewrite extractable_VArr, forallb_forall in X.
      apply foldE_returns; [| exact S]. intros kv a I Sa.
      pose proof (indexed_values _ _ _ _ I) as J.
      apply (proj2 (H _ J)); [now apply X | exact Sa].
    + intros X key s S. unfold visitField. unfold extractableField in X.
      destruct (isArrayOfObjects (VArr items)); [| now exists s].
      destruct (push_array key items s S) as (s1 & E1 & S1). rewrite E1. simpl.
      rewrite forallb_forall in X.
      apply foldE_returns; [| exact S1]. intros x a I Sa.
      apply (proj1 (H x I)); [now apply X | exact Sa].
  - rewrite Forall_forall in H. split.
    + intros X s S. rewrite extractItem_VObj.
      rewrite extractable_VObj, forallb_forall in X.
      apply foldE_returns; [| exact S]. intros kv a I Sa.
      apply (proj2 (H kv I)); [now apply X | exact Sa].
    + intros X key s S. unfold visitField. destruct fields; [now exists s |].
      now apply push_object.
Qed.

Lemma extractWith_returns (items : list value) (s : Store) :
  forallb extractable items = true -> Safe s ->
  exists s', extractWith objectGroup arrayGroup items s = inr s' /\ Safe s'.
Proof.
  intros X S. rewrite forallb_forall in X.
  apply foldE_returns; [| exact S]. intros x a I Sa.
  apply (proj1 (extract_returns x)); [now apply X | exact Sa].
Qed.
End ExtractionReturns.

Lemma endsWith_app (key suffix : string) : endsWith (key ++ suffix) suffix = true.
Proof.
  induction key as [| c key IH]; simpl.
  - destruct suffix; simpl; [reflexivity |].
    now rewrite Ascii.eqb_refl, String.eqb_refl.
  - rewrite IH. apply orb_true_r.
Qed.

Lemma pluralName_endsWith (key : string) : endsWith (pluralName key) "s" = true.
Proof.
  unfold pluralName. destruct (endsWith key "s") eqn:E; [exact E | apply endsWith_app].
Qed.

Lemma plural_not_inherited (key : string) :
  inList (pluralName key) objectPrototypeNames = false.
Proof.
  pose proof (pluralName_endsWith key) as E.
  destruct (inList (pluralName key) objectPrototypeNames) eqn:I; [| reflexivity].
  unfold inList in I. apply existsb_exists in I as (name & N & Q).
  apply String.eqb_eq in Q. rewrite Q in E. simpl in N.
  repeat (destruct N as [<- | N]; [discriminate |]). contradiction.
Qed.

Lemma pushAll_plural (key : string) (items : list value) (s : Store) :
  inheritedNames s = objectPrototypeNames ->
  exists s', pushAll (pluralName key) items s = inr s' /\
             inheritedNames s' = objectPrototypeNames.
Proof.
  intros S. unfold pushAll.
  destruct (getOwn (pluralName key) (members s)); [eauto |].
  rewrite S, plural_not_inherited. eauto.
Qed.

(** X7: the MongoDB and the Firebase generator file every extracted
    object under a name that ends in s, and no name that a plain object
    inherits ends in s. So, unless the collection of the documents is
    named __proto__, their generation with references returns code for
    every root that is not falsy and whose documents are extractable (no
    document, and no element of an array of objects met by the
    extraction, is null), whatever the names of the fields. *)
Theorem X7_plural_groups_never_collide :
  forall (b : Backend) (jsonData : value) (options : Options) (main : string),
    b = MongoDB \/ b = FirebaseDB ->
    falsy jsonData = false ->
    forallb extractable (dataArrayOf jsonData) = true ->
    mainGroupOf b jsonData = inr main ->
    main <> "__proto__" ->
    (forall key, inList (pluralName key) objectPrototypeNames = false) /\
    Returns (generateNoSQL jsonData (backendName b) "references" options).
Proof.
  intros b jsonData options main B F X M N. split; [exact plural_not_inherited |].
  assert (S : inheritedNames (assignMain main (dataArrayOf jsonData) newStore) =
              objectPrototypeNames).
  { unfold assignMain. destruct (String.eqb_spec main "__proto__");
      [contradiction | reflexivity]. }
  destruct (extractWith_returns pluralName pluralName
              (fun s => inheritedNames s = objectPrototypeNames)
              pushAll_plural pushAll_plural _ _ X S) as (store & E & _).
  apply (references_return b jsonData options main store F M).
  destruct B as [-> | ->]; exact E.
Qed.

Lemma X7_plural_groups_never_collide_witness :
  Returns (generateNoSQL
             (VObj [("toString", VObj [("constructor", VObj [("a", VNull)])])])
             "mongodb" "references" noOptions).
Proof.
  apply (X7_plural_groups_never_collide MongoDB
           (VObj [("toString", VObj [("constructor", VObj [("a", VNull)])])])
           noOptions "toString"); try reflexivity; [now left | discriminate].
Defined.

Lemma pushAll_error (name : string) (items : list value) (s : Store) (e : Error) :
  pushAll name items s = inl e -> e = pushNotAFunction.
Proof.
  unfold pushAll. destruct (getOwn name (members s)); [discriminate |].
  destruct (inList name (inheritedNames s)); [| discriminate].
  intros E. now inversion E.
Qed.

Lemma foldE_error (A : Type) (P : Error -> Prop) (f : A -> Store -> Error + Store)
      (l : list A) :
  (forall x s e, In x l -> f x s = inl e -> P e) ->
  forall s e, foldE f l s = inl e -> P e.
Proof.
  induction l as [| x l IH]; intros H s e E; simpl in E; [discriminate |].
  destruct (f x s) as [e1 | s1] eqn:E1; simpl in E.
  - inversion E; subst. apply (H x s); [now left | exact E1].
  - apply (IH (fun y a e' I => H y a e' (or_intror I)) _ _ E).
Qed.

(** The extraction throws nothing but TypeErrors. *)
Lemma extract_errors (objectGroup arrayGroup : string -> string) (v : value) :
  (forall s e, extractItem objectGroup arrayGroup v s = inl e ->
               exists msg, e = TypeError msg) /\
  (forall key s e, visitField objectGroup arrayGroup key v s = inl e ->
                   exists msg, e = TypeError msg).
Proof.
  induction v as [| b | n | t | iso | items H | fields H] using value_nested_ind;
    try (split; [intros s e E | intros key s e E]; simpl in E;
         try discriminate; inversion E; eexists; reflexivity).
  - rewrite Forall_forall in H. split.
    + intros s e E. rewrite extractItem_VArr, foldIndexedE_foldE in E.
      revert E. apply (foldE_error _ (fun e => exists msg, e = TypeError msg)). intros kv a e' I.
      apply (proj2 (H _ (indexed_values _ _ _ _ I))).
    + intros key s e E. unfold visitField in E.
      destruct (isArrayOfObjects (VArr items)); [| discriminate].
      destruct (pushAll (arrayGroup key) items s) as [e1 | s1] eqn:E1; simpl in E.
      * inversion E; subst. apply pushAll_error in E1. subst. eexists. reflexivity.
      * revert E. apply (foldE_error _ (fun e => exists msg, e = TypeError msg)). intros x a e' I. apply (proj1 (H x I)).
  - rewrite Forall_forall in H. split.
    + intros s e E. rewrite extractItem_VObj in E.
      revert E. apply (foldE_error _ (fun e => exists msg, e = TypeError msg)). intros kv a e' I. apply (proj2 (H kv I)).
    + intros key s e E. unfold visitField in E. destruct fields; [discriminate |].
      apply pushAll_error in E. subst. eexists. reflexivity.
Qed.

Lemma pushAll_keeps_NoGroupInherited (name : string) (items : list value)
      (s s' : Store) :
  pushAll name items s = inr s' -> NoGroupInherited s -> NoGroupInherited s'.
Proof.
  unfold pushAll. intros E [I G].
  destruct (getOwn name (members s)) as [old |] eqn:O.
  - inversion E; subst. split; [exact I |]. simpl. intros n N.
    apply in_map_iff in N as ([n' v] & <- & N). apply replaceOwn_In in N as [Q | N].
    + inversion Q; subst. apply G. apply getOwn_In in O.
      apply in_map_iff. now exists (name, old).
    + apply G. apply in_map_iff. now exists (n', v).
  - rewrite I in E. destruct (inList name objectPrototypeNames) eqn:L; [discriminate |].
    inversion E; subst. split; [reflexivity |]. simpl. intros n N.
    apply in_map_iff in N as ([n' v] & <- & N). apply createOwn_In in N as [Q | N].
    + inversion Q; subst. exact L.
    + apply G. apply in_map_iff. now exists (n', v).
Qed.

(** Every item of a fold that returns was handled in a store that the
    invariant holds of. *)
Lemma foldE_each_under (A : Type) (Inv : Store -> Prop)
      (f : A -> Store -> Error + Store) (l : list A) :
  (forall x a b, f x a = inr b -> Inv a -> Inv b) ->
  forall s s', Inv s -> foldE f l s = inr s' ->
    forall x, In x l -> exists a b, Inv a /\ f x a = inr b.
Proof.
  intros K. induction l as [| y l IH]; intros s s' V E x I; [contradiction |].
  simpl in E. apply bindE_inr_inv in E as (s1 & E1 & E).
  destruct I as [-> | I]; [now exists s, s1 |].
  exact (IH _ _ (K _ _ _ E1 V) E x I).
Qed.

Lemma couch_extract_keeps (v : value) (s s' : Store) :
  extractItem (fun key => key) singularName v s = inr s' ->
  NoGroupInherited s -> NoGroupInherited s'.
Proof.
  revert s s'.
  apply (proj1 (extract_related (fun a b => NoGroupInherited a -> NoGroupInherited b)
                  (fun a H => H) (fun a b c F G H => G (F H))
                  (fun key => key) singularName
                  (fun key items a b E => pushAll_keeps_NoGroupInherited _ _ _ _ E)
                  (fun key items a b E => pushAll_keeps_NoGroupInherited _ _ _ _ E) v)).
Qed.

(** X8: the CouchDB generator files an extracted object under the name
    of its field, and looks the group up with docTypes[key], which also
    finds what a plain object inherits. When a document has a field whose
    name is one of those inherited names and whose value is a non-empty
    object, its generation with references throws a TypeError, whatever
    the options. *)
Theorem X8_couch_inherited_field_name_throws :
  forall (jsonData : value) (options : Options) (w : World)
         (fields sub : list (string * value)) (key : string),
    falsy jsonData = false ->
    In (VObj fields) (dataArrayOf jsonData) ->
    In (key, VObj sub) fields -> sub <> [] ->
    In key objectPrototypeNames ->
    exists msg,
      generateNoSQL jsonData "couchdb" "references" options w = Throw (TypeError msg).
Proof.
  intros jsonData options w fields sub key F D I N P.
  unfold generateNoSQL. rewrite F. cbn [String.eqb Ascii.eqb Bool.eqb].
  unfold Couch.generateCouchDBDocuments.
  change (structureOf "references") with References. cbv iota.
  unfold Couch.generateReferencedDocuments, Couch.extractReferencedDocTypes.
  assert (V : NoGroupInherited (assignMain "main" (dataArrayOf jsonData) newStore)).
  { split; [reflexivity |]. simpl. intros name [<- | []]. reflexivity. }
  destruct (extractWith (fun key => key) singularName (dataArrayOf jsonData)
              (assignMain "main" (dataArrayOf jsonData) newStore)) as [e | store] eqn:E.
  - assert (T : exists msg, e = TypeError msg).
    { revert E. apply (foldE_error _ (fun e => exists msg, e = TypeError msg)). intros x a e' _.
      apply (proj1 (extract_errors _ _ x)). }
    destruct T as [msg ->]. now exists msg.
  - exfalso.
    destruct (foldE_each_under _ NoGroupInherited _ _
                (fun x a b X => couch_extract_keeps x a b X) _ _ V E _ D)
      as (a & b & Va & X).
    rewrite extractItem_VObj in X.
    destruct (foldE_each_under _ NoGroupInherited _ _
                (fun kv a b Y =>
                   proj2 (extract_related
                            (fun a b => NoGroupInherited a -> NoGroupInherited b)
                            (fun a H => H) (fun a b c F G H => G (F H))
                            (fun key => key) singularName
                            (fun key items a b E =>
                               pushAll_keeps_NoGroupInherited _ _ _ _ E)
                            (fun key items a b E =>
                               pushAll_keeps_NoGroupInherited _ _ _ _ E) (snd kv))
                         (fst kv) a b Y)
                _ _ Va X _ I) as (c & d & [Ic Gc] & Y).
    simpl in Y. destruct sub as [| p sub]; [contradiction |].
    unfold pushAll in Y.
    assert (L : inList key objectPrototypeNames = true).
    { unfold inList. apply existsb_exists. exists key. split; [exact P |].
      apply String.eqb_refl. }
    destruct (getOwn key (members c)) as [old |] eqn:O.
    + apply getOwn_In in O.
      rewrite (Gc key) in L; [discriminate |].
      apply in_map_iff. now exists (key, old).
    + rewrite Ic, L in Y. discriminate.
Qed.

Lemma X8_couch_inherited_field_name_throws_witness :
  exists msg,
    generateNoSQL (VObj [("id", VNum 1); ("constructor", VObj [("name", VStr "Ada")])])
      "couchdb" "references" noOptions exampleWorld = Throw (TypeError msg).
Proof.
  apply (X8_couch_inherited_field_name_throws
           (VObj [("id", VNum 1); ("constructor", VObj [("name", VStr "Ada")])])
           noOptions exampleWorld
           [("id", VNum 1); ("constructor", VObj [("name", VStr "Ada")])]
           [("name", VStr "Ada")] "constructor").
  - reflexivity.
  - now left.
  - right. now left.
  - discriminate.
  - now left.
Defined.

(* ================================================================== *)
(** ** jsonFormatter.js: what the checks of validateJson report *)
(* ================================================================== *)

Lemma Adds_refl (v : JsonFormatter.Validation) : Adds [] v v.
Proof.
  unfold Adds. destruct v. simpl. now rewrite app_nil_r.
Qed.

Lemma Adds_trans (e1 e2 : list value) (a b c : JsonFormatter.Validation) :
  Adds e1 a b -> Adds e2 b c -> Adds (e1 ++ e2) a c.
Proof.
  unfold Adds. intros -> ->. simpl. now rewrite app_assoc.
Qed.

Lemma Adds_pushWarning (type path message : string) (v : JsonFormatter.Validation) :
  Adds [VObj [("type", VStr type); ("path", VStr path); ("message", VStr message)]]
       v (JsonFormatter.pushWarning type path message v).
Proof.
  reflexivity.
Qed.

Lemma Adds_same (extra : list value) (v v' : JsonFormatter.Validation) :
  Adds extra v v' -> (v' = v <-> extra = []).
Proof.
  unfold Adds. intros ->. destruct v as [ok found ws]. simpl. split.
  - intros E. inversion E as [L]. apply (f_equal (@length value)) in L.
    rewrite length_app in L. destruct extra; [reflexivity | simpl in L; lia].
  - intros ->. now rewrite app_nil_r.
Qed.

(** A loop whose every step pushes warnings pushes warnings; it pushes
    none exactly when no step does. *)
Lemma fold_left_adds (A : Type) (f : JsonFormatter.Validation -> A -> JsonFormatter.Validation)
      (Q : A -> Prop) (l : list A) :
  (forall x v, In x l -> exists extra, Adds extra v (f v x) /\ (extra = [] <-> Q x)) ->
  forall v, exists extra,
    Adds extra v (fold_left f l v) /\ (extra = [] <-> forall x, In x l -> Q x).
Proof.
  induction l as [| x l IH]; intros H v; simpl.
  - exists []. split; [apply Adds_refl |]. split; [intros _ y [] | reflexivity].
  - destruct (H x v (or_introl eq_refl)) as (e1 & A1 & Q1).
    destruct (IH (fun y a I => H y a (or_intror I)) (f v x)) as (e2 & A2 & Q2).
    exists (e1 ++ e2)%list. split; [exact (Adds_trans _ _ _ _ _ A1 A2) |]. split.
    + intros E. apply app_eq_nil in E as [E1 E2].
      intros y [<- | I]; [now apply Q1 | now apply Q2].
    + intros K. rewrite (proj2 Q1), (proj2 Q2); [reflexivity | |]; auto.
Qed.

Lemma foldIndexed_adds (A : Type)
      (f : nat -> A -> JsonFormatter.Validation -> JsonFormatter.Validation)
      (Q : A -> Prop) (l : list A) :
  (forall i x v, In x l -> exists extra, Adds extra v (f i x v) /\ (extra = [] <-> Q x)) ->
  forall index v, exists extra,
    Adds extra v (JsonFormatter.foldIndexed f l index v) /\
    (extra = [] <-> forall x, In x l -> Q x).
Proof.
  induction l as [| x l IH]; intros H index v; simpl.
  - exists []. split; [apply Adds_refl |]. split; [intros _ y [] | reflexivity].
  - destruct (H index x v (or_introl eq_refl)) as (e1 & A1 & Q1).
    destruct (IH (fun i y a I => H i y a (or_intror I)) (S index) (f index x v))
      as (e2 & A2 & Q2).
    exists (e1 ++ e2)%list. split; [exact (Adds_trans _ _ _ _ _ A1 A2) |]. split.
    + intros E. apply app_eq_nil in E as [E1 E2].
      intros y [<- | I]; [now apply Q1 | now apply Q2].
    + intros K. rewrite (proj2 Q1), (proj2 Q2); [reflexivity | |]; auto.
Qed.

Lemma existsb_false (A : Type) (q : A -> bool) (l : list A) :
  existsb q l = false <-> forall x, In x l -> q x = false.
Proof.
  induction l as [| x l IH]; simpl.
  - split; [intros _ y [] | reflexivity].
  - rewrite orb_false_iff, IH. split.
    + intros [E K] y [<- | I]; auto.
    + intros K. split; [apply K; now left | intros y I; apply K; now right].
Qed.

Lemma checkEmptyCollections_adds (data : value) :
  forall path v, exists extra,
    Adds extra v (JsonFormatter.checkEmptyCollections data path v) /\
    (extra = [] <-> hasEmptyCollection data = false).
Proof.
  induction data as [| b | n | t | iso | items H | fields H] using value_nested_ind;
    intros path v;
    try (exists []; split; [apply Adds_refl | split; reflexivity]).
  - eexists. split; [apply Adds_pushWarning |]. split; discriminate.
  - rewrite Forall_forall in H. cbn [JsonFormatter.checkEmptyCollections].
    destruct items as [| x items].
    + simpl. eexists. split; [apply Adds_pushWarning |]. split; discriminate.
    + destruct (foldIndexed_adds _
                  (fun index item acc =>
                     if JsonFormatter.isObject item
                     then JsonFormatter.checkEmptyCollections item
                            (JsonFormatter.itemPath path index) acc
                     else acc)
                  (fun item => hasEmptyCollection item = false) (x :: items))
        with (index := 0) (v := v) as (extra & A & Q).
      * intros i y a I. destruct (JsonFormatter.isObject y) eqn:O.
        -- apply (H y I).
        -- exists []. split; [apply Adds_refl |].
           destruct y; try discriminate; split; reflexivity.
      * exists extra. split; [exact A |]. rewrite Q.
        change (hasEmptyCollection (VArr (x :: items)))
          with (existsb hasEmptyCollection (x :: items)).
        now rewrite existsb_false.
  - rewrite Forall_forall in H. cbn [JsonFormatter.checkEmptyCollections].
    destruct fields as [| kv fields].
    + simpl. eexists. split; [apply Adds_pushWarning |]. split; discriminate.
    + destruct (fold_left_adds _
                  (fun acc kv =>
                     if JsonFormatter.isObject (snd kv)
                     then JsonFormatter.checkEmptyCollections (snd kv)
                            (JsonFormatter.propPath path (fst kv)) acc
                     else acc)
                  (fun kv => hasEmptyCollection (snd kv) = false) (kv :: fields))
        with (v := v) as (extra & A & Q).
      * intros y a I. destruct (JsonFormatter.isObject (snd y)) eqn:O.
        -- apply (H y I).
        -- exists []. split; [apply Adds_refl |].
           destruct (snd y); try discriminate; split; reflexivity.
      * exists extra. split; [exact A |]. rewrite Q.
        change (hasEmptyCollection (VObj (kv :: fields)))
          with (existsb (fun kv => hasEmptyCollection (snd kv)) (kv :: fields)).
        now rewrite existsb_false.
Qed.

(** X9: checkEmptyCollections pushes warnings only, and pushes none
    exactly when no array and no object inside the data, the data
    included, is empty; a Date counts as an object without keys. *)
Theorem X9_empty_collections_are_all_found :
  forall (data : value) (path : string) (validation : JsonFormatter.Validation),
    (exists extra,
       Adds extra validation (JsonFormatter.checkEmptyCollections data path validation)) /\
    (JsonFormatter.checkEmptyCollections data path validation = validation <->
     hasEmptyCollection data = false).
Proof.
  intros data path validation.
  destruct (checkEmptyCollections_adds data path validation) as (extra & A & Q).
  split; [now exists extra |]. now rewrite (Adds_same _ _ _ A).
Qed.

Lemma scalar_no_large (y : value) :
  JsonFormatter.isObject y = false -> hasLargeArray y = false.
Proof.
  destruct y; try discriminate; reflexivity.
Qed.

Lemma checkLargeArrays_adds (data : value) :
  forall path v, exists extra,
    Adds extra v (JsonFormatter.checkLargeArrays data path v) /\
    (extra = [] <-> hasLargeArray data = false).
Proof.
  induction data as [| b | n | t | iso | items H | fields H] using value_nested_ind;
    intros path v;
    try (exists []; split; [apply Adds_refl | split; reflexivity]).
  - rewrite Forall_forall in H. cbn [JsonFormatter.checkLargeArrays hasLargeArray].
    unfold JsonFormatter.LARGE_ARRAY_THRESHOLD.
    assert (W : exists e1 v1,
               Adds e1 v v1 /\ (e1 = [] <-> Nat.ltb 1000 (length items) = false) /\
               v1 = (if Nat.ltb 1000 (length items)
                     then JsonFormatter.pushWarning "largeArray"
                            (JsonFormatter.orRoot path)
                            ("Large array (" ++ natToString (length items) ++
                             " items) at " ++ JsonFormatter.orRoot path) v
                     else v)).
    { destruct (Nat.ltb 1000 (length items)).
      - eexists. eexists. split; [apply Adds_pushWarning |].
        split; [split; discriminate | reflexivity].
      - exists [], v. split; [apply Adds_refl |]. split; [split |]; reflexivity. }
    destruct W as (e1 & v1 & A1 & Q1 & <-).
    destruct (foldIndexed_adds _
                (fun index item acc =>
                   if JsonFormatter.isObject item
                   then JsonFormatter.checkLargeArrays item
                          (JsonFormatter.itemPath path index) acc
                   else acc)
                (fun item => hasLargeArray item = false) items)
      with (index := 0) (v := v1) as (e2 & A2 & Q2).
    + intros i y a I. destruct (JsonFormatter.isObject y) eqn:O.
      * apply (H y I).
      * exists []. split; [apply Adds_refl |].
        rewrite (scalar_no_large y O). split; reflexivity.
    + exists (e1 ++ e2)%list. split; [exact (Adds_trans _ _ _ _ _ A1 A2) |].
      rewrite orb_false_iff, existsb_false, <- Q1, <- Q2. split.
      * intros E. now apply app_eq_nil in E.
      * intros [-> ->]. reflexivity.
  - rewrite Forall_forall in H. cbn [JsonFormatter.checkLargeArrays hasLargeArray].
    destruct (fold_left_adds _
                (fun acc kv =>
                   if JsonFormatter.isObject (snd kv)
                   then JsonFormatter.checkLargeArrays (snd kv)
                          (JsonFormatter.propPath path (fst kv)) acc
                   else acc)
                (fun kv => hasLargeArray (snd kv) = false) fields)
      with (v := v) as (extra & A & Q).
    + intros y a I. destruct (JsonFormatter.isObject (snd y)) eqn:O.
      * apply (H y I).
      * exists []. split; [apply Adds_refl |].
        rewrite (scalar_no_large _ O). split; reflexivity.
    + exists extra. split; [exact A |]. now rewrite Q, existsb_false.
Qed.

(** X10: checkLargeArrays pushes warnings only, and pushes none exactly
    when no array inside the data, the data included, has more than 1000
    elements. The bound is strict: an array of 1000 scalars is not
    reported, an array of 1001 elements is. *)
Theorem X10_large_arrays_are_all_found :
  forall (data : value) (path : string) (validation : JsonFormatter.Validation),
    (exists extra,
       Adds extra validation (JsonFormatter.checkLargeArrays data path validation)) /\
    (JsonFormatter.checkLargeArrays data path validation = validation <->
     hasLargeArray data = false) /\
    (forall x, JsonFormatter.isObject x = false ->
       JsonFormatter.checkLargeArrays (VArr (repeat x 1000)) path validation =
       validation) /\
    (forall x,
       JsonFormatter.checkLargeArrays (VArr (repeat x 1001)) path validation <>
       validation).
Proof.
  intros data path validation.
  destruct (checkLargeArrays_adds data path validation) as (extra & A & Q).
  split; [now exists extra |]. split; [now rewrite (Adds_same _ _ _ A) |]. split.
  - intros x O.
    destruct (checkLargeArrays_adds (VArr (repeat x 1000)) path validation)
      as (e & Ae & Qe).
    apply (Adds_same _ _ _ Ae), Qe. cbn [hasLargeArray]. rewrite repeat_length.
    change (Nat.ltb 1000 1000) with false. cbn [orb].
    apply existsb_false. intros y I. apply repeat_spec in I. subst.
    now apply scalar_no_large.
  - intros x E.
    destruct (checkLargeArrays_adds (VArr (repeat x 1001)) path validation)
      as (e & Ae & Qe).
    apply (Adds_same _ _ _ Ae), Qe in E. cbn [hasLargeArray] in E.
    rewrite repeat_length in E. discriminate.
Qed.

Lemma nesting_bound (A : Type) (isObj : A -> bool) (n : A -> nat) (d : nat)
      (l : list A) :
  d + fold_right (fun x acc => if isObj x then Nat.max (S (n x)) acc else acc) 0 l <= 10
  <-> d <= 10 /\ forall x, In x l -> isObj x = true -> d + 1 + n x <= 10.
Proof.
  induction l as [| x l IH]; cbn [fold_right].
  - split; [intros H; split; [lia | intros y []] | lia].
  - destruct (isObj x) eqn:O.
    + split.
      * intros H. assert (K : d + fold_right
                  (fun x acc => if isObj x then Nat.max (S (n x)) acc else acc) 0 l
                  <= 10) by lia.
        apply IH in K as [D K]. split; [exact D |].
        intros y [<- | I] Oy; [lia | now apply K].
      * intros [D K].
        assert (J : d + fold_right
                  (fun x acc => if isObj x then Nat.max (S (n x)) acc else acc) 0 l
                  <= 10) by (apply IH; split; [exact D | intros y I; apply K; now right]).
        pose proof (K x (or_introl eq_refl) O). lia.
    + rewrite IH. split; intros [D K]; (split; [exact D |]).
      * intros y [<- | I] Oy; [congruence | now apply K].
      * intros y I. apply K. now right.
Qed.

Lemma checkNestingDepth_adds (data : value) :
  forall path d v, exists extra,
    Adds extra v (JsonFormatter.checkNestingDepth data path d v) /\
    (extra = [] <-> d + nesting data <= 10).
Proof.
  assert (W : forall path d v, exists e1,
             Adds e1 v
               (if Nat.ltb JsonFormatter.MAX_RECOMMENDED_DEPTH d
                then JsonFormatter.pushWarning "deepNesting" (JsonFormatter.orRoot path)
                       ("Deep nesting (depth " ++ natToString d ++ ") at " ++
                        JsonFormatter.orRoot path) v
                else v) /\
             (e1 = [] <-> d <= 10)).
  { intros path d v. unfold JsonFormatter.MAX_RECOMMENDED_DEPTH.
    destruct (Nat.ltb_spec 10 d).
    - eexists. split; [apply Adds_pushWarning |]. split; [discriminate | lia].
    - exists []. split; [apply Adds_refl |]. split; [lia | reflexivity]. }
  induction data as [| b | n | t | iso | items H | fields H] using value_nested_ind;
    intros path d v;
    try (destruct (W path d v) as (e1 & A1 & Q1); exists e1;
         split; [exact A1 | simpl; rewrite Nat.add_0_r; exact Q1]).
  - rewrite Forall_forall in H. cbn [JsonFormatter.checkNestingDepth nesting].
    destruct (W path d v) as (e1 & A1 & Q1).
    destruct (foldIndexed_adds _
                (fun index item acc =>
                   if JsonFormatter.isObject item
                   then JsonFormatter.checkNestingDepth item
                          (JsonFormatter.itemPath path index) (d + 1) acc
                   else acc)
                (fun item => JsonFormatter.isObject item = true ->
                             d + 1 + nesting item <= 10) items)
      with (index := 0)
           (v := if Nat.ltb JsonFormatter.MAX_RECOMMENDED_DEPTH d
                 then JsonFormatter.pushWarning "deepNesting" (JsonFormatter.orRoot path)
                        ("Deep nesting (depth " ++ natToString d ++ ") at " ++
                         JsonFormatter.orRoot path) v
                 else v) as (e2 & A2 & Q2).
    + intros i y a I. destruct (JsonFormatter.isObject y) eqn:O.
      * destruct (H y I (JsonFormatter.itemPath path i) (d + 1) a) as (e & Ae & Qe).
        exists e. split; [exact Ae |]. rewrite Qe. tauto.
      * exists []. split; [apply Adds_refl |]. split; [discriminate | reflexivity].
    + exists (e1 ++ e2)%list. split; [exact (Adds_trans _ _ _ _ _ A1 A2) |].
      rewrite nesting_bound, <- Q1, <- Q2. split.
      * intros E. now apply app_eq_nil in E.
      * intros [-> ->]. reflexivity.
  - rewrite Forall_forall in H. cbn [JsonFormatter.checkNestingDepth nesting].
    destruct (W path d v) as (e1 & A1 & Q1).
    destruct (fold_left_adds _
                (fun acc kv =>
                   if JsonFormatter.isObject (snd kv)
                   then JsonFormatter.checkNestingDepth (snd kv)
                          (JsonFormatter.propPath path (fst kv)) (d + 1) acc
                   else acc)
                (fun kv => JsonFormatter.isObject (snd kv) = true ->
                           d + 1 + nesting (snd kv) <= 10) fields)
      with (v := if Nat.ltb JsonFormatter.MAX_RECOMMENDED_DEPTH d
                 then JsonFormatter.pushWarning "deepNesting" (JsonFormatter.orRoot path)
                        ("Deep nesting (depth " ++ natToString d ++ ") at " ++
                         JsonFormatter.orRoot path) v
                 else v) as (e2 & A2 & Q2).
    + intros y a I. destruct (JsonFormatter.isObject (snd y)) eqn:O.
      * destruct (H y I (JsonFormatter.propPath path (fst y)) (d + 1) a)
          as (e & Ae & Qe).
        exists e. split; [exact Ae |]. rewrite Qe. tauto.
      * exists []. split; [apply Adds_refl |]. split; [discriminate | reflexivity].
    + exists (e1 ++ e2)%list. split; [exact (Adds_trans _ _ _ _ _ A1 A2) |].
      rewrite (nesting_bound _ (fun kv => JsonFormatter.isObject (snd kv))
                 (fun kv => nesting (snd kv))), <- Q1, <- Q2. split.
      * intros E. now apply app_eq_nil in E.
      * intros [-> ->]. reflexivity.
Qed.

(* ================================================================== *)
(** ** jsonFormatter.js: the counters of calculateJsonMetrics *)
(* ================================================================== *)

Lemma Counted_refl (m : JsonFormatter.Metadata) : Counted 0 m m.
Proof.
  unfold Counted. repeat split; lia.
Qed.

Lemma Counted_trans (h1 h2 : nat) (a b c : JsonFormatter.Metadata) :
  Counted h1 a b -> Counted h2 b c -> Counted (Nat.max h1 h2) a c.
Proof.
  unfold Counted. intros (S1 & D1 & N1 & A1 & O1) (S2 & D2 & N2 & A2 & O2).
  repeat split; lia.
Qed.

Lemma Counted_fold (A : Type) (f : JsonFormatter.Metadata -> A -> JsonFormatter.Metadata)
      (g : A -> nat) (l : list A) :
  (forall x m, In x l -> Counted (g x) m (f m x)) ->
  forall m, Counted (fold_right (fun x acc => Nat.max (g x) acc) 0 l) m (fold_left f l m).
Proof.
  induction l as [| x l IH]; intros H m; cbn [fold_right fold_left].
  - apply Counted_refl.
  - apply Counted_trans with (f m x); [apply H; now left |].
    apply IH. intros y a I. apply H. now right.
Qed.

Lemma height_fold (A : Type) (h : A -> nat) (level : nat) (l : list A) :
  Nat.max level (fold_right (fun x acc => Nat.max (level + 1 + h x) acc) 0 l) =
  level + fold_right (fun x acc => Nat.max (S (h x)) acc) 0 l.
Proof.
  induction l as [| x l IH]; cbn [fold_right]; lia.
Qed.

Lemma Counted_eq (h h' : nat) (m m' : JsonFormatter.Metadata) :
  Counted h m m' -> h = h' -> Counted h' m m'.
Proof.
  now intros H <-.
Qed.

Lemma calculateJsonMetrics_counted (data : value) :
  forall m level,
    Counted (level + height data) m (JsonFormatter.calculateJsonMetrics data m level).
Proof.
  induction data as [| b | n | t | iso | items H | fields H] using value_nested_ind;
    intros m level;
    try (unfold Counted, typesTotal; destruct m as [s nc d ac oc kc [a1 a2 a3 a4 a5 a6]];
         simpl; repeat split; lia).
  - rewrite Forall_forall in H. cbn [JsonFormatter.calculateJsonMetrics height].
    eapply Counted_eq.
    + apply Counted_trans
        with (b := JsonFormatter.countArray (JsonFormatter.countNode level m))
             (h1 := level).
      * unfold Counted, typesTotal.
        destruct m as [s nc d ac oc kc [a1 a2 a3 a4 a5 a6]]; simpl; repeat split; lia.
      * apply (Counted_fold _ _ (fun x => level + 1 + height x)).
        intros x a I. apply (H x I).
    + apply height_fold.
  - rewrite Forall_forall in H. cbn [JsonFormatter.calculateJsonMetrics height].
    eapply Counted_eq.
    + apply Counted_trans
        with (b := JsonFormatter.countObject (length fields)
                     (JsonFormatter.countNode level m))
             (h1 := level).
      * unfold Counted, typesTotal.
        destruct m as [s nc d ac oc kc [a1 a2 a3 a4 a5 a6]]; simpl; repeat split; lia.
      * apply (Counted_fold _ _ (fun kv => level + 1 + height (snd kv))).
        intros x a I. apply (H x I).
    + apply (height_fold _ (fun kv => height (snd kv))).
Qed.

(** X11: on the metadata object that generateJsonMetadata prepares,
    calculateJsonMetrics leaves the size as it is, records as depth the
    height of the data as a tree, and counts every node once in nodeCount
    and once in exactly one counter of valueTypes: nodeCount is the sum
    of the six counters, arrayCount is the array counter and objectCount
    the object counter. *)
Theorem X11_metrics_counters_agree :
  forall (data : value) (bytes : nat),
    let m := JsonFormatter.calculateJsonMetrics data (JsonFormatter.newMetadata bytes) 0 in
    JsonFormatter.size m = bytes /\
    JsonFormatter.depth m = height data /\
    JsonFormatter.nodeCount m = typesTotal (JsonFormatter.valueTypes m) /\
    JsonFormatter.arrayCount m = JsonFormatter.arrays (JsonFormatter.valueTypes m) /\
    JsonFormatter.objectCount m = JsonFormatter.objects (JsonFormatter.valueTypes m).
Proof.
  intros data bytes m.
  destruct (calculateJsonMetrics_counted data (JsonFormatter.newMetadata bytes) 0)
    as (S & D & N & A & O).
  fold m in S, D, N, A, O. unfold typesTotal in *. simpl in *.
  repeat split; lia.
Qed.

Lemma nesting_fold_le (A : Type) (isObj : A -> bool) (n h : A -> nat) (l : list A) :
  (forall x, In x l -> n x <= h x) ->
  fold_right (fun x acc => if isObj x then Nat.max (S (n x)) acc else acc) 0 l <=
  fold_right (fun x acc => Nat.max (S (h x)) acc) 0 l.
Proof.
  induction l as [| x l IH]; intros H; cbn [fold_right]; [lia |].
  pose proof (H x (or_introl eq_refl)).
  pose proof (IH (fun y I => H y (or_intror I))).
  destruct (isObj x); lia.
Qed.

Lemma nesting_le_height (data : value) : nesting data <= height data.
Proof.
  induction data as [| b | n | t | iso | items H | fields H] using value_nested_ind;
    try (simpl; lia).
  - rewrite Forall_forall in H. cbn [nesting height]. now apply nesting_fold_le.
  - rewrite Forall_forall in H. cbn [nesting height].
    apply (nesting_fold_le _ (fun kv => JsonFormatter.isObject (snd kv))
             (fun kv => nesting (snd kv)) (fun kv => height (snd kv))).
    intros kv I. apply (H kv I).
Qed.

(** X12: checkNestingDepth pushes warnings only; started at depth 0 it
    pushes none exactly when the arrays and objects of the data are
    nested at most 10 deep. In particular it pushes none when the depth
    that calculateJsonMetrics records for the data is at most 10; that
    depth also counts the scalars, which the check does not visit. *)
Theorem X12_deep_nesting_is_reported :
  forall (data : value) (path : string) (validation : JsonFormatter.Validation),
    (exists extra,
       Adds extra validation
            (JsonFormatter.checkNestingDepth data path 0 validation)) /\
    (JsonFormatter.checkNestingDepth data path 0 validation = validation <->
     nesting data <= 10) /\
    (forall bytes,
       JsonFormatter.depth
         (JsonFormatter.calculateJsonMetrics data (JsonFormatter.newMetadata bytes) 0)
       <= 10 ->
       JsonFormatter.checkNestingDepth data path 0 validation = validation).
Proof.
  intros data path validation.
  destruct (checkNestingDepth_adds data path 0 validation) as (extra & A & Q).
  split; [now exists extra |].
  assert (K : JsonFormatter.checkNestingDepth data path 0 validation = validation <->
              nesting data <= 10) by (now rewrite (Adds_same _ _ _ A), Q).
  split; [exact K |]. intros bytes D. apply K.
  destruct (calculateJsonMetrics_counted data (JsonFormatter.newMetadata bytes) 0)
    as (_ & E & _).
  rewrite E in D. simpl in D. pose proof (nesting_le_height data). lia.
Qed.

(* ================================================================== *)
(** ** jsonFormatter.js: validateJson *)
(* ================================================================== *)

Lemma fold_left_pushes (A : Type)
      (f : JsonFormatter.Validation -> A -> JsonFormatter.Validation) (l : list A) :
  (forall x v, In x l -> exists extra, Adds extra v (f v x)) ->
  forall v, exists extra, Adds extra v (fold_left f l v).
Proof.
  induction l as [| x l IH]; intros H v; simpl.
  - exists []. apply Adds_refl.
  - destruct (H x v (or_introl eq_refl)) as (e1 & A1).
    destruct (IH (fun y a I => H y a (or_intror I)) (f v x)) as (e2 & A2).
    exists (e1 ++ e2)%list. exact (Adds_trans _ _ _ _ _ A1 A2).
Qed.

Lemma foldIndexed_pushes (A : Type)
      (f : nat -> A -> JsonFormatter.Validation -> JsonFormatter.Validation)
      (l : list A) :
  (forall i x v, In x l -> exists extra, Adds extra v (f i x v)) ->
  forall index v, exists extra, Adds extra v (JsonFormatter.foldIndexed f l index v).
Proof.
  induction l as [| x l IH]; intros H index v; simpl.
  - exists []. apply Adds_refl.
  - destruct (H index x v (or_introl eq_refl)) as (e1 & A1).
    destruct (IH (fun i y a I => H i y a (or_intror I)) (S index) (f index x v))
      as (e2 & A2).
    exists (e1 ++ e2)%list. exact (Adds_trans _ _ _ _ _ A1 A2).
Qed.

Lemma checkArrayConsistency_adds (data : value) :
  forall path v, exists extra,
    Adds extra v (JsonFormatter.checkArrayConsistency data path v).
Proof.
  induction data as [| b | n | t | iso | items H | fields H] using value_nested_ind;
    intros path v; try (exists []; apply Adds_refl).
  - rewrite Forall_forall in H. cbn [JsonFormatter.checkArrayConsistency].
    destruct (Nat.ltb 1 (length items)); [| exists []; apply Adds_refl].
    cbv zeta.
    assert (W : exists e1,
               Adds e1 v
                 (if Nat.ltb 1 (length (JsonFormatter.unique
                                          (map JsonFormatter.typeName items)))
                  then JsonFormatter.pushWarning "inconsistentArray"
                         (JsonFormatter.orRoot path)
                         ("Array at " ++ JsonFormatter.orRoot path ++
                          " contains mixed types: " ++
                          join ", " (JsonFormatter.unique
                                       (map JsonFormatter.typeName items))) v
                  else v)).
    { destruct (Nat.ltb 1 _).
      - eexists. apply Adds_pushWarning.
      - exists []. apply Adds_refl. }
    destruct W as (e1 & A1).
    destruct (foldIndexed_pushes _
                (fun index item acc =>
                   if JsonFormatter.isObject item
                   then JsonFormatter.checkArrayConsistency item
                          (JsonFormatter.itemPath path index) acc
                   else acc) items)
      with (index := 0)
           (v := if Nat.ltb 1 (length (JsonFormatter.unique
                                         (map JsonFormatter.typeName items)))
                 then JsonFormatter.pushWarning "inconsistentArray"
                        (JsonFormatter.orRoot path)
                        ("Array at " ++ JsonFormatter.orRoot path ++
                         " contains mixed types: " ++
                         join ", " (JsonFormatter.unique
                                      (map JsonFormatter.typeName items))) v
                 else v) as (e2 & A2).
    + intros i y a I. destruct (JsonFormatter.isObject y).
      * apply (H y I).
      * exists []. apply Adds_refl.
    + exists (e1 ++ e2)%list. exact (Adds_trans _ _ _ _ _ A1 A2).
  - rewrite Forall_forall in H. cbn [JsonFormatter.checkArrayConsistency].
    apply fold_left_pushes. intros y a I.
    destruct (JsonFormatter.isObject (snd y)).
    + apply (H y I).
    + exists []. apply Adds_refl.
Qed.

(** The four structural checks, one after the other, push warnings. *)
Lemma structural_checks_push (jsonData : value) :
  exists extra,
    Adds extra JsonFormatter.newValidation
      (JsonFormatter.checkLargeArrays jsonData EmptyString
         (JsonFormatter.checkNestingDepth jsonData EmptyString 0
            (JsonFormatter.checkArrayConsistency jsonData EmptyString
               (JsonFormatter.checkEmptyCollections jsonData EmptyString
                  JsonFormatter.newValidation)))).
Proof.
  destruct (checkEmptyCollections_adds jsonData EmptyString JsonFormatter.newValidation)
    as (e1 & A1 & _).
  destruct (checkArrayConsistency_adds jsonData EmptyString
              (JsonFormatter.checkEmptyCollections jsonData EmptyString
                 JsonFormatter.newValidation)) as (e2 & A2).
  destruct (checkNestingDepth_adds jsonData EmptyString 0
              (JsonFormatter.checkArrayConsistency jsonData EmptyString
                 (JsonFormatter.checkEmptyCollections jsonData EmptyString
                    JsonFormatter.newValidation))) as (e3 & A3 & _).
  destruct (checkLargeArrays_adds jsonData EmptyString
              (JsonFormatter.checkNestingDepth jsonData EmptyString 0
                 (JsonFormatter.checkArrayConsistency jsonData EmptyString
                    (JsonFormatter.checkEmptyCollections jsonData EmptyString
                       JsonFormatter.newValidation)))) as (e4 & A4 & _).
  exists (((e1 ++ e2) ++ e3) ++ e4)%list.
  exact (Adds_trans _ _ _ _ _
           (Adds_trans _ _ _ _ _ (Adds_trans _ _ _ _ _ A1 A2) A3) A4).
Qed.

Lemma reportDuplicate_keeps (v : JsonFormatter.Validation) (entry : string * list value) :
  IssuesAreDuplicates v ->
  IssuesAreDuplicates (JsonFormatter.reportDuplicate v entry) /\
  JsonFormatter.warnings (JsonFormatter.reportDuplicate v entry) =
  JsonFormatter.warnings v.
Proof.
  intros [V I]. destruct entry as [key occurrences]. unfold JsonFormatter.reportDuplicate.
  destruct (Nat.ltb_spec 1 (length occurrences)) as [L | L].
  - split; [| reflexivity]. split; simpl.
    + split; [discriminate |]. intros E. now apply app_eq_nil in E as [_ E].
    + intros issue J. apply in_app_or in J as [J | [<- | []]]; [now apply I |].
      eexists. eexists. eexists. split; [reflexivity | lia].
  - split; [now split | reflexivity].
Qed.

Lemma reportDuplicates_keep (entries : list (string * list value)) :
  forall v, IssuesAreDuplicates v ->
    IssuesAreDuplicates (fold_left JsonFormatter.reportDuplicate entries v) /\
    JsonFormatter.warnings (fold_left JsonFormatter.reportDuplicate entries v) =
    JsonFormatter.warnings v.
Proof.
  induction entries as [| entry entries IH]; intros v H; simpl; [now split |].
  destruct (reportDuplicate_keeps v entry H) as [H1 W1].
  destruct (IH _ H1) as [H2 W2]. split; [exact H2 | congruence].
Qed.

(** X13: when validateJson returns, the object it returns is marked
    invalid exactly when it holds an issue; every issue reports a
    duplicate key with at least two occurrences; its warnings are those
    of the four structural checks, which never add an issue and never
    mark the object invalid. Without a last input (null or the empty
    text) the object is valid and holds no issue. *)
Theorem X13_validateJson_issues_are_duplicate_keys :
  forall (lastInput : option string) (jsonData : value)
         (validation : JsonFormatter.Validation),
    JsonFormatter.validateJson lastInput jsonData = inr validation ->
    IssuesAreDuplicates validation /\
    (exists pushed,
       Adds pushed JsonFormatter.newValidation
         (JsonFormatter.checkLargeArrays jsonData EmptyString
            (JsonFormatter.checkNestingDepth jsonData EmptyString 0
               (JsonFormatter.checkArrayConsistency jsonData EmptyString
                  (JsonFormatter.checkEmptyCollections jsonData EmptyString
                     JsonFormatter.newValidation)))) /\
       JsonFormatter.warnings validation = pushed) /\
    (truthyOpt lastInput = false ->
       JsonFormatter.valid validation = true /\ JsonFormatter.issues validation = []).
Proof.
  intros lastInput jsonData validation. unfold JsonFormatter.validateJson. cbv zeta.
  destruct (structural_checks_push jsonData) as (pushed & A).
  assert (S : IssuesAreDuplicates
                (JsonFormatter.mkValidation true [] pushed)).
  { split; [split; reflexivity | intros issue []]. }
  unfold Adds in A. simpl in A. rewrite A.
  destruct (truthyOpt lastInput).
  - unfold JsonFormatter.checkDuplicateKeys.
    destruct (foldE _ _ _) as [e | keys]; [discriminate |].
    intros E. inversion E as [V]. clear E.
    destruct (reportDuplicates_keep (members keys) _ S) as [K W].
    split; [exact K |]. split; [| discriminate].
    exists pushed. split; [reflexivity | exact W].
  - intros E. inversion E; subst. split; [exact S |]. split.
    + exists pushed. split; reflexivity.
    + intros _. split; reflexivity.
Qed.

Lemma X13_validateJson_issues_are_duplicate_keys_witness :
  IssuesAreDuplicates
    (JsonFormatter.mkValidation false
       [VObj [("type", VStr "duplicateKey"); ("key", VStr "id");
              ("occurrences", VArr [JsonFormatter.occurrence 1 2;
                                    JsonFormatter.occurrence 1 11]);
              ("message", VStr ("Duplicate key " ++ dq ++ "id" ++ dq ++
                                " found at lines 1, 1"))]]
       []).
Proof.
  apply (X13_validateJson_issues_are_duplicate_keys
           (Some ("[{" ++ dq ++ "id" ++ dq ++ ":1},{" ++ dq ++ "id" ++ dq ++ ":2}]"))
           (VArr [VObj [("id", VNum 1)]; VObj [("id", VNum 2)]])).
  reflexivity.
Defined.

(* ================================================================== *)
(** ** jsonFormatter.js: checkDuplicateKeys and inherited names *)
(* ================================================================== *)

Lemma untilQuote_key (key rest : string) :
  quoteFree key = true ->
  JsonFormatter.untilQuote (key ++ dq ++ rest) = Some (key, rest).
Proof.
  induction key as [| c key IH]; intros Q.
  - reflexivity.
  - cbn [quoteFree] in Q. apply andb_true_iff in Q as [C Q]. apply negb_true_iff in C.
    cbn [append JsonFormatter.untilQuote]. rewrite C, (IH Q). reflexivity.
Qed.

(** The key that untilQuote finds in a text followed by a quote ends
    inside the text, or is the whole text. *)
Lemma untilQuote_before (b tail key rest : string) :
  JsonFormatter.untilQuote (b ++ dq ++ tail) = Some (key, rest) ->
  String.length key + 1 <= String.length b \/ (key = b /\ rest = tail).
Proof.
  revert key rest. induction b as [| c b IH]; intros key rest E.
  - inversion E. now right.
  - cbn [append JsonFormatter.untilQuote] in E. destruct (Ascii.eqb c dqc).
    + inversion E. simpl. left. lia.
    + destruct (JsonFormatter.untilQuote (b ++ dq ++ tail)) as [[k r] |] eqn:U;
        [| discriminate].
      inversion E; subst. destruct (IH _ _ eq_refl) as [L | [-> ->]].
      * left. simpl. lia.
      * now right.
Qed.

Lemma colonAhead_plainKey (key rest : string) :
  plainKey key = true -> JsonFormatter.colonAhead (key ++ rest) = false.
Proof.
  unfold plainKey. intros P. apply andb_true_iff in P as [_ P].
  destruct key as [| c key]; [discriminate |].
  apply andb_true_iff in P as [S C]. apply negb_true_iff in S, C.
  cbn [append JsonFormatter.colonAhead]. now rewrite C, S.
Qed.

Lemma colonAhead_blank (ws rest : string) :
  blank ws = true -> JsonFormatter.colonAhead (ws ++ ":" ++ rest) = true.
Proof.
  induction ws as [| c ws IH]; intros B; [reflexivity |].
  cbn [blank] in B. apply andb_true_iff in B as [S B].
  change (String c ws ++ ":" ++ rest) with (String c (ws ++ ":" ++ rest)).
  cbn [JsonFormatter.colonAhead]. rewrite S, (IH B).
  now destruct (Ascii.eqb c ":"%char).
Qed.

Lemma keyAt_before (c : ascii) (b key tail found : string) :
  plainKey key = true ->
  JsonFormatter.keyAt (String c (b ++ dq ++ key ++ tail)) = Some found ->
  String.length found + 1 <= String.length b.
Proof.
  intros P. unfold JsonFormatter.keyAt.
  destruct (Ascii.eqb c dqc); [| discriminate].
  destruct (JsonFormatter.untilQuote (b ++ dq ++ key ++ tail)) as [[k r] |] eqn:U;
    [| discriminate].
  destruct k as [| k0 k]; [discriminate |].
  destruct (untilQuote_before _ _ _ _ U) as [L | [E ->]].
  - destruct (JsonFormatter.colonAhead r); [| discriminate].
    intros F. inversion F; subst. exact L.
  - now rewrite (colonAhead_plainKey _ _ P).
Qed.

(** The scan of a text that ends before a plain key in quotes reaches
    that key with nothing left to skip. *)
Lemma matches_before (key tail : string) :
  plainKey key = true ->
  forall b position line skip,
    skip <= String.length b ->
    exists found line',
      JsonFormatter.matches (b ++ dq ++ key ++ tail) position line skip =
      (found ++ JsonFormatter.matches (dq ++ key ++ tail)
                  (position + String.length b) line' 0)%list.
Proof.
  intros P. induction b as [| c b IH]; intros position line skip L.
  - simpl in L. assert (skip = 0) as -> by lia.
    exists [], line. now rewrite Nat.add_0_r.
  - cbn [append JsonFormatter.matches].
    set (line1 := if Ascii.eqb c (ascii_of_nat 10) then S line else line).
    destruct skip as [| n].
    + destruct (JsonFormatter.keyAt (String c (b ++ dq ++ key ++ tail)))
        as [found |] eqn:K.
      * pose proof (keyAt_before _ _ _ _ _ P K) as B.
        destruct (IH (S position) line1 (String.length found + 1) B)
          as (more & line' & E).
        exists ((found, (line, position)) :: more), line'.
        rewrite E.
        replace (position + String.length (String c b))
          with (S position + String.length b) by (simpl; lia).
        reflexivity.
      * destruct (IH (S position) line1 0 (Nat.le_0_l _)) as (more & line' & E).
        exists more, line'. rewrite E.
        replace (position + String.length (String c b))
          with (S position + String.length b) by (simpl; lia).
        reflexivity.
    + destruct (IH (S position) line1 n) as (more & line' & E); [simpl in L; lia |].
      exists more, line'. rewrite E.
      replace (position + String.length (String c b))
        with (S position + String.length b) by (simpl; lia).
      reflexivity.
Qed.

Lemma matches_at (key ws after : string) (position line : nat) :
  plainKey key = true -> blank ws = true ->
  exists rest,
    JsonFormatter.matches (dq ++ key ++ dq ++ ws ++ ":" ++ after) position line 0 =
    (key, (line, position)) :: rest.
Proof.
  intros P B. unfold plainKey in P. apply andb_true_iff in P as [Q N].
  change (dq ++ key ++ dq ++ ws ++ ":" ++ after)
    with (String dqc (key ++ dq ++ ws ++ ":" ++ after)).
  cbn [JsonFormatter.matches].
  assert (K : JsonFormatter.keyAt (String dqc (key ++ dq ++ ws ++ ":" ++ after)) =
              Some key).
  { unfold JsonFormatter.keyAt. rewrite Ascii.eqb_refl, (untilQuote_key _ _ Q).
    destruct key; [discriminate |]. now rewrite (colonAhead_blank _ _ B). }
  rewrite K. eexists. reflexivity.
Qed.

Lemma inherited_names_plain (name : string) :
  In name objectPrototypeNames -> plainKey name = true.
Proof.
  simpl. intros H.
  repeat (destruct H as [<- | H]; [reflexivity |]). contradiction.
Qed.

(** A push under an inherited name fails in a store none of whose groups
    bears an inherited name, and so does every fold that meets one. *)
Lemma push_inherited_fails (A : Type) (f : A -> string) (g : A -> list value)
      (l : list A) (x : A) :
  In x l -> In (f x) objectPrototypeNames ->
  forall s, NoGroupInherited s ->
    foldE (fun m keys => pushAll (f m) (g m) keys) l s = inl pushNotAFunction.
Proof.
  intros I P. induction l as [| y l IH]; intros s V; [contradiction |].
  simpl. destruct (pushAll (f y) (g y) s) as [e | s1] eqn:E; simpl.
  - now rewrite (pushAll_error _ _ _ _ E).
  - destruct I as [-> | I].
    + exfalso. destruct V as [Iv Gv]. unfold pushAll in E.
      assert (L : inList (f x) objectPrototypeNames = true).
      { unfold inList. apply existsb_exists. exists (f x).
        split; [exact P | apply String.eqb_refl]. }
      destruct (getOwn (f x) (members s)) as [old |] eqn:O.
      * apply getOwn_In in O. rewrite (Gv (f x)) in L; [discriminate |].
        apply in_map_iff. now exists (f x, old).
      * rewrite Iv, L in E. discriminate.
    + apply (IH I). exact (pushAll_keeps_NoGroupInherited _ _ _ _ E V).
Qed.

(** X14: checkDuplicateKeys looks a key up with keys[key], which also
    finds what a plain object inherits. When the text holds, in double
    quotes and followed by white space and a colon, a key that is one of
    those inherited names (constructor, toString, valueOf, __proto__ and
    so on), the check throws a TypeError, and so does validateJson on
    that text as last input, whatever the data. *)
Theorem X14_inherited_key_name_breaks_the_duplicate_check :
  forall (before name ws after : string) (jsonData : value)
         (validation : JsonFormatter.Validation),
    In name objectPrototypeNames ->
    blank ws = true ->
    let text := before ++ dq ++ name ++ dq ++ ws ++ ":" ++ after in
    JsonFormatter.checkDuplicateKeys text validation = inl pushNotAFunction /\
    JsonFormatter.validateJson (Some text) jsonData = inl pushNotAFunction.
Proof.
  intros before name ws after jsonData validation N B text.
  pose proof (inherited_names_plain name N) as P.
  assert (K : forall v, JsonFormatter.checkDuplicateKeys text v = inl pushNotAFunction).
  { intros v. unfold JsonFormatter.checkDuplicateKeys, text.
    destruct (matches_before name (dq ++ ws ++ ":" ++ after) P before 0 1 0
                (Nat.le_0_l _)) as (found & line' & E).
    destruct (matches_at name ws after (0 + String.length before) line' P B)
      as (rest & M).
    rewrite E, M.
    rewrite (push_inherited_fails _ fst
               (fun m => [JsonFormatter.occurrence (fst (snd m)) (snd (snd m))])
               _ (name, (line', 0 + String.length before))); try reflexivity.
    - apply in_or_app. right. now left.
    - exact N.
    - split; [reflexivity | intros n []]. }
  split; [apply K |].
  unfold JsonFormatter.validateJson. cbv zeta.
  assert (T : truthyOpt (Some text) = true).
  { unfold text. destruct before; reflexivity. }
  assert (O : orElse (Some text) EmptyString = text).
  { unfold text. destruct before; reflexivity. }
  rewrite T, O. apply K.
Qed.

Lemma X14_inherited_key_name_breaks_the_duplicate_check_witness :
  JsonFormatter.validateJson
    (Some ("{" ++ dq ++ "constructor" ++ dq ++ " : " ++ dq ++ "Ada" ++ dq ++ "}"))
    (VObj [("constructor", VStr "Ada")]) = inl pushNotAFunction.
Proof.
  apply (X14_inherited_key_name_breaks_the_duplicate_check "{" "constructor" " "
           (" " ++ dq ++ "Ada" ++ dq ++ "}") (VObj [("constructor", VStr "Ada")])
           JsonFormatter.newValidation).
  - now left.
  - reflexivity.
Defined.

(* ================================================================== *)
(** ** The nested and the array-based generators write every field *)
(* ================================================================== *)

(** Opens the binds of [H : m w = Return a w'] down to the final ret. *)
Ltac open_binds H :=
  repeat (let a := fresh "a" in
          let w := fresh "w" in
          let Ha := fresh "Ha" in
          apply bind_Return in H as (a & w & Ha & H));
  apply ret_Return in H as [-> _].

(** Walks the text down to the lines of the fields. *)
Ltac to_lines :=
  match goal with
  | |- Substring ?s _ =>
      match s with
      | context [forEachPure ?f ?l 0] => reach (forEachPure f l 0)
      end
  end.

(** The text of the documents holds the text of the document [item],
    whose callback lists the entries of [item] and writes one line for
    each of them. *)
Ltac document_lines Ii E :=
  match goal with
  | Hd : forEach _ _ _ _ = Return ?docs _ |- _ =>
      let j := fresh "j" in
      let t := fresh "t" in
      let Ht := fresh "Ht" in
      let St := fresh "St" in
      destruct (forEach_holds _ _ _ _ _ _ _ Hd _ Ii) as (j & ? & t & ? & Ht & St);
      open_binds Ht;
      match goal with
      | Hf : lift _ _ = Return _ _ |- _ =>
          apply lift_Return in Hf as [Hf _]; rewrite E in Hf; inversion Hf; subst
      end;
      reach docs; eapply substring_trans; [exact St |]; to_lines
  end.

Lemma written_fields (b : Backend) (jsonData : value) (structure : string)
      (options : Options) (w w' : World) (out : string) :
  structureOf structure = Nested \/ structureOf structure = Arrays ->
  generateNoSQL jsonData (backendName b) structure options w = Return out w' ->
  forall item fields kv,
    In item (dataArrayOf jsonData) -> entries (Some item) = inr fields -> In kv fields ->
    Substring out (fst kv ++ ": " ++ toStringOf b (snd kv)).
Proof.
  intros S. unfold generateNoSQL. destruct (falsy jsonData); [discriminate |].
  destruct b; cbn [backendName String.eqb Ascii.eqb Bool.eqb];
    (destruct (String.eqb structure EmptyString); [discriminate |]);
    intros G item fields kv Ii E Ik.
  - unfold Mongo.generateMongoDBDocuments in G.
    apply bind_Return in G as (name & w1 & _ & G).
    apply bind_Return in G as (body & w2 & Hb & G).
    apply bind_Return in G as (indexes & w3 & _ & G).
    apply ret_Return in G as [-> _].
    destruct S as [S | S]; rewrite S in Hb;
      unfold Mongo.generateNestedDocuments, Mongo.generateArrayBasedDocuments in Hb;
      open_binds Hb; document_lines Ii E; now apply lines_hold.
  - unfold Firebase.generateFirebaseDocuments in G.
    apply bind_Return in G as (name & w1 & _ & G).
    apply bind_Return in G as (body & w2 & Hb & G).
    apply bind_Return in G as (indexes & w3 & _ & G).
    apply ret_Return in G as [-> _].
    destruct S as [S | S]; rewrite S in Hb;
      unfold Firebase.generateNestedDocuments, Firebase.generateArrayBasedDocuments
        in Hb;
      open_binds Hb; document_lines Ii E; now apply lines_hold.
  - unfold Dynamo.generateDynamoDBDocuments in G.
    apply bind_Return in G as (name & w1 & _ & G).
    apply bind_Return in G as (body & w2 & Hb & G).
    apply bind_Return in G as (indexes & w3 & _ & G).
    apply ret_Return in G as [-> _].
    destruct S as [S | S]; rewrite S in Hb;
      unfold Dynamo.generateNestedDocuments, Dynamo.generateArrayBasedDocuments in Hb;
      [destruct (Nat.leb (length (dataArrayOf jsonData)) 25) |];
      open_binds Hb; document_lines Ii E; now apply dataLines_hold.
  - unfold Couch.generateCouchDBDocuments in G.
    apply bind_Return in G as (body & w2 & Hb & G).
    apply bind_Return in G as (indexes & w3 & _ & G).
    apply ret_Return in G as [-> _].
    destruct S as [S | S]; rewrite S in Hb;
      unfold Couch.generateNestedDocuments, Couch.generateArrayBasedDocuments in Hb.
    + apply bind_Return in Hb as (text & w4 & Hd & Hb).
      apply ret_Return in Hb as [-> _].
      destruct (Nat.ltb 1 (length (dataArrayOf jsonData))) eqn:L.
      * apply bind_Return in Hd as (docs & w5 & Hd & Ht).
        apply ret_Return in Ht as [-> _]. unfold Couch.bulkDocuments in Hd.
        document_lines Ii E. now apply lines_hold.
      * apply bind_Return in Hd as (doc & w5 & Hd & Ht).
        apply ret_Return in Ht as [-> _]. unfold Couch.singleDocument in Hd.
        apply Nat.ltb_ge in L.
        destruct (dataArrayOf jsonData) as [| first rest]; [contradiction |].
        destruct rest; [| simpl in L; lia]. destruct Ii as [<- | []].
        cbn [nth_error] in Hd. open_binds Hd.
        match goal with
        | Hf : lift _ _ = Return _ _ |- _ =>
            apply lift_Return in Hf as [Hf _]; rewrite E in Hf; inversion Hf; subst
        end.
        to_lines. now apply lines_hold.
    + open_binds Hb. document_lines Ii E. now apply lines_hold.
Qed.

(** X15: the nested generation (also the one an unknown structure name
    falls back to) and the array-based generation of every backend write
    every field of every document: when the generation returns, its text
    holds, for each entry of each document, the name of the entry, a
    colon and the value as the serializer of the backend writes it. *)
Theorem X15_nested_and_array_code_holds_every_field :
  forall (b : Backend) (jsonData : value) (structure : string) (options : Options)
         (w w' : World) (out : string) (item : value)
         (fields : list (string * value)) (key : string) (v : value),
    structureOf structure = Nested \/ structureOf structure = Arrays ->
    generateNoSQL jsonData (backendName b) structure options w = Return out w' ->
    In item (dataArrayOf jsonData) ->
    entries (Some item) = inr fields ->
    In (key, v) fields ->
    Substring out (key ++ ": " ++ toStringOf b v).
Proof.
  intros b jsonData structure options w w' out item fields key v S G Ii E Ik.
  exact (written_fields b jsonData structure options w w' out S G item fields
           (key, v) Ii E Ik).
Qed.

Lemma X15_nested_and_array_code_holds_every_field_witness :
  exists out w',
    generateNoSQL adaDocument "couchdb" "arrays" allFlags exampleWorld = Return out w' /\
    Substring out ("address: " ++ "{ city: " ++ dq ++ "London" ++ dq ++ " }").
Proof.
  destruct (generateNoSQL adaDocument "couchdb" "arrays" allFlags exampleWorld)
    as [out w' | e] eqn:G; [| vm_compute in G; discriminate].
  exists out, w'. split; [reflexivity |].
  apply (X15_nested_and_array_code_holds_every_field CouchDB adaDocument "arrays"
           allFlags exampleWorld w' out adaDocument
           [("name", VStr "Ada"); ("address", VObj [("city", VStr "London")])]
           "address" (VObj [("city", VStr "London")])).
  - right. reflexivity.
  - exact G.
  - now left.
  - reflexivity.
  - right. now left.
Defined.

(* ================================================================== *)
(** ** The collection that a Firebase reference names *)
(* ================================================================== *)

Lemma firebase_references_body (jsonData : value) (options : Options)
      (w w' : World) (out : string) :
  generateNoSQL jsonData "firebase" "references" options w = Return out w' ->
  exists main store body w1 w2,
    Firebase.collectionNameOf jsonData = inr main /\
    Firebase.extractReferencedCollections (dataArrayOf jsonData)
      (assignMain main (dataArrayOf jsonData) newStore) = inr store /\
    forEach (Firebase.referencedCollection options) (members store) 0 w1 =
      Return body w2 /\
    Substring out body.
Proof.
  unfold generateNoSQL. destruct (falsy jsonData); [discriminate |].
  cbn [String.eqb Ascii.eqb Bool.eqb]. intros E.
  unfold Firebase.generateFirebaseDocuments in E.
  apply bind_Return in E as (name & w1 & Hn & E).
  apply lift_Return in Hn as [Hn _].
  change (structureOf "references") with References in E. cbv iota in E.
  apply bind_Return in E as (text & w2 & Hb & E).
  apply bind_Return in E as (indexes & w3 & _ & E).
  apply ret_Return in E as [-> _].
  unfold Firebase.generateReferencedDocuments in Hb.
  apply bind_Return in Hb as (store & w4 & Hs & Hb).
  apply lift_Return in Hs as [Hs _].
  apply bind_Return in Hb as (body & w5 & Ht & Hb).
  apply ret_Return in Hb as [-> _].
  exists name, store, body, w4, w5. repeat split; try assumption.
  reach body. apply substring_refl.
Qed.

Lemma firebase_group_header (options : Options) (groups : list (string * list value))
      (w w' : World) (body name : string) (items : list value) :
  forEach (Firebase.referencedCollection options) groups 0 w = Return body w' ->
  In (name, items) groups ->
  Substring body ("  // Collection: " ++ name ++ nl).
Proof.
  intros E Ig.
  destruct (forEach_holds _ _ _ _ _ _ _ E _ Ig) as (j & w1 & s & w2 & Hs & Ss).
  cbn beta iota in Hs. unfold Firebase.referencedCollection in Hs.
  apply bind_Return in Hs as (docs & w3 & Hd & Hs).
  apply ret_Return in Hs as [-> _].
  eapply substring_trans; [exact Ss |].
  exists EmptyString. eexists. cbn [append]. rewrite !append_assoc. reflexivity.
Qed.

Lemma firebase_reference_text (options : Options) (groups : list (string * list value))
      (w w' : World) (body name key : string) (items : list value) (item v : value)
      (fields : list (string * value)) :
  forEach (Firebase.referencedCollection options) groups 0 w = Return body w' ->
  In (name, items) groups -> In item items ->
  entries (Some item) = inr fields -> In (key, v) fields ->
  isNonEmptyObject v = true ->
  Substring body (key ++ "Ref: doc(db, " ++ dq ++ key ++ "s" ++ dq ++ ", ").
Proof.
  intros E Ig Ii En Ik N.
  destruct (forEach_holds _ _ _ _ _ _ _ E _ Ig) as (j & w1 & s & w2 & Hs & Ss).
  cbn beta iota in Hs. unfold Firebase.referencedCollection in Hs.
  apply bind_Return in Hs as (docs & w3 & Hd & Hs).
  apply ret_Return in Hs as [-> _].
  destruct (forEach_holds _ _ _ _ _ _ _ Hd _ Ii) as (j' & w4 & t & w5 & Ht & St).
  cbv zeta in Ht.
  apply bind_Return in Ht as (opening & w6 & _ & Ht).
  apply bind_Return in Ht as (fields' & w8 & Hf & Ht).
  apply lift_Return in Hf as [Hf _]. rewrite En in Hf. inversion Hf; subst fields'.
  apply bind_Return in Ht as (lines & w9 & Hl & Ht).
  apply ret_Return in Ht as [-> _].
  destruct (forEach_holds _ _ _ _ _ _ _ Hl _ Ik) as (i & wa & piece & wb & Hp & Sp).
  unfold Firebase.referencedField in Hp. cbn [fst snd] in Hp. rewrite N in Hp.
  apply bind_Return in Hp as (id & wc & _ & Hp). apply ret_Return in Hp as [-> _].
  eapply substring_trans; [exact Ss |]. reach docs.
  eapply substring_trans; [exact St |]. reach lines.
  eapply substring_trans; [exact Sp |].
  exists "    ". eexists. rewrite !append_assoc. reflexivity.
Qed.

Lemma length_append (a b : string) :
  String.length (a ++ b) = String.length a + String.length b.
Proof.
  induction a as [| c a IH]; simpl; [reflexivity | now rewrite IH].
Qed.

Lemma plural_is_key_s (key : string) :
  key ++ "s" = pluralName key <-> endsWith key "s" = false.
Proof.
  unfold pluralName. destruct (endsWith key "s"); split; try reflexivity;
    try discriminate.
  intros E. apply (f_equal String.length) in E.
  rewrite length_append in E. simpl in E. lia.
Qed.

(** X16: in the Firebase code with references, the object of a field is
    added to the collection whose name is the key, with an s appended
    unless the key already ends in s, while the reference left in the
    document always names the collection of the key with an s appended.
    The reference names the collection that holds the object exactly
    when the key does not end in s. *)
Theorem X16_firebase_reference_and_collection_names :
  forall (jsonData : value) (options : Options) (w w' : World) (out main : string)
         (item : value) (fields sub : list (string * value)) (key : string),
    generateNoSQL jsonData "firebase" "references" options w = Return out w' ->
    Firebase.collectionNameOf jsonData = inr main -> main <> "__proto__" ->
    In item (dataArrayOf jsonData) ->
    entries (Some item) = inr fields ->
    In (key, VObj sub) fields -> sub <> [] ->
    Substring out ("  // Collection: " ++ pluralName key ++ nl) /\
    Substring out (key ++ "Ref: doc(db, " ++ dq ++ key ++ "s" ++ dq ++ ", ") /\
    (key ++ "s" = pluralName key <-> endsWith key "s" = false).
Proof.
  intros jsonData options w w' out main item fields sub key G M N Ii En Ik Ne.
  destruct (firebase_references_body _ _ _ _ _ G)
    as (main' & store & body & w1 & w2 & M' & X & B & S).
  rewrite M in M'. inversion M'; subst main'.
  assert (O : isNonEmptyObject (VObj sub) = true) by (destruct sub; [contradiction | reflexivity]).
  unfold Firebase.extractReferencedCollections in X.
  split; [| split; [| apply plural_is_key_s]].
  - destruct (extractWith_holds pluralName pluralName _ _ _ _ _ _ _ Ii En Ik O X)
      as (items & Gi & _).
    eapply substring_trans; [exact S |].
    apply (firebase_group_header _ _ _ _ _ _ items B). now apply getOwn_In.
  - destruct (extractWith_grows pluralName pluralName _ _ _ X main
                (dataArrayOf jsonData) (assignMain_main _ _ N)) as [extra Gm].
    eapply substring_trans; [exact S |].
    apply (firebase_reference_text _ _ _ _ _ main key
             (dataArrayOf jsonData ++ extra)%list item (VObj sub) fields B).
    + now apply getOwn_In.
    + apply in_or_app. now left.
    + exact En.
    + exact Ik.
    + exact O.
Qed.

Lemma X16_firebase_reference_and_collection_names_witness :
  exists out w',
    generateNoSQL (VObj [("address", VObj [("city", VStr "London")])])
      "firebase" "references" noOptions exampleWorld = Return out w' /\
    Substring out ("  // Collection: address" ++ nl) /\
    Substring out ("addressRef: doc(db, " ++ dq ++ "addresss" ++ dq ++ ", ").
Proof.
  destruct (generateNoSQL (VObj [("address", VObj [("city", VStr "London")])])
              "firebase" "references" noOptions exampleWorld)
    as [out w' | e] eqn:G; [| vm_compute in G; discriminate].
  exists out, w'. split; [reflexivity |].
  destruct (X16_firebase_reference_and_collection_names
              (VObj [("address", VObj [("city", VStr "London")])]) noOptions
              exampleWorld w' out "address"
              (VObj [("address", VObj [("city", VStr "London")])])
              [("address", VObj [("city", VStr "London")])]
              [("city", VStr "London")] "address" G eq_refl) as (C & R & _).
  - discriminate.
  - now left.
  - reflexivity.
  - now left.
  - discriminate.
  - split; [exact C | exact R].
Defined.

(* ================================================================== *)
(** ** The index suggestions in the output *)
(* ================================================================== *)

Lemma suggestions_fields (jsonData : value) (render : list string -> string)
      (fields : list string) (w w' : World) (text : string) :
  indexFields jsonData = inr fields ->
  (found <- lift (indexFields jsonData) ;; ret (render found)) w = Return text w' ->
  text = render fields.
Proof.
  intros F E. apply bind_Return in E as (found & w1 & L & E).
  apply lift_Return in L as [L ->]. apply ret_Return in E as [-> ->].
  rewrite F in L. now injection L as ->.
Qed.

(** With addIndexes set, the output holds the rendering of the candidates. *)
Lemma suggestions_within (b : Backend) (jsonData : value) (structure : string)
      (options : Options) (w w' : World) (out : string) (fields : list string) :
  generateNoSQL jsonData (backendName b) structure options w = Return out w' ->
  addIndexes options = true ->
  indexFields jsonData = inr fields ->
  exists name, Substring out (suggestionsOf b name fields).
Proof.
  unfold generateNoSQL. destruct (falsy jsonData); [discriminate |].
  destruct b; cbn [backendName String.eqb Ascii.eqb Bool.eqb];
    (destruct (String.eqb structure EmptyString); [discriminate |]); intros E I F.
  - unfold Mongo.generateMongoDBDocuments in E.
    apply bind_Return in E as (name & w1 & Hn & E).
    apply bind_Return in E as (body & w2 & Hb & E).
    apply bind_Return in E as (indexes & w3 & Hi & E).
    apply ret_Return in E as [-> ->]. rewrite I in Hi. cbn [when] in Hi.
    apply suggestions_fields with (fields := fields) in Hi; [| exact F].
    cbv beta in Hi. exists name.
    apply substring_trans with (b := indexes); [reach indexes; apply substring_refl |].
    rewrite Hi. destruct fields.
    + exists ("// Index Suggestions" ++ nl ++ "// "). eexists. reflexivity.
    + do 2 apply substring_app_r. apply substring_refl.
  - unfold Firebase.generateFirebaseDocuments in E.
    apply bind_Return in E as (name & w1 & Hn & E).
    apply bind_Return in E as (body & w2 & Hb & E).
    apply bind_Return in E as (indexes & w3 & Hi & E).
    apply ret_Return in E as [-> ->]. rewrite I in Hi. cbn [when] in Hi.
    apply suggestions_fields with (fields := fields) in Hi; [| exact F].
    cbv beta in Hi. exists name.
    apply substring_trans with (b := indexes); [reach indexes; apply substring_refl |].
    rewrite Hi. destruct fields.
    + exists ("// Index Suggestions for Firebase" ++ nl ++
              "// Add these indexes in the Firebase console or using the Firebase CLI" ++
              nl ++ nl ++ "// ").
      eexists. reflexivity.
    + do 5 apply substring_app_r. apply substring_refl.
  - unfold Dynamo.generateDynamoDBDocuments in E.
    apply bind_Return in E as (name & w1 & Hn & E).
    apply bind_Return in E as (body & w2 & Hb & E).
    apply bind_Return in E as (indexes & w3 & Hi & E).
    apply ret_Return in E as [-> ->]. rewrite I in Hi. cbn [when] in Hi.
    apply suggestions_fields with (fields := fields) in Hi; [| exact F].
    cbv beta in Hi. exists name.
    apply substring_trans with (b := indexes); [reach indexes; apply substring_refl |].
    rewrite Hi. destruct fields.
    + exists ("// DynamoDB Index Suggestions" ++ nl ++
              "// These are suggestions for Global Secondary Indexes (GSIs)" ++
              nl ++ nl ++ "// ").
      eexists. reflexivity.
    + do 5 apply substring_app_r. apply substring_refl.
  - unfold Couch.generateCouchDBDocuments in E.
    apply bind_Return in E as (body & w2 & Hb & E).
    apply bind_Return in E as (indexes & w3 & Hi & E).
    apply ret_Return in E as [-> ->]. rewrite I in Hi. cbn [when] in Hi.
    apply suggestions_fields with (fields := fields) in Hi; [| exact F].
    cbv beta in Hi. exists EmptyString.
    apply substring_trans with (b := indexes); [reach indexes; apply substring_refl |].
    rewrite Hi. do 6 apply substring_app_r. apply substring_app_l. destruct fields.
    + exists ("  console.log(" ++ dq). eexists. reflexivity.
    + apply substring_refl.
Qed.

(** Walks a concatenation down to its first loop over the candidates. *)
Ltac to_loop :=
  repeat match goal with
         | |- Substring (forEachPure _ _ _ ++ _) _ => fail 1
         | |- Substring (_ ++ _) _ => apply substring_app_r
         end.

Ltac in_loop l field I :=
  match goal with
  | |- Substring (forEachPure ?g _ _ ++ _) _ =>
      let j := fresh "j" in
      let Within := fresh "Within" in
      apply substring_app_l;
      destruct (forEachPure_holds _ g l 0 field I) as [j Within];
      eapply substring_trans; [exact Within |]; cbv beta
  end.

Lemma rendered_single (b : Backend) (name : string) (fields : list string)
      (field : string) :
  In field fields -> Substring (suggestionsOf b name fields) (singleIndex b field).
Proof.
  intros I. destruct fields as [| f fields]; [contradiction |].
  unfold suggestionsOf. cbv iota. remember (f :: fields) as l eqn:L.
  clear L f fields. destruct b; cbn [singleIndex].
  - unfold Mongo.renderIndexes. in_loop l field I.
    do 2 apply substring_app_r. apply substring_refl.
  - unfold Firebase.renderIndexes. to_loop. in_loop l field I.
    apply substring_refl.
  - unfold Dynamo.renderIndexes. to_loop. apply substring_app_r. to_loop.
    in_loop l field I.
    exists EmptyString. eexists. rewrite !append_assoc. reflexivity.
  - unfold Couch.renderIndexes. to_loop. in_loop l field I.
    do 3 apply substring_app_r. apply substring_app_l, substring_refl.
Qed.

Lemma rendered_compound (b : Backend) (name first second : string)
      (rest : list string) :
  Substring (suggestionsOf b name (first :: second :: rest))
            (compoundIndex b first second).
Proof.
  unfold suggestionsOf. cbv iota. destruct b; cbn [compoundIndex singleIndex].
  - unfold Mongo.renderIndexes. apply substring_app_r.
    cbn [length Nat.ltb Nat.leb firstn forEachPure].
    exists (nl ++ "// Compound Index Suggestion" ++ nl ++ "db." ++ name), EmptyString.
    rewrite !append_assoc, !append_empty_r. reflexivity.
  - unfold Firebase.renderIndexes. to_loop. apply substring_app_r, substring_app_l.
    cbn [length Nat.ltb Nat.leb firstn forEachPure].
    exists nl, EmptyString. rewrite !append_assoc, !append_empty_r. reflexivity.
  - exists EmptyString. eexists. reflexivity.
  - unfold Couch.renderIndexes. to_loop. apply substring_app_r.
    cbn [length Nat.ltb Nat.leb firstn map join String.concat].
    do 2 apply substring_app_r. rewrite !append_assoc.
    exists EmptyString, EmptyString. rewrite append_empty_r. reflexivity.
Qed.

Lemma rendered_first (name first : string) (rest : list string) :
  Substring (suggestionsOf DynamoDB name (first :: rest)) (cliExample first).
Proof.
  unfold suggestionsOf, cliExample. cbv iota. unfold Dynamo.renderIndexes. cbn [hd].
  until "//   --attribute-definitions AttributeName=".
  exists "//   ". eexists. rewrite !append_assoc. reflexivity.
Qed.

Lemma pushes_twice (key : string) (v : value) :
  2 <= length (fieldPushes (key, v)) ->
  exists rest, fieldPushes (key, v) = key :: key :: rest.
Proof.
  unfold fieldPushes.
  destruct (idHeuristic key), (dateHeuristic key v), (nameHeuristic key);
    simpl; intros L; try lia; eexists; reflexivity.
Qed.

(** X17: with addIndexes set, a generation that returns writes an index
    statement for every candidate that the scan of the sample document
    found, a statement over the first two candidates when there are two
    (MongoDB, Firebase, CouchDB), the command-line example for the first
    candidate alone (DynamoDB), and the sentence that there is no
    candidate when the scan found none. *)
Theorem X17_every_candidate_gets_an_index :
  forall (b : Backend) (jsonData : value) (structure : string) (options : Options)
         (w w' : World) (out : string) (fields : list string),
    generateNoSQL jsonData (backendName b) structure options w = Return out w' ->
    addIndexes options = true ->
    indexFields jsonData = inr fields ->
    (fields = [] ->
     Substring out "No obvious index candidates found in this data structure") /\
    (forall field, In field fields -> Substring out (singleIndex b field)) /\
    (forall first second rest,
       fields = first :: second :: rest -> b <> DynamoDB ->
       Substring out (compoundIndex b first second)) /\
    (forall first rest,
       fields = first :: rest -> b = DynamoDB -> Substring out (cliExample first)).
Proof.
  intros b jsonData structure options w w' out fields G I F.
  destruct (suggestions_within b jsonData structure options w w' out fields G I F)
    as [name S].
  split; [| split; [| split]].
  - intros ->. exact S.
  - intros field M. eapply substring_trans; [exact S |]. now apply rendered_single.
  - intros first second rest -> _. eapply substring_trans; [exact S |].
    apply rendered_compound.
  - intros first rest -> ->. eapply substring_trans; [exact S |].
    apply rendered_first.
Qed.

Lemma X17_every_candidate_gets_an_index_witness :
  exists out w',
    generateNoSQL (VArr [sampleDocument]) "couchdb" "flat"
      (mkOptions false false true None None None None) exampleWorld = Return out w' /\
    Substring out (singleIndex CouchDB "email") /\
    Substring out (compoundIndex CouchDB "user_id" "email").
Proof.
  destruct (generateNoSQL (VArr [sampleDocument]) "couchdb" "flat"
              (mkOptions false false true None None None None) exampleWorld)
    as [out w' | e] eqn:G; [| vm_compute in G; discriminate].
  exists out, w'. split; [reflexivity |].
  destruct (X17_every_candidate_gets_an_index CouchDB (VArr [sampleDocument]) "flat"
              (mkOptions false false true None None None None) exampleWorld w' out
              ["user_id"; "email"; "created_at"] G eq_refl eq_refl)
    as (_ & Single & Compound & _).
  split.
  - apply Single. right. now left.
  - apply (Compound "user_id" "email" ["created_at"] eq_refl). discriminate.
Defined.

(** X18: the scan pushes a field once for each heuristic it satisfies
    and the compound statement takes the first two pushes. So when the
    first field of the sample document satisfies two heuristics (video_name
    holds both id and name), the compound index that MongoDB, Firebase and
    CouchDB are given combines that field with itself. *)
Theorem X18_compound_index_of_a_field_with_itself :
  forall (b : Backend) (key : string) (v : value) (more : list (string * value))
         (others : list value) (structure : string) (options : Options)
         (w w' : World) (out : string),
    b <> DynamoDB ->
    generateNoSQL (VArr (VObj ((key, v) :: more) :: others)) (backendName b) structure
      options w = Return out w' ->
    addIndexes options = true ->
    2 <= length (fieldPushes (key, v)) ->
    Substring out (compoundIndex b key key).
Proof.
  intros b key v more others structure options w w' out N G I L.
  destruct (pushes_twice key v L) as [rest P].
  destruct (suggestions_within b _ structure options w w' out
              (key :: key :: rest ++ flat_map fieldPushes more) G I) as [name S].
  - cbn [indexFields entries flat_map]. now rewrite P.
  - eapply substring_trans; [exact S |]. apply rendered_compound.
Qed.

Lemma X18_compound_index_of_a_field_with_itself_witness :
  exists out w',
    generateNoSQL (VArr [VObj [("video_name", VStr "intro")]]) "mongodb" "nested"
      (mkOptions false false true None None None None) exampleWorld = Return out w' /\
    Substring out
      (".createIndex({ video_name: 1, video_name: 1 }, { name: " ++ dq ++
       "compound_index" ++ dq ++ " });" ++ nl).
Proof.
  destruct (generateNoSQL (VArr [VObj [("video_name", VStr "intro")]]) "mongodb"
              "nested" (mkOptions false false true None None None None) exampleWorld)
    as [out w' | e] eqn:G; [| vm_compute in G; discriminate].
  exists out, w'. split; [reflexivity |].
  apply (X18_compound_index_of_a_field_with_itself MongoDB "video_name" (VStr "intro")
           [] [] "nested" (mkOptions false false true None None None None)
           exampleWorld w' out).
  - discriminate.
  - exact G.
  - reflexivity.
  - vm_compute. lia.
Defined.

(* ================================================================== *)
(** ** Flattening twice *)
(* ================================================================== *)

Lemma digit_value (c : ascii) :
  isDigit c = true ->
  (N.of_nat (nat_of_ascii c - 48) <= 9)%N /\
  (c <> "0"%char -> 1 <= N.of_nat (nat_of_ascii c - 48))%N.
Proof.
  unfold isDigit. intros D. apply andb_prop in D as [L U].
  apply Nat.leb_le in L, U. split; [lia |].
  intros Z. assert (nat_of_ascii c <> 48); [| lia].
  intros E. apply Z. rewrite <- (ascii_nat_embedding c), E. reflexivity.
Qed.

Lemma digit_inj (c c' : ascii) :
  isDigit c = true -> isDigit c' = true ->
  N.of_nat (nat_of_ascii c - 48) = N.of_nat (nat_of_ascii c' - 48) -> c = c'.
Proof.
  unfold isDigit. intros D D' E.
  apply andb_prop in D as [L _], D' as [L' _]. apply Nat.leb_le in L, L'.
  rewrite <- (ascii_nat_embedding c), <- (ascii_nat_embedding c').
  f_equal. lia.
Qed.

Lemma digitsValue_bounds (s : string) :
  forall acc x,
    digitsValue s acc = Some x ->
    (acc * 10 ^ N.of_nat (String.length s) <= x <
     (acc + 1) * 10 ^ N.of_nat (String.length s))%N.
Proof.
  induction s as [| c r IH]; intros acc x E; cbn [digitsValue] in E.
  - injection E as <-. cbn [String.length N.of_nat]. rewrite N.pow_0_r. lia.
  - destruct (isDigit c) eqn:D; [| discriminate].
    destruct (digit_value c D) as [U _].
    apply IH in E. cbn [String.length].
    replace (N.of_nat (S (String.length r))) with (N.succ (N.of_nat (String.length r)))
      by lia.
    rewrite N.pow_succ_r'.
    assert (0 < 10 ^ N.of_nat (String.length r))%N
      by (apply N.neq_0_lt_0, N.pow_nonzero; discriminate).
    nia.
Qed.

Lemma digitsValue_inj (s : string) :
  forall s' acc acc' x,
    String.length s = String.length s' ->
    digitsValue s acc = Some x -> digitsValue s' acc' = Some x ->
    acc = acc' /\ s = s'.
Proof.
  induction s as [| c r IH]; intros [| c' r'] acc acc' x L E E';
    try discriminate; cbn [digitsValue] in E, E'.
  - split; [congruence | reflexivity].
  - destruct (isDigit c) eqn:D; [| discriminate].
    destruct (isDigit c') eqn:D'; [| discriminate].
    injection L as L. destruct (IH _ _ _ _ L E E') as [A ->].
    destruct (digit_value c D) as [U _], (digit_value c' D') as [U' _].
    assert (acc = acc') by lia. subst acc'. split; [reflexivity |].
    f_equal. apply digit_inj; [exact D | exact D' | lia].
Qed.

(** A numeric string without a leading zero has as many digits as its
    value requires. *)
Lemma digitsValue_length (c : ascii) (r : string) (x : N) :
  c <> "0"%char ->
  digitsValue (String c r) 0 = Some x ->
  (10 ^ N.of_nat (String.length r) <= x < 10 ^ N.of_nat (S (String.length r)))%N.
Proof.
  intros Z E. cbn [digitsValue] in E.
  destruct (isDigit c) eqn:D; [| discriminate].
  destruct (digit_value c D) as [U P]. specialize (P Z).
  apply digitsValue_bounds in E.
  replace (N.of_nat (S (String.length r))) with (N.succ (N.of_nat (String.length r)))
    by lia.
  rewrite N.pow_succ_r'.
  assert (0 < 10 ^ N.of_nat (String.length r))%N
    by (apply N.neq_0_lt_0, N.pow_nonzero; discriminate).
  nia.
Qed.

Lemma leading_digit (c : ascii) (r : string) (n : N) :
  arrayIndex (String c r) = Some n ->
  (c = "0"%char /\ r = EmptyString /\ n = 0%N) \/
  (c <> "0"%char /\ digitsValue (String c r) 0 = Some n).
Proof.
  unfold arrayIndex. destruct (Ascii.eqb_spec c "0"%char) as [-> | Z].
  - destruct r; [| discriminate]. intros E. injection E as <-. now left.
  - destruct (digitsValue (String c r) 0) as [x |] eqn:E; [| discriminate].
    destruct (x <=? 4294967294)%N; [| discriminate].
    intros X. injection X as <-. now right.
Qed.

(** An array index has one spelling. *)
Lemma arrayIndex_inj (k k' : string) (n : N) :
  arrayIndex k = Some n -> arrayIndex k' = Some n -> k = k'.
Proof.
  destruct k as [| c r]; [discriminate |]. destruct k' as [| c' r']; [discriminate |].
  intros E E'. apply leading_digit in E, E'.
  destruct E as [(-> & -> & ->) | [Z E]], E' as [(-> & -> & Q) | [Z' E']].
  - reflexivity.
  - apply digitsValue_length in E'; [| exact Z'].
    assert (0 < 10 ^ N.of_nat (String.length r'))%N
      by (apply N.neq_0_lt_0, N.pow_nonzero; discriminate).
    lia.
  - subst n. apply digitsValue_length in E; [| exact Z].
    assert (0 < 10 ^ N.of_nat (String.length r))%N
      by (apply N.neq_0_lt_0, N.pow_nonzero; discriminate).
    lia.
  - pose proof (digitsValue_length _ _ _ Z E) as B.
    pose proof (digitsValue_length _ _ _ Z' E') as B'.
    assert (L : String.length r = String.length r').
    { destruct (Nat.lt_trichotomy (String.length r) (String.length r'))
        as [Lt | [Eq | Gt]]; [| exact Eq |].
      - assert (10 ^ N.of_nat (S (String.length r)) <=
                10 ^ N.of_nat (String.length r'))%N
          by (apply N.pow_le_mono_r; [discriminate | lia]).
        lia.
      - assert (10 ^ N.of_nat (S (String.length r')) <=
                10 ^ N.of_nat (String.length r))%N
          by (apply N.pow_le_mono_r; [discriminate | lia]).
        lia. }
    destruct (digitsValue_inj (String c r) (String c' r') 0 0 n) as [_ Q];
      [cbn [String.length]; now f_equal | exact E | exact E' | exact Q].
Qed.

Lemma precedes_differ (k k' : string) : precedes k k' -> k <> k'.
Proof.
  unfold precedes. intros P ->. destruct (arrayIndex k'); [lia | now apply P].
Qed.

Lemma keys_replaceOwn (A : Type) (k : string) (v : A) (o : list (string * A)) :
  map fst (replaceOwn k v o) = map fst o.
Proof.
  induction o as [| [k' v'] o IH]; simpl; [reflexivity |].
  destruct (String.eqb k' k); simpl; [reflexivity | now rewrite IH].
Qed.

Lemma Forall_insertIndex (A : Type) (P : string -> Prop) (n : N) (k : string) (v : A)
      (o : list (string * A)) :
  P k -> Forall P (map fst o) -> Forall P (map fst (insertIndex n k v o)).
Proof.
  intros Pk. induction o as [| [k' v'] o IH]; intros F; simpl.
  - now constructor.
  - inversion F; subst.
    destruct (arrayIndex k') as [m |]; [destruct (m <? n)%N |]; simpl;
      repeat constructor; auto.
Qed.

Lemma insertIndex_enumerated (A : Type) (n : N) (k : string) (v : A)
      (o : list (string * A)) :
  arrayIndex k = Some n -> ~ In k (map fst o) ->
  Enumerated (map fst o) -> Enumerated (map fst (insertIndex n k v o)).
Proof.
  intros K. induction o as [| [k' v'] o IH]; intros Out E.
  - split; [constructor | exact I].
  - cbn [map fst Enumerated] in E. destruct E as [F E].
    cbn [map fst In] in Out. cbn [insertIndex].
    assert (Before : forall m, arrayIndex k' = Some m -> (n <= m)%N ->
                     Forall (precedes k) (k' :: map fst o)).
    { intros m K' L. constructor.
      - unfold precedes. rewrite K, K'.
        destruct (N.eq_dec n m) as [-> | D]; [| lia].
        exfalso. apply Out. left. exact (arrayIndex_inj _ _ _ K' K).
      - eapply Forall_impl; [| exact F]. intros x. unfold precedes.
        rewrite K, K'. destruct (arrayIndex x); [lia | trivial]. }
    destruct (arrayIndex k') as [m |] eqn:K'.
    + destruct (m <? n)%N eqn:L.
      * apply N.ltb_lt in L. cbn [map fst Enumerated]. split.
        -- apply Forall_insertIndex; [| exact F].
           unfold precedes. now rewrite K', K.
        -- apply IH; [tauto | exact E].
      * apply N.ltb_ge in L. cbn [map fst Enumerated]. split; [| split].
        -- exact (Before m eq_refl L).
        -- exact F.
        -- exact E.
    + cbn [map fst Enumerated]. split; [| split; [exact F | exact E]].
      constructor.
      * unfold precedes. now rewrite K, K'.
      * eapply Forall_impl; [| exact F]. intros x. unfold precedes.
        rewrite K, K'. destruct (arrayIndex x); [contradiction | trivial].
Qed.

Lemma append_enumerated (A : Type) (k : string) (v : A) (o : list (string * A)) :
  arrayIndex k = None -> ~ In k (map fst o) ->
  Enumerated (map fst o) -> Enumerated (map fst (o ++ [(k, v)])).
Proof.
  intros K. induction o as [| [k' v'] o IH]; intros Out E.
  - split; [constructor | exact I].
  - cbn [map fst Enumerated] in E. destruct E as [F E].
    cbn [map fst In] in Out. cbn [app map fst Enumerated]. split.
    + rewrite map_app. cbn [map fst]. apply Forall_app. split; [exact F |].
      constructor; [| constructor]. unfold precedes. rewrite K.
      destruct (arrayIndex k'); [trivial | tauto].
    + apply IH; [tauto | exact E].
Qed.

Lemma setOwn_enumerated (A : Type) (k : string) (v : A) (o : list (string * A)) :
  Enumerated (map fst o) -> Enumerated (map fst (setOwn k v o)).
Proof.
  intros E. unfold setOwn. destruct (getOwn k o) as [u |] eqn:G.
  - now rewrite keys_replaceOwn.
  - assert (Out : ~ In k (map fst o)).
    { rewrite keys_getOwn. intros [u U]. congruence. }
    unfold createOwn. destruct (arrayIndex k) as [n |] eqn:K.
    + now apply insertIndex_enumerated.
    + now apply append_enumerated.
Qed.

Lemma assign_enumerated (k : string) (v : value) (o : Flattened) :
  Enumerated (map fst (own o)) -> Enumerated (map fst (own (assign k v o))).
Proof.
  intros E. unfold assign.
  destruct (String.eqb k "__proto__" && negb (protoNull o)).
  - now destruct v.
  - simpl. now apply setOwn_enumerated.
Qed.

Lemma fold_enumerated (A : Type) (step : Flattened -> A -> Flattened) (l : list A) :
  (forall acc x, In x l -> Enumerated (map fst (own acc)) ->
                 Enumerated (map fst (own (step acc x)))) ->
  forall acc, Enumerated (map fst (own acc)) ->
              Enumerated (map fst (own (fold_left step l acc))).
Proof.
  induction l as [| x l IH]; intros H acc E; simpl; [exact E |].
  apply IH.
  - intros a y Iy. apply H. now right.
  - apply H; [now left | exact E].
Qed.

Lemma objectAssign_enumerated (target source : Flattened) :
  Enumerated (map fst (own target)) ->
  Enumerated (map fst (own (objectAssign target source))).
Proof.
  unfold objectAssign. apply fold_enumerated.
  intros acc kv _. apply assign_enumerated.
Qed.

Lemma flattenEntry_enumerated (sep : string) (v : value) :
  forall key acc,
    Enumerated (map fst (own acc)) ->
    Enumerated (map fst (own (flattenEntry sep v key acc))).
Proof.
  induction v as [| b | n | t | iso | items H | fields H] using value_nested_ind;
    intros key acc E; cbn [flattenEntry];
    try (now apply assign_enumerated); now apply objectAssign_enumerated.
Qed.

(** The flattened object lists its names in an order of enumeration. *)
Lemma flattenFields_enumerated (sep : string) (fields : list (string * value))
      (prefix : string) :
  Enumerated (map fst (own (flattenFields sep fields prefix emptyObject))).
Proof.
  unfold flattenFields. apply fold_enumerated; [| exact I].
  intros acc kv _. apply flattenEntry_enumerated.
Qed.

Lemma enumerated_app (l1 l2 : list string) :
  Enumerated (l1 ++ l2) ->
  Enumerated l2 /\ forall x y, In x l1 -> In y l2 -> precedes x y.
Proof.
  induction l1 as [| k l1 IH]; cbn [app Enumerated].
  - intros E. split; [exact E | contradiction].
  - intros [F E]. destruct (IH E) as [E2 P]. split; [exact E2 |].
    intros x y [<- | Ix] Iy.
    + rewrite Forall_forall in F. apply F, in_or_app. now right.
    + now apply P.
Qed.

(** An index larger than those of all the properties goes last. *)
Lemma insertIndex_last (A : Type) (n : N) (k : string) (v : A)
      (o : list (string * A)) :
  arrayIndex k = Some n ->
  (forall x, In x (map fst o) -> precedes x k) ->
  insertIndex n k v o = (o ++ [(k, v)])%list.
Proof.
  intros K. induction o as [| [k' v'] o IH]; intros P; [reflexivity |].
  cbn [insertIndex app]. pose proof (P k' (or_introl eq_refl)) as Pk.
  unfold precedes in Pk. rewrite K in Pk.
  destruct (arrayIndex k') as [m |]; [| contradiction].
  apply N.ltb_lt in Pk. rewrite Pk. f_equal. apply IH.
  intros x Ix. apply P. now right.
Qed.

(** Storing anew, in their order, the properties of an object whose
    names are enumerated gives the same properties. *)
Lemma stored_again (sep : string) (o : list (string * value)) :
  forall (stored : list (string * value)) (proto : bool),
    Enumerated (map fst (stored ++ o)) ->
    (forall k v, In (k, v) o -> isPlainObject v = false /\ k <> "__proto__") ->
    flattenFields sep o EmptyString (mkFlattened proto stored) =
    mkFlattened proto (stored ++ o).
Proof.
  unfold flattenFields.
  induction o as [| [k v] o IH]; intros stored proto E H; cbn [fold_left].
  - now rewrite app_nil_r.
  - destruct (H k v (or_introl eq_refl)) as [Plain Name].
    assert (Step : flattenEntry sep v (newKey sep EmptyString k)
                     (mkFlattened proto stored) =
                   mkFlattened proto (stored ++ [(k, v)])).
    { cbn [newKey fst snd].
      assert (Q : flattenEntry sep v k (mkFlattened proto stored) =
                  assign k v (mkFlattened proto stored))
        by (destruct v; try discriminate; reflexivity).
      rewrite Q. unfold assign.
      destruct (String.eqb_spec k "__proto__") as [-> | _]; [contradiction |].
      cbn [andb own protoNull]. f_equal.
      rewrite map_app in E. apply enumerated_app in E as [_ P].
      assert (Before : forall x, In x (map fst stored) -> precedes x k)
        by (intros x Ix; apply P; [exact Ix | now left]).
      unfold setOwn. destruct (getOwn k stored) as [u |] eqn:G.
      - exfalso. apply (precedes_differ k k); [| reflexivity].
        apply Before, keys_getOwn. now exists u.
      - unfold createOwn. destruct (arrayIndex k) as [n |] eqn:K; [| reflexivity].
        now apply insertIndex_last. }
    cbn [fst snd] in *. rewrite Step.
    rewrite IH.
    + now rewrite <- app_assoc.
    + now rewrite <- app_assoc.
    + intros k' v' Ik. apply H. now right.
Qed.

(** X19: flattening is idempotent. The object that flattenObject returns
    for a document is returned unchanged when it is flattened again, by
    the flattenObject of any of the four modules, provided none of its
    fields is named __proto__ (an assignment to that name is not a
    property creation). *)
Theorem X19_flattening_twice_changes_nothing :
  forall (sep sep' : string) (item : value) (result : list (string * value)),
    flattenObjectWith sep (Some item) = inr result ->
    ~ In "__proto__" (map fst result) ->
    flattenObjectWith sep' (Some (VObj result)) = inr result.
Proof.
  intros sep sep' item result F Name.
  destruct (entries (Some item)) as [e | fields] eqn:En.
  { unfold flattenObjectWith, flattenObjectAt in F. rewrite En in F. discriminate. }
  destruct (flattenObjectWith_spec sep item fields result En F) as [Leaves _].
  assert (E : Enumerated (map fst result)).
  { unfold flattenObjectWith, flattenObjectAt in F. rewrite En in F.
    injection F as <-. apply flattenFields_enumerated. }
  unfold flattenObjectWith, flattenObjectAt. cbn [entries]. f_equal.
  unfold emptyObject. rewrite stored_again; [reflexivity | exact E |].
  intros k v Ik. split; [now apply (Leaves k v) |].
  intros ->. apply Name. change "__proto__" with (fst ("__proto__", v)).
  now apply in_map.
Qed.

Lemma X19_flattening_twice_changes_nothing_witness :
  flattenObjectWith "_"
    (Some (VObj [("2", VNum 2); ("name", VStr "Ada"); ("address.city", VStr "London")])) =
  inr [("2", VNum 2); ("name", VStr "Ada"); ("address.city", VStr "London")].
Proof.
  apply (X19_flattening_twice_changes_nothing "." "_"
           (VObj [("name", VStr "Ada"); ("address", VObj [("city", VStr "London")]);
                  ("2", VNum 2)])).
  - reflexivity.
  - vm_compute. intuition discriminate.
Defined.

(* ================================================================== *)
(** ** utils.js: escapeHtml *)
(* ================================================================== *)

Lemma occurs_app (c : ascii) (a b : string) :
  occurs c (a ++ b) = occurs c a || occurs c b.
Proof.
  induction a as [| d a IH]; simpl; [reflexivity |]. now rewrite IH, orb_assoc.
Qed.

(** The five cases of escapeChar and the case of any other character. *)
Lemma escapeChar_cases (c : ascii) :
  (c = "&"%char /\ Utils.escapeChar c = "&amp;") \/
  (c = "<"%char /\ Utils.escapeChar c = "&lt;") \/
  (c = ">"%char /\ Utils.escapeChar c = "&gt;") \/
  (c = dqc /\ Utils.escapeChar c = "&quot;") \/
  (c = "'"%char /\ Utils.escapeChar c = "&#039;") \/
  (c <> "&"%char /\ c <> "<"%char /\ c <> ">"%char /\ c <> dqc /\ c <> "'"%char /\
   Utils.escapeChar c = String c EmptyString).
Proof.
  unfold Utils.escapeChar.
  destruct (Ascii.eqb_spec c "&"%char); [tauto |].
  destruct (Ascii.eqb_spec c "<"%char); [tauto |].
  destruct (Ascii.eqb_spec c ">"%char); [tauto |].
  destruct (Ascii.eqb_spec c dqc); [tauto |].
  destruct (Ascii.eqb_spec c "'"%char); [tauto |].
  repeat right. tauto.
Qed.

Ltac escape_cases c :=
  let Q := fresh "Q" in
  destruct (escapeChar_cases c)
    as [[-> Q] | [[-> Q] | [[-> Q] | [[-> Q] | [[-> Q] | (? & ? & ? & ? & ? & Q)]]]]];
  rewrite Q in *; clear Q.

Lemma escapeHtml_length (s : string) :
  String.length s <= String.length (Utils.escapeHtml s).
Proof.
  induction s as [| c r IH]; cbn [Utils.escapeHtml]; [apply le_n |].
  escape_cases c; cbn [append String.length]; lia.
Qed.

Lemma escapeHtml_injective (s : string) :
  forall t, Utils.escapeHtml s = Utils.escapeHtml t -> s = t.
Proof.
  induction s as [| c r IH]; intros [| d t] E; cbn [Utils.escapeHtml] in E.
  - reflexivity.
  - escape_cases d; discriminate.
  - escape_cases c; discriminate.
  - escape_cases c; escape_cases d; cbn [append] in E;
      try discriminate; injection E; intros; subst; try congruence;
      f_equal; now apply IH.
Qed.

Lemma plainText_cons (c : ascii) (r : string) :
  plainText (String c r) = true <->
  (c <> "&"%char /\ c <> "<"%char /\ c <> ">"%char /\ c <> dqc /\ c <> "'"%char) /\
  plainText r = true.
Proof.
  unfold plainText. cbn [occurs]. rewrite !negb_true_iff, !orb_false_iff.
  destruct (Ascii.eqb_spec c "&"%char), (Ascii.eqb_spec c "<"%char),
    (Ascii.eqb_spec c ">"%char), (Ascii.eqb_spec c dqc), (Ascii.eqb_spec c "'"%char);
    cbn [orb]; intuition congruence.
Qed.

Lemma escapeHtml_fixed (s : string) :
  Utils.escapeHtml s = s <-> plainText s = true.
Proof.
  induction s as [| c r IH]; [split; reflexivity |].
  rewrite plainText_cons, <- IH. cbn [Utils.escapeHtml].
  pose proof (escapeHtml_length r) as L.
  escape_cases c; cbn [append]; split;
    try (intros E; discriminate);
    try (intros E; injection E as E; apply (f_equal String.length) in E;
         cbn [String.length] in E; lia);
    try (intros [(? & ? & ? & ? & ?) _]; congruence).
  - intros E. injection E as E. tauto.
  - intros [_ E]. now rewrite E.
Qed.

(** X20: escapeHtml leaves none of the characters <, >, double quote and
    apostrophe in its result; it is injective; it returns its argument
    unchanged exactly when the argument holds none of the five characters
    it replaces; and, the ampersand of an entity being replaced in turn,
    escaping twice is escaping once exactly in that case. *)
Theorem X20_escapeHtml_is_safe_and_injective :
  forall (s t : string),
    (occurs "<"%char (Utils.escapeHtml s) = false /\
     occurs ">"%char (Utils.escapeHtml s) = false /\
     occurs dqc (Utils.escapeHtml s) = false /\
     occurs "'"%char (Utils.escapeHtml s) = false) /\
    (Utils.escapeHtml s = Utils.escapeHtml t -> s = t) /\
    (Utils.escapeHtml s = s <-> plainText s = true) /\
    (Utils.escapeHtml (Utils.escapeHtml s) = Utils.escapeHtml s <->
     plainText s = true).
Proof.
  intros s t. split; [| split; [| split]].
  - induction s as [| c r (L & G & Q & A)]; cbn [Utils.escapeHtml];
      [repeat split; reflexivity |].
    rewrite !occurs_app, L, G, Q, A.
    escape_cases c; cbn [occurs orb];
      repeat match goal with
             | |- context [Ascii.eqb ?a ?b] =>
                 destruct (Ascii.eqb_spec a b); [congruence || discriminate |]
             end;
      repeat split; reflexivity.
  - apply escapeHtml_injective.
  - apply escapeHtml_fixed.
  - rewrite <- escapeHtml_fixed. split.
    + apply escapeHtml_injective.
    + intros E. now rewrite E.
Qed.

(* ================================================================== *)
(** ** utils.js: the case converters *)
(* ================================================================== *)

(** What the regular expressions make of a small letter and of its
    capital. *)
Lemma small_letter (c : ascii) :
  isLower c = true ->
  (isUpper c = false /\ Utils.isWord c = true /\ lowerChar c = c /\
   JsonFormatter.isSpace c = false /\
   Ascii.eqb c "-"%char = false /\ Ascii.eqb c "_"%char = false) /\
  (isUpper (upperChar c) = true /\ Utils.isWord (upperChar c) = true /\
   lowerChar (upperChar c) = c /\
   upperChar (upperChar c) = upperChar c /\
   JsonFormatter.isSpace (upperChar c) = false /\
   Ascii.eqb (upperChar c) "-"%char = false /\
   Ascii.eqb (upperChar c) "_"%char = false).
Proof.
  destruct c as [[] [] [] [] [] [] [] []]; vm_compute; intros L;
    try discriminate; repeat split; reflexivity.
Qed.

Section Words.
Variable other : ascii -> string.

Lemma replaceWords_small (a : string) :
  forall (index : nat) (rest : string),
    smallLetters a = true ->
    Utils.replaceWords other true index (a ++ rest) =
    a ++ Utils.replaceWords other true (index + String.length a) rest.
Proof.
  induction a as [| c a IH]; intros index rest L; cbn [append String.length].
  - now rewrite Nat.add_0_r.
  - cbn [smallLetters] in L. apply andb_prop in L as [Lc La].
    destruct (small_letter c Lc) as [(U & W & _) _].
    cbn [Utils.replaceWords]. rewrite U, W. cbn [orb andb negb append]. f_equal.
    rewrite (IH (S index) rest La). now rewrite Nat.add_succ_r.
Qed.

(** A word of small letters at the beginning of the text stays as it is. *)
Lemma replaceWords_first (c : ascii) (a rest : string) :
  smallLetters (String c a) = true ->
  Utils.replaceWords other false 0 (String c a ++ rest) =
  String c a ++ Utils.replaceWords other true (S (String.length a)) rest.
Proof.
  intros L. cbn [smallLetters] in L. apply andb_prop in L as [Lc La].
  destruct (small_letter c Lc) as [(U & W & Low & _) _].
  cbn [append Utils.replaceWords]. rewrite U, W, Low.
  cbn [orb andb negb Nat.eqb append]. f_equal.
  now rewrite (replaceWords_small a 1 rest La).
Qed.

Lemma replaceWords_rest (a : string) (index : nat) :
  smallLetters a = true -> Utils.replaceWords other true index a = a.
Proof.
  intros L. rewrite <- (append_empty_r a) at 1.
  rewrite (replaceWords_small a index EmptyString L). cbn [Utils.replaceWords].
  apply append_empty_r.
Qed.

(** A word after a character that is not a word character: its first
    letter is passed to the callback. *)
Lemma replaceWords_after (s d : ascii) (b : string) (index : nat) :
  isUpper s = false -> Utils.isWord s = false ->
  smallLetters (String d b) = true ->
  Utils.replaceWords other true (S index) (String s (String d b)) =
  String s (other d ++ b).
Proof.
  intros U W L. cbn [smallLetters] in L. apply andb_prop in L as [Ld Lb].
  destruct (small_letter d Ld) as [(Ud & Wd & _) _].
  cbn [Utils.replaceWords]. rewrite U, W, Ud, Wd.
  cbn [orb andb negb Nat.eqb append]. now rewrite (replaceWords_rest b _ Lb).
Qed.

(** A word after an underscore is not the beginning of a word. *)
Lemma replaceWords_underscore (b : string) (index : nat) :
  smallLetters b = true ->
  Utils.replaceWords other true index (String "_"%char b) = String "_"%char b.
Proof.
  intros L. cbn [Utils.replaceWords].
  change (isUpper "_"%char) with false. change (Utils.isWord "_"%char) with true.
  cbn [orb andb negb append]. now rewrite (replaceWords_rest b _ L).
Qed.

(** A capital after a word is passed to the callback. *)
Lemma replaceWords_capital (d : ascii) (b : string) (index : nat) :
  smallLetters (String d b) = true ->
  Utils.replaceWords other true (S index) (String (upperChar d) b) =
  other (upperChar d) ++ b.
Proof.
  intros L. cbn [smallLetters] in L. apply andb_prop in L as [Ld Lb].
  destruct (small_letter d Ld) as [_ (Ud & Wd & _)].
  cbn [Utils.replaceWords]. rewrite Ud, Wd.
  cbn [orb Nat.eqb]. now rewrite (replaceWords_rest b _ Lb).
Qed.

End Words.

Section Separators.
Variable single : ascii -> bool.
Variable by_ : string.
Hypothesis letters_stay : forall c, isLower c = true -> single c = false.

Lemma replaceSeparators_small (a : string) :
  forall (inRun : bool) (rest : string),
    smallLetters a = true -> a <> EmptyString ->
    Utils.replaceSeparators single by_ inRun (a ++ rest) =
    a ++ Utils.replaceSeparators single by_ false rest.
Proof.
  induction a as [| c a IH]; intros inRun rest L N; [contradiction |].
  cbn [smallLetters] in L. apply andb_prop in L as [Lc La].
  destruct (small_letter c Lc) as [(_ & _ & _ & Sp & _) _].
  cbn [append Utils.replaceSeparators]. rewrite Sp, (letters_stay c Lc). f_equal.
  destruct a as [| c' a']; [reflexivity |].
  apply IH; [exact La | discriminate].
Qed.

Lemma replaceSeparators_word (a : string) (inRun : bool) :
  smallLetters a = true ->
  Utils.replaceSeparators single by_ inRun a = a.
Proof.
  intros L. destruct a as [| c a]; [reflexivity |].
  rewrite <- (append_empty_r (String c a)) at 1.
  rewrite replaceSeparators_small; [apply append_empty_r | exact L | discriminate].
Qed.

End Separators.

Lemma replaceSeparators_capital (single : ascii -> bool) (by_ : string) (inRun : bool)
      (d : ascii) (b : string) :
  (forall c, isLower c = true -> single c = false) ->
  single (upperChar d) = false ->
  smallLetters (String d b) = true ->
  Utils.replaceSeparators single by_ inRun (String (upperChar d) b) =
  String (upperChar d) b.
Proof.
  intros Stay Sd L. cbn [smallLetters] in L. apply andb_prop in L as [Ld Lb].
  destruct (small_letter d Ld) as [_ (_ & _ & _ & _ & Sp & _)].
  cbn [Utils.replaceSeparators]. rewrite Sp, Sd. f_equal.
  now apply replaceSeparators_word.
Qed.

Lemma hyphen_or_underscore (c : ascii) :
  isLower c = true ->
  Ascii.eqb c "-"%char || Ascii.eqb c "_"%char = false.
Proof.
  intros L. destruct (small_letter c L) as [(_ & _ & _ & _ & H & U) _].
  now rewrite H, U.
Qed.

Lemma not_hyphen (c : ascii) : isLower c = true -> Ascii.eqb c "-"%char = false.
Proof.
  intros L. now destruct (small_letter c L) as [(_ & _ & _ & _ & H & _) _].
Qed.

Lemma not_underscore (c : ascii) : isLower c = true -> Ascii.eqb c "_"%char = false.
Proof.
  intros L. now destruct (small_letter c L) as [(_ & _ & _ & _ & _ & U) _].
Qed.

(** The text after the first pass, then the second pass word by word. *)
Ltac first_pass La Lb :=
  rewrite (replaceWords_first _ _ _ _ La);
  first [ rewrite replaceWords_after by first [reflexivity | exact Lb]
        | rewrite (replaceWords_underscore _ _ _ Lb)
        | rewrite (replaceWords_capital _ _ _ _ Lb) ].

Ltac second_pass Stay La :=
  rewrite (replaceSeparators_small _ _ Stay _ _ _ La) by discriminate;
  cbn [Utils.replaceSeparators append];
  repeat match goal with
         | |- context [JsonFormatter.isSpace (Ascii ?b0 ?b1 ?b2 ?b3 ?b4 ?b5 ?b6 ?b7)] =>
             let c := constr:(Ascii b0 b1 b2 b3 b4 b5 b6 b7) in
             let r := eval vm_compute in (JsonFormatter.isSpace c) in
             change (JsonFormatter.isSpace c) with r
         | |- context [Ascii.eqb (Ascii ?b0 ?b1 ?b2 ?b3 ?b4 ?b5 ?b6 ?b7) ?e] =>
             let c := constr:(Ascii b0 b1 b2 b3 b4 b5 b6 b7) in
             let r := eval vm_compute in (Ascii.eqb c e) in
             change (Ascii.eqb c e) with r
         end;
  repeat match goal with
         | Q : _ = false |- _ => rewrite Q
         end;
  cbn [orb append];
  repeat rewrite (replaceSeparators_word _ _ Stay) by assumption;
  reflexivity.

(** X21: what the three converters make of two words of small letters.
    toCamelCase joins them with a capital when a space or a hyphen is
    between them, and without one when an underscore is, the underscore
    being a word character; toSnakeCase and toKebabCase turn a capital
    into their separator and a small letter, keep their own separator,
    and write the separator twice for a space and for a hyphen, the word
    after it getting a separator of its own. *)
Theorem X21_case_converters_on_two_words :
  forall (a b : string),
    smallLetters a = true -> smallLetters b = true ->
    a <> EmptyString -> b <> EmptyString ->
    (Utils.toCamelCase (a ++ " " ++ b) = a ++ capitalize b /\
     Utils.toCamelCase (a ++ "-" ++ b) = a ++ capitalize b /\
     Utils.toCamelCase (a ++ "_" ++ b) = a ++ b /\
     Utils.toCamelCase (a ++ capitalize b) = a ++ capitalize b) /\
    (Utils.toSnakeCase (a ++ capitalize b) = a ++ "_" ++ b /\
     Utils.toSnakeCase (a ++ "_" ++ b) = a ++ "_" ++ b /\
     Utils.toSnakeCase (a ++ " " ++ b) = a ++ "__" ++ b /\
     Utils.toSnakeCase (a ++ "-" ++ b) = a ++ "__" ++ b) /\
    (Utils.toKebabCase (a ++ capitalize b) = a ++ "-" ++ b /\
     Utils.toKebabCase (a ++ "_" ++ b) = a ++ "-" ++ b /\
     Utils.toKebabCase (a ++ " " ++ b) = a ++ "--" ++ b /\
     Utils.toKebabCase (a ++ "-" ++ b) = a ++ "--" ++ b).
Proof.
  intros [| c a] [| d b] La Lb Na Nb; try contradiction. clear Na Nb.
  assert (Ld : isLower d = true /\ smallLetters b = true)
    by (cbn [smallLetters] in Lb; now apply andb_prop in Lb).
  destruct Ld as [Ld Lt].
  destruct (small_letter d Ld)
    as [(_ & _ & Low & Sd & Hd & Ud) (_ & _ & Back & Up & Sp & H & U)].
  unfold Utils.toCamelCase, Utils.toSnakeCase, Utils.toKebabCase.
  cbn [capitalize]. change (" " ++ String d b) with (String " "%char (String d b)).
  change ("-" ++ String d b) with (String "-"%char (String d b)).
  change ("_" ++ String d b) with (String "_"%char (String d b)).
  change ("__" ++ String d b) with (String "_"%char (String "_"%char (String d b))).
  change ("--" ++ String d b) with (String "-"%char (String "-"%char (String d b))).
  split; [| split]; repeat split; first_pass La Lb;
    rewrite ?Up, ?Back, ?Low.
  - second_pass hyphen_or_underscore La.
  - second_pass hyphen_or_underscore La.
  - second_pass hyphen_or_underscore La.
  - second_pass hyphen_or_underscore La.
  - second_pass not_hyphen La.
  - second_pass not_hyphen La.
  - second_pass not_hyphen La.
  - second_pass not_hyphen La.
  - second_pass not_underscore La.
  - second_pass not_underscore La.
  - second_pass not_underscore La.
  - second_pass not_underscore La.
Qed.

Lemma X21_case_converters_on_two_words_witness :
  Utils.toCamelCase "foo_bar" = "foobar" /\
  Utils.toSnakeCase "foo bar" = "foo__bar" /\
  Utils.toKebabCase "foo-bar" = "foo--bar".
Proof.
  destruct (X21_case_converters_on_two_words "foo" "bar" eq_refl eq_refl
              ltac:(discriminate) ltac:(discriminate))
    as ((_ & _ & C & _) & (_ & _ & S & _) & (_ & _ & _ & K)).
  exact (conj C (conj S K)).
Defined.

(* ================================================================== *)
(** ** jsonFormatter.js: checkArrayConsistency *)
(* ================================================================== *)

Lemma inList_In (x : string) (l : list string) : inList x l = true <-> In x l.
Proof.
  unfold inList. rewrite existsb_exists. split.
  - intros (y & I & E). apply String.eqb_eq in E. now subst.
  - intros I. exists x. split; [exact I | apply String.eqb_refl].
Qed.

Lemma uniqueFrom_In (l : list string) :
  forall seen x,
    In x (JsonFormatter.uniqueFrom seen l) <-> In x l /\ ~ In x seen.
Proof.
  induction l as [| y l IH]; intros seen x; cbn [JsonFormatter.uniqueFrom].
  - simpl. tauto.
  - destruct (inList y seen) eqn:S.
    + apply inList_In in S. rewrite IH. simpl. split; [tauto |].
      intros [[<- | I] N]; [contradiction | tauto].
    + assert (N : ~ In y seen) by (rewrite <- inList_In; congruence).
      simpl. rewrite IH. simpl. split.
      * intros [<- | [I K]]; [tauto | tauto].
      * intros [[<- | I] K]; [now left |].
        destruct (string_dec y x) as [-> | D]; [now left | right; tauto].
Qed.

Lemma uniqueFrom_NoDup (l : list string) :
  forall seen, NoDup (JsonFormatter.uniqueFrom seen l).
Proof.
  induction l as [| y l IH]; intros seen; cbn [JsonFormatter.uniqueFrom].
  - constructor.
  - destruct (inList y seen); [apply IH |]. constructor; [| apply IH].
    rewrite uniqueFrom_In. simpl. tauto.
Qed.

(** More than one type name is left exactly when two items differ. *)
Lemma several_types (items : list value) :
  Nat.ltb 1 (length (JsonFormatter.unique (map JsonFormatter.typeName items))) =
  mixed items.
Proof.
  unfold JsonFormatter.unique.
  set (names := map JsonFormatter.typeName items).
  pose proof (uniqueFrom_NoDup names []) as D.
  assert (M : forall t, In t (JsonFormatter.uniqueFrom [] names) <-> In t names)
    by (intros t; rewrite uniqueFrom_In; simpl; tauto).
  destruct (mixed items) eqn:Mx.
  - unfold mixed in Mx. apply existsb_exists in Mx as (x & Ix & Mx).
    apply existsb_exists in Mx as (y & Iy & Mx).
    apply negb_true_iff, String.eqb_neq in Mx.
    assert (Jx : In (JsonFormatter.typeName x) (JsonFormatter.uniqueFrom [] names))
      by (apply M, in_map, Ix).
    assert (Jy : In (JsonFormatter.typeName y) (JsonFormatter.uniqueFrom [] names))
      by (apply M, in_map, Iy).
    apply Nat.ltb_lt.
    destruct (JsonFormatter.uniqueFrom [] names) as [| a [| b u]]; simpl in *;
      [contradiction | | lia].
    destruct Jx as [Ex | []], Jy as [Ey | []]. congruence.
  - apply Nat.ltb_ge.
    destruct (JsonFormatter.uniqueFrom [] names) as [| a [| b u]] eqn:U;
      [simpl; lia | simpl; lia | exfalso].
    assert (a <> b) by (inversion D as [| ? ? Na _]; intros ->; apply Na; now left).
    assert (Ia : In a names) by (apply M; now left).
    assert (Ib : In b names) by (apply M; right; now left).
    apply in_map_iff in Ia as (x & <- & Ix), Ib as (y & <- & Iy).
    assert (mixed items = true); [| congruence].
    unfold mixed. apply existsb_exists. exists x. split; [exact Ix |].
    apply existsb_exists. exists y. split; [exact Iy |].
    now apply negb_true_iff, String.eqb_neq.
Qed.

Lemma fold_left_silent (A : Type)
      (f : JsonFormatter.Validation -> A -> JsonFormatter.Validation)
      (Q : A -> Prop) (l : list A) :
  (forall x v, In x l -> exists extra, Adds extra v (f v x) /\ (Q x -> extra = [])) ->
  forall v, exists extra,
    Adds extra v (fold_left f l v) /\ ((forall x, In x l -> Q x) -> extra = []).
Proof.
  induction l as [| x l IH]; intros H v; simpl.
  - exists []. split; [apply Adds_refl | reflexivity].
  - destruct (H x v (or_introl eq_refl)) as (e1 & A1 & Q1).
    destruct (IH (fun y a I => H y a (or_intror I)) (f v x)) as (e2 & A2 & Q2).
    exists (e1 ++ e2)%list. split; [exact (Adds_trans _ _ _ _ _ A1 A2) |].
    intros K. rewrite Q1, Q2; auto.
Qed.

Lemma foldIndexed_silent (A : Type)
      (f : nat -> A -> JsonFormatter.Validation -> JsonFormatter.Validation)
      (Q : A -> Prop) (l : list A) :
  (forall i x v, In x l -> exists extra, Adds extra v (f i x v) /\ (Q x -> extra = [])) ->
  forall index v, exists extra,
    Adds extra v (JsonFormatter.foldIndexed f l index v) /\
    ((forall x, In x l -> Q x) -> extra = []).
Proof.
  induction l as [| x l IH]; intros H index v; simpl.
  - exists []. split; [apply Adds_refl | reflexivity].
  - destruct (H index x v (or_introl eq_refl)) as (e1 & A1 & Q1).
    destruct (IH (fun i y a I => H i y a (or_intror I)) (S index) (f index x v))
      as (e2 & A2 & Q2).
    exists (e1 ++ e2)%list. split; [exact (Adds_trans _ _ _ _ _ A1 A2) |].
    intros K. rewrite Q1, Q2; auto.
Qed.

Lemma checkArrayConsistency_silent (data : value) :
  forall path v, exists extra,
    Adds extra v (JsonFormatter.checkArrayConsistency data path v) /\
    (hasMixedArray data = false -> extra = []).
Proof.
  induction data as [| b | n | t | iso | items H | fields H] using value_nested_ind;
    intros path v; try (exists []; split; [apply Adds_refl | reflexivity]).
  - rewrite Forall_forall in H. cbn [JsonFormatter.checkArrayConsistency hasMixedArray].
    destruct (Nat.ltb 1 (length items));
      [| exists []; split; [apply Adds_refl | reflexivity]].
    cbv zeta. rewrite several_types.
    set (reported :=
           if mixed items
           then JsonFormatter.pushWarning "inconsistentArray" (JsonFormatter.orRoot path)
                  ("Array at " ++ JsonFormatter.orRoot path ++
                   " contains mixed types: " ++
                   join ", " (JsonFormatter.unique (map JsonFormatter.typeName items))) v
           else v).
    assert (W : exists e1, Adds e1 v reported /\ (mixed items = false -> e1 = [])).
    { unfold reported. destruct (mixed items).
      - eexists. split; [apply Adds_pushWarning | discriminate].
      - exists []. split; [apply Adds_refl | reflexivity]. }
    destruct W as (e1 & A1 & Q1).
    destruct (foldIndexed_silent _
                (fun index item acc =>
                   if JsonFormatter.isObject item
                   then JsonFormatter.checkArrayConsistency item
                          (JsonFormatter.itemPath path index) acc
                   else acc)
                (fun item => hasMixedArray item = false) items)
      with (index := 0) (v := reported) as (e2 & A2 & Q2).
    + intros i y a I. destruct (JsonFormatter.isObject y).
      * apply (H y I).
      * exists []. split; [apply Adds_refl | reflexivity].
    + exists (e1 ++ e2)%list. split; [exact (Adds_trans _ _ _ _ _ A1 A2) |].
      intros E. apply orb_false_iff in E as [E1 E2].
      rewrite Q1, Q2; [reflexivity | | exact E1].
      now apply existsb_false.
  - rewrite Forall_forall in H. cbn [JsonFormatter.checkArrayConsistency hasMixedArray].
    destruct (fold_left_silent _
                (fun acc kv =>
                   if JsonFormatter.isObject (snd kv)
                   then JsonFormatter.checkArrayConsistency (snd kv)
                          (JsonFormatter.propPath path (fst kv)) acc
                   else acc)
                (fun kv => hasMixedArray (snd kv) = false) fields)
      with (v := v) as (extra & A & Q).
    + intros kv a I. destruct (JsonFormatter.isObject (snd kv)).
      * apply (H kv I).
      * exists []. split; [apply Adds_refl | reflexivity].
    + exists extra. split; [exact A |]. intros E. apply Q.
      now apply existsb_false.
Qed.

(** X22: checkArrayConsistency pushes warnings only, and only for data
    in which some array has items of different type names. It reports
    such an array at the root; but it looks neither at nor into an array
    of a single item, so a mixed array that is the only item of an array
    is not reported. *)
Theorem X22_mixed_arrays_reported_unless_inside_a_singleton :
  forall (data : value) (path : string) (validation : JsonFormatter.Validation),
    (exists extra,
       Adds extra validation
            (JsonFormatter.checkArrayConsistency data path validation)) /\
    (JsonFormatter.checkArrayConsistency data path validation <> validation ->
     hasMixedArray data = true) /\
    (forall items, mixed items = true ->
       JsonFormatter.checkArrayConsistency (VArr items) path validation <> validation) /\
    (forall item,
       JsonFormatter.checkArrayConsistency (VArr [item]) path validation = validation).
Proof.
  intros data path validation.
  destruct (checkArrayConsistency_silent data path validation) as (extra & A & Q).
  split; [now exists extra |]. split; [| split].
  - intros D. destruct (hasMixedArray data) eqn:M; [reflexivity |].
    exfalso. apply D. apply (Adds_same _ _ _ A). now apply Q.
  - intros items M E.
    assert (L : Nat.ltb 1 (length items) = true).
    { destruct items as [| x [| y items]]; [discriminate | | reflexivity].
      unfold mixed in M. simpl in M. rewrite String.eqb_refl in M. discriminate. }
    cbn [JsonFormatter.checkArrayConsistency] in E. rewrite L in E. cbv zeta in E.
    rewrite several_types, M in E.
    match type of E with
    | JsonFormatter.foldIndexed ?f items 0 ?start = _ =>
        destruct (foldIndexed_pushes _ f items) with (index := 0) (v := start)
          as (e2 & A2)
    end.
    + intros i y a I. destruct (JsonFormatter.isObject y).
      * apply checkArrayConsistency_adds.
      * exists []. apply Adds_refl.
    + rewrite E in A2.
      pose proof (Adds_trans _ _ _ _ _
                    (Adds_pushWarning "inconsistentArray" (JsonFormatter.orRoot path)
                       ("Array at " ++ JsonFormatter.orRoot path ++
                        " contains mixed types: " ++
                        join ", " (JsonFormatter.unique
                                     (map JsonFormatter.typeName items))) validation)
                    A2) as A3.
      apply Adds_same in A3. destruct A3 as [A3 _].
      specialize (A3 eq_refl). discriminate.
  - intros item. reflexivity.
Qed.

(* ================================================================== *)
(** ** jsonFormatter.js: sortJsonKeys *)
(* ================================================================== *)

Lemma insertSorted_In (k x : string) (l : list string) :
  In x (JsonFormatter.insertSorted k l) <-> x = k \/ In x l.
Proof.
  induction l as [| y l IH]; cbn [JsonFormatter.insertSorted].
  - simpl. intuition.
  - destruct (String.leb k y); simpl; [intuition |]. rewrite IH. intuition.
Qed.

Lemma sortKeys_In (x : string) (l : list string) :
  In x (JsonFormatter.sortKeys l) <-> In x l.
Proof.
  unfold JsonFormatter.sortKeys. induction l as [| y l IH]; cbn [fold_right].
  - reflexivity.
  - rewrite insertSorted_In, IH. simpl. intuition.
Qed.

Lemma sortKeys_NoDup (l : list string) : NoDup l -> NoDup (JsonFormatter.sortKeys l).
Proof.
  unfold JsonFormatter.sortKeys. induction 1 as [| y l Out D IH]; cbn [fold_right].
  - constructor.
  - assert (O : ~ In y (fold_right JsonFormatter.insertSorted [] l))
      by (intros I; apply Out; now apply sortKeys_In).
    revert IH O. generalize (fold_right JsonFormatter.insertSorted [] l).
    intros s. induction s as [| x s IHs]; intros Ds O;
      cbn [JsonFormatter.insertSorted].
    + constructor; [exact O | constructor].
    + destruct (String.leb y x).
      * now constructor.
      * inversion Ds as [| ? ? Ox Dx]; subst. constructor.
        -- rewrite insertSorted_In. simpl in O. intuition.
        -- apply IHs; [exact Dx | simpl in O; tauto].
Qed.

Lemma filter_insertIndex (A : Type) (n : N) (k : string) (v : A)
      (o : list (string * A)) :
  arrayIndex k = Some n ->
  filter nonIndex (map fst (insertIndex n k v o)) = filter nonIndex (map fst o).
Proof.
  intros K.
  assert (F : nonIndex k = false) by (unfold nonIndex; now rewrite K).
  induction o as [| [k' v'] o IH]; cbn [insertIndex map fst filter].
  - now rewrite F.
  - destruct (arrayIndex k') as [m |] eqn:K'.
    + destruct (m <? n)%N; cbn [map fst filter].
      * now rewrite IH.
      * now rewrite F.
    + cbn [map fst filter]. now rewrite F.
Qed.

Lemma Stored_step (fields : list (string * value)) (stored : list string)
      (o : Flattened) (k : string) (x : value) :
  Stored fields stored o ->
  ~ In k stored -> k <> "__proto__" -> getOwn k fields = Some x ->
  Stored fields (stored ++ [k]) (assign k x o).
Proof.
  intros (Same & None_ & E & F) Out Name G.
  unfold assign. destruct (String.eqb_spec k "__proto__") as [-> | _]; [contradiction |].
  unfold Stored. cbn [andb own]. repeat split.
  - intros k' I. rewrite getOwn_setOwn.
    destruct (String.eqb_spec k k') as [<- | D]; [now rewrite G |].
    apply Same. apply in_app_or in I as [I | [I | []]]; [exact I | contradiction].
  - intros k' I. rewrite getOwn_setOwn.
    destruct (String.eqb_spec k k') as [<- | D].
    + exfalso. apply I, in_or_app. right. now left.
    + apply None_. intros J. apply I, in_or_app. now left.
  - now apply setOwn_enumerated.
  - rewrite filter_app, <- F. unfold setOwn. rewrite (None_ k Out).
    unfold createOwn. cbn [filter]. unfold nonIndex at 3.
    destruct (arrayIndex k) as [n |] eqn:K.
    + rewrite app_nil_r. now apply filter_insertIndex.
    + rewrite map_app, filter_app. cbn [map fst filter]. unfold nonIndex at 2.
      now rewrite K.
Qed.

Lemma Stored_fold (fields : list (string * value)) (names : list string) :
  forall (stored : list string) (o : Flattened),
    Stored fields stored o ->
    NoDup (stored ++ names) ->
    (forall k, In k names -> k <> "__proto__" /\ In k (map fst fields)) ->
    Stored fields (stored ++ names)
      (fold_left (fun sorted k =>
                    match getOwn k fields with
                    | Some x => assign k x sorted
                    | None => sorted
                    end) names o).
Proof.
  induction names as [| k names IH]; intros stored o S D H; cbn [fold_left].
  - now rewrite app_nil_r.
  - destruct (H k (or_introl eq_refl)) as [Name I].
    apply keys_getOwn in I as [x G]. rewrite G.
    assert (Out : ~ In k stored).
    { intros J. apply NoDup_remove_2 in D. apply D, in_or_app. now left. }
    replace (stored ++ k :: names)%list with ((stored ++ [k]) ++ names)%list
      by (now rewrite <- app_assoc).
    apply IH.
    + now apply Stored_step.
    + now rewrite <- app_assoc.
    + intros k' J. apply H. now right.
Qed.

(** X23: sortJsonKeys keeps every field of an object with its value. In
    the object it returns the names that are array indices come first, in
    the order of their numbers, and the other names follow in the order
    of the sort; the names are in the order of the sort throughout only
    when none of them is an array index. *)
Theorem X23_sortJsonKeys_orders_names_but_not_indices :
  forall (key : string) (fields : list (string * value)),
    NoDup (map fst fields) ->
    ~ In "__proto__" (map fst fields) ->
    exists result,
      JsonFormatter.sortJsonKeys key (VObj fields) = VObj result /\
      (forall k, getOwn k result = getOwn k fields) /\
      Enumerated (map fst result) /\
      filter nonIndex (map fst result) =
        filter nonIndex (JsonFormatter.sortKeys (map fst fields)) /\
      ((forall k, In k (map fst fields) -> arrayIndex k = None) ->
       map fst result = JsonFormatter.sortKeys (map fst fields)).
Proof.
  intros key fields D Name. eexists. split; [reflexivity |].
  pose proof (fun k => proj1 (sortKeys_In k (map fst fields))) as Back.
  pose proof (fun k => proj2 (sortKeys_In k (map fst fields))) as Forth.
  destruct (Stored_fold fields (JsonFormatter.sortKeys (map fst fields)) [] emptyObject)
    as (Same & None_ & E & F).
  - repeat split; try reflexivity. intros k [].
  - now apply sortKeys_NoDup.
  - intros k I. apply Back in I. split; [| exact I].
    intros ->. contradiction.
  - cbn [app] in Same, None_, F. split; [| split; [exact E | split; [exact F |]]].
    + intros k.
      destruct (in_dec string_dec k (JsonFormatter.sortKeys (map fst fields))) as [I | O].
      * now apply Same.
      * rewrite (None_ k O). symmetry.
        destruct (getOwn k fields) as [x |] eqn:G; [| reflexivity].
        exfalso. apply O, Forth. apply (proj2 (keys_getOwn _ k fields)). now exists x.
    + intros Plain.
      assert (All : forall l, (forall k, In k l -> arrayIndex k = None) ->
                              filter nonIndex l = l).
      { induction l as [| k l IHl]; intros P; cbn [filter]; [reflexivity |].
        unfold nonIndex at 1. rewrite (P k (or_introl eq_refl)).
        f_equal. apply IHl. intros k' I. apply P. now right. }
      match goal with
      | |- map fst ?o = _ => rewrite <- (All (map fst o)), F; [apply All |]
      end.
      * intros k I. apply Plain. now apply Back.
      * intros k I. apply Plain.
        apply (proj1 (keys_getOwn _ k _)) in I as [x G].
        destruct (in_dec string_dec k (JsonFormatter.sortKeys (map fst fields)))
          as [J | O]; [now apply Back |].
        rewrite (None_ k O) in G. discriminate.
Qed.

Lemma X23_sortJsonKeys_orders_names_but_not_indices_witness :
  exists result,
    JsonFormatter.sortJsonKeys "data"
      (VObj [("b", VNum 1); ("10", VNum 2); ("9", VNum 3); ("a", VNum 4)]) =
    VObj result /\
    map fst result = ["9"; "10"; "a"; "b"] /\
    JsonFormatter.sortKeys ["b"; "10"; "9"; "a"] = ["10"; "9"; "a"; "b"].
Proof.
  destruct (X23_sortJsonKeys_orders_names_but_not_indices "data"
              [("b", VNum 1); ("10", VNum 2); ("9", VNum 3); ("a", VNum 4)])
    as (result & R & _).
  - repeat constructor; simpl; intuition discriminate.
  - simpl. intuition discriminate.
  - exists result. split; [exact R |].
    vm_compute in R. injection R as <-. split; reflexivity.
Defined.

(* ================================================================== *)
(** ** When the nested, flat and array-based generations fail *)
(* ================================================================== *)

Lemma Fails_bind (A B : Type) (e : Error) (m : M A) (k : A -> M B) :
  Fails e m -> Fails e (bind m k).
Proof.
  intros F w. unfold bind. now rewrite (F w).
Qed.

Lemma Fails_after (A B : Type) (e : Error) (m : M A) (k : A -> M B) :
  Returns m -> (forall a, Fails e (k a)) -> Fails e (bind m k).
Proof.
  intros R F w. unfold bind. destruct (R w) as (a & w' & ->). apply F.
Qed.

Lemma Fails_lift (A : Type) (e : Error) : Fails e (lift (@inl Error A e)).
Proof.
  intros w. reflexivity.
Qed.

Lemma ReturnsOrFails_returns (A : Type) (e : Error) (m : M A) :
  Returns m -> ReturnsOrFails e m.
Proof.
  intros R w. left. apply R.
Qed.

Lemma ReturnsOrFails_fails (A : Type) (e : Error) (m : M A) :
  Fails e m -> ReturnsOrFails e m.
Proof.
  intros F w. right. apply F.
Qed.

Lemma ReturnsOrFails_bind (A B : Type) (e : Error) (m : M A) (k : A -> M B) :
  ReturnsOrFails e m -> (forall a, ReturnsOrFails e (k a)) ->
  ReturnsOrFails e (bind m k).
Proof.
  intros Rm Rk w. unfold bind. destruct (Rm w) as [(a & w' & ->) | ->].
  - apply Rk.
  - now right.
Qed.

(** Object.entries throws for null and undefined only, and with it
    flattenObject. *)
Lemma entries_outcome (item : option value) :
  (exists fields, entries item = inr fields) \/ entries item = inl cannotConvert.
Proof.
  destruct item as [[] |]; simpl; eauto.
Qed.

Lemma ReturnsOrFails_entries (item : option value) :
  ReturnsOrFails cannotConvert (lift (entries item)).
Proof.
  destruct (entries_outcome item) as [[fields ->] | ->]; intros w; simpl; eauto.
Qed.

Lemma ReturnsOrFails_flatten (sep : string) (item : option value) :
  ReturnsOrFails cannotConvert (lift (flattenObjectWith sep item)).
Proof.
  unfold flattenObjectWith, flattenObjectAt.
  destruct (entries_outcome item) as [[fields ->] | ->]; intros w; simpl; eauto.
Qed.

(** A loop whose callback throws [e] for one of the items, and returns
    or throws [e] for the others, throws [e]. *)
Lemma Fails_forEach (A : Type) (e : Error) (f : A -> nat -> M string) (l : list A)
      (x : A) :
  In x l ->
  (forall index, Fails e (f x index)) ->
  (forall y index, In y l -> ReturnsOrFails e (f y index)) ->
  forall index, Fails e (forEach f l index).
Proof.
  induction l as [| y l IH]; intros I F R index w; [contradiction |].
  cbn [forEach]. unfold bind at 1.
  destruct (R y index (or_introl eq_refl) w) as [(s & w1 & E) | E]; rewrite E;
    [| reflexivity].
  destruct I as [-> | I]; [rewrite (F index w) in E; discriminate |].
  unfold bind. rewrite (IH I F (fun z j J => R z j (or_intror J)) (S index) w1).
  reflexivity.
Qed.

Ltac returns_or_fails :=
  cbv beta;
  repeat match goal with
         | |- ReturnsOrFails _ (bind _ _) => apply ReturnsOrFails_bind; [| intro]
         | |- ReturnsOrFails _ (lift (entries _)) => apply ReturnsOrFails_entries
         | |- ReturnsOrFails _ (lift (flattenObjectWith _ _)) =>
             apply ReturnsOrFails_flatten
         | |- ReturnsOrFails _ _ => apply ReturnsOrFails_returns; solve [returns_tac]
         end.

(** The steps of a generator up to the one that throws: the loop over
    the documents, one of which is null, or Object.entries and
    flattenObject applied to null. *)
Ltac fails_step I :=
  cbv beta;
  match goal with
  | |- Fails _ (bind (forEach _ _ _) _) =>
      apply Fails_bind, (Fails_forEach _ _ _ _ _ I);
      [ intros ?; repeat fails_step I | intros ? ? ?; returns_or_fails ]
  | |- Fails _ (forEach _ _ _) =>
      apply (Fails_forEach _ _ _ _ _ I);
      [ intros ?; repeat fails_step I | intros ? ? ?; returns_or_fails ]
  | |- Fails _ (bind (lift _) _) => apply Fails_bind; intros ?; reflexivity
  | |- Fails _ (bind _ _) => apply Fails_after; [solve [returns_tac] | intro]
  | |- Fails _ (if ?c then _ else _) => destruct c
  end.

Ltac fails_all I := cbv zeta; repeat fails_step I.

Section NullDocument.
Variable jsonData : value.
Variable name : string.
Variable options : Options.
Hypothesis null : In VNull (dataArrayOf jsonData).

Lemma mongo_nested_fails :
  Fails cannotConvert (Mongo.generateNestedDocuments jsonData name options).
Proof.
  unfold Mongo.generateNestedDocuments, Mongo.idLine, Mongo.timestampLines.
  fails_all null.
Qed.

Lemma mongo_flat_fails :
  Fails cannotConvert (Mongo.generateFlatDocuments jsonData name options).
Proof.
  unfold Mongo.generateFlatDocuments, Mongo.idLine, Mongo.timestampLines,
    Mongo.flattenObject.
  fails_all null.
Qed.

Lemma mongo_arrays_fails :
  Fails cannotConvert (Mongo.generateArrayBasedDocuments jsonData name options).
Proof.
  unfold Mongo.generateArrayBasedDocuments, Mongo.idLine, Mongo.timestampLines.
  fails_all null.
Qed.

Lemma firebase_nested_fails :
  Fails cannotConvert (Firebase.generateNestedDocuments jsonData name options).
Proof.
  unfold Firebase.generateNestedDocuments, Firebase.openDocument.
  fails_all null.
Qed.

Lemma firebase_flat_fails :
  Fails cannotConvert (Firebase.generateFlatDocuments jsonData name options).
Proof.
  unfold Firebase.generateFlatDocuments, Firebase.openDocument, Firebase.flattenObject.
  fails_all null.
Qed.

Lemma firebase_arrays_fails :
  Fails cannotConvert (Firebase.generateArrayBasedDocuments jsonData name options).
Proof.
  unfold Firebase.generateArrayBasedDocuments, Firebase.openDocument.
  fails_all null.
Qed.

Lemma dynamo_nested_fails :
  Fails cannotConvert (Dynamo.generateNestedDocuments jsonData name options).
Proof.
  unfold Dynamo.generateNestedDocuments, Dynamo.idLine, Dynamo.sortKeyLine,
    Dynamo.timestampLines.
  fails_all null.
Qed.

Lemma dynamo_flat_fails :
  Fails cannotConvert (Dynamo.generateFlatDocuments jsonData name options).
Proof.
  unfold Dynamo.generateFlatDocuments, Dynamo.idLine, Dynamo.sortKeyLine,
    Dynamo.timestampLines, Dynamo.flattenObject.
  fails_all null.
Qed.

Lemma dynamo_arrays_fails :
  Fails cannotConvert (Dynamo.generateArrayBasedDocuments jsonData name options).
Proof.
  unfold Dynamo.generateArrayBasedDocuments, Dynamo.idLine, Dynamo.timestampLines.
  fails_all null.
Qed.

Lemma couch_arrays_fails :
  Fails cannotConvert (Couch.generateArrayBasedDocuments jsonData options).
Proof.
  unfold Couch.generateArrayBasedDocuments, Couch.idLine, Couch.timestampLines.
  fails_all null.
Qed.

End NullDocument.

(** With fewer than two documents, none or a null one, dataArray[0] is
    undefined or null. *)
Lemma first_document (docs : list value) :
  In VNull docs \/ docs = [] ->
  Nat.ltb 1 (length docs) = false ->
  nth_error docs 0 = None \/ nth_error docs 0 = Some VNull.
Proof.
  intros [I | ->] L; [| now left].
  destruct docs as [| x [| y docs]]; [contradiction | | discriminate].
  destruct I as [-> | []]. now right.
Qed.

Section NoDocument.
Variable jsonData : value.
Variable options : Options.
Hypothesis none : In VNull (dataArrayOf jsonData) \/ dataArrayOf jsonData = [].

Lemma couch_nested_fails :
  Fails cannotConvert (Couch.generateNestedDocuments jsonData options).
Proof.
  unfold Couch.generateNestedDocuments. cbv zeta. apply Fails_bind.
  destruct (Nat.ltb 1 (length (dataArrayOf jsonData))) eqn:L.
  - destruct none as [null | E]; [| rewrite E in L; discriminate].
    unfold Couch.bulkDocuments, Couch.idLine, Couch.timestampLines.
    fails_all null.
  - apply Fails_bind. unfold Couch.singleDocument. cbv zeta. apply Fails_bind.
    destruct (first_document _ none L) as [-> | ->]; intros w; reflexivity.
Qed.

Lemma couch_flat_fails :
  Fails cannotConvert (Couch.generateFlatDocuments jsonData options).
Proof.
  unfold Couch.generateFlatDocuments. cbv zeta. apply Fails_bind.
  destruct (Nat.ltb 1 (length (dataArrayOf jsonData))) eqn:L.
  - destruct none as [null | E]; [| rewrite E in L; discriminate].
    unfold Couch.bulkDocuments, Couch.idLine, Couch.timestampLines,
      Couch.flattenObject.
    fails_all null.
  - apply Fails_bind. unfold Couch.singleDocument. cbv zeta. apply Fails_bind.
    destruct (first_document _ none L) as [-> | ->]; intros w; reflexivity.
Qed.

End NoDocument.

(** A null document, or none where dataArray[0] is read, makes them
    throw the TypeError of Object.entries. *)
Lemma documents_fail (b : Backend) (jsonData : value) (structure : string)
      (options : Options) :
  falsy jsonData = false -> structure <> EmptyString ->
  structureOf structure <> References ->
  In VNull (dataArrayOf jsonData) \/
  (readsFirstDocument b (structureOf structure) = true /\ dataArrayOf jsonData = []) ->
  Fails cannotConvert (generateNoSQL jsonData (backendName b) structure options).
Proof.
  intros T S R H.
  assert (A : isArray jsonData = true).
  { destruct jsonData; try reflexivity; simpl in H;
      destruct H as [[E | []] | [_ E]]; discriminate. }
  unfold generateNoSQL. rewrite T.
  destruct (String.eqb_spec structure EmptyString) as [E | _]; [contradiction |].
  destruct b; cbn [backendName String.eqb Ascii.eqb Bool.eqb].
  - destruct H as [null | [F _]];
      [| destruct (structureOf structure); discriminate].
    unfold Mongo.generateMongoDBDocuments, Mongo.collectionNameOf. rewrite A.
    apply Fails_after; [apply (Returns_lift _ _ _ eq_refl) | intros name].
    apply Fails_bind. destruct (structureOf structure); [| | contradiction |].
    + now apply mongo_nested_fails.
    + now apply mongo_flat_fails.
    + now apply mongo_arrays_fails.
  - destruct H as [null | [F _]];
      [| destruct (structureOf structure); discriminate].
    unfold Firebase.generateFirebaseDocuments, Firebase.collectionNameOf. rewrite A.
    apply Fails_after; [apply (Returns_lift _ _ _ eq_refl) | intros name].
    apply Fails_bind. destruct (structureOf structure); [| | contradiction |].
    + now apply firebase_nested_fails.
    + now apply firebase_flat_fails.
    + now apply firebase_arrays_fails.
  - destruct H as [null | [F _]];
      [| destruct (structureOf structure); discriminate].
    unfold Dynamo.generateDynamoDBDocuments, Dynamo.tableNameOf. rewrite A.
    apply Fails_after; [apply (Returns_lift _ _ _ eq_refl) | intros name].
    apply Fails_bind. destruct (structureOf structure); [| | contradiction |].
    + now apply dynamo_nested_fails.
    + now apply dynamo_flat_fails.
    + now apply dynamo_arrays_fails.
  - unfold Couch.generateCouchDBDocuments. apply Fails_bind.
    destruct (structureOf structure); [| | contradiction |].
    + apply couch_nested_fails. destruct H as [null | [_ E]]; [now left | now right].
    + apply couch_flat_fails. destruct H as [null | [_ E]]; [now left | now right].
    + destruct H as [null | [F _]]; [| discriminate].
      now apply couch_arrays_fails.
Qed.

(** X24: under the nested, flat and array-based policies a generation
    fails for one reason only, the TypeError that Object.entries throws
    for null and undefined. It throws it when a document of the input is
    null, and, in the nested and flat generators of CouchDB, when there
    is no document; in every other case it returns. *)
Theorem X24_only_null_documents_make_generation_fail :
  forall (b : Backend) (jsonData : value) (structure : string) (options : Options),
    falsy jsonData = false -> structure <> EmptyString ->
    structureOf structure <> References ->
    (In VNull (dataArrayOf jsonData) \/
     (readsFirstDocument b (structureOf structure) = true /\
      dataArrayOf jsonData = []) ->
     forall w, generateNoSQL jsonData (backendName b) structure options w =
               Throw cannotConvert) /\
    (~ In VNull (dataArrayOf jsonData) ->
     (readsFirstDocument b (structureOf structure) = true ->
      dataArrayOf jsonData <> []) ->
     forall w, exists out w',
       generateNoSQL jsonData (backendName b) structure options w = Return out w').
Proof.
  intros b jsonData structure options T S R. split.
  - intros H. now apply documents_fail.
  - intros N First. now apply documents_return.
Qed.

Lemma X24_only_null_documents_make_generation_fail_witness :
  generateNoSQL (VArr [sampleDocument; VNull]) "dynamodb" "flat" allFlags exampleWorld =
    Throw cannotConvert /\
  exists out w',
    generateNoSQL (VArr [sampleDocument]) "couchdb" "nested" allFlags exampleWorld =
      Return out w'.
Proof.
  split.
  - apply (X24_only_null_documents_make_generation_fail DynamoDB
             (VArr [sampleDocument; VNull]) "flat" allFlags eq_refl).
    + discriminate.
    + discriminate.
    + left. right. now left.
  - apply (X24_only_null_documents_make_generation_fail CouchDB
             (VArr [sampleDocument]) "nested" allFlags eq_refl).
    + discriminate.
    + discriminate.
    + simpl. intuition discriminate.
    + discriminate.
Defined.

(* ================================================================== *)
(** ** jsonFormatter.js: a key repeated in the text *)
(* ================================================================== *)

Lemma matches_key (key ws after : string) (position line : nat) :
  plainKey key = true -> blank ws = true ->
  JsonFormatter.matches (dq ++ key ++ dq ++ ws ++ ":" ++ after) position line 0 =
  (key, (line, position)) ::
  JsonFormatter.matches (key ++ dq ++ ws ++ ":" ++ after) (S position) line
    (String.length key + 1).
Proof.
  intros P B. unfold plainKey in P. apply andb_true_iff in P as [Q N].
  change (dq ++ key ++ dq ++ ws ++ ":" ++ after)
    with (String dqc (key ++ dq ++ ws ++ ":" ++ after)).
  cbn [JsonFormatter.matches].
  assert (K : JsonFormatter.keyAt (String dqc (key ++ dq ++ ws ++ ":" ++ after)) =
              Some key).
  { unfold JsonFormatter.keyAt. rewrite Ascii.eqb_refl, (untilQuote_key _ _ Q).
    destruct key; [discriminate |]. now rewrite (colonAhead_blank _ _ B). }
  rewrite K. reflexivity.
Qed.

Lemma foldE_app (A St : Type) (f : A -> St -> Error + St) (l1 l2 : list A) :
  forall s, foldE f (l1 ++ l2) s = bindE (foldE f l1 s) (foldE f l2).
Proof.
  induction l1 as [| x l1 IH]; intros s; simpl; [reflexivity |].
  destruct (f x s) as [e | s1]; simpl; [reflexivity | apply IH].
Qed.

Lemma pushAll_counts (name : string) (x : value) (s s' : Store) :
  pushAll name [x] s = inr s' ->
  AtLeast name 1 s' /\ forall n, AtLeast name n s -> AtLeast name (S n) s'.
Proof.
  intros E. split.
  - destruct (pushAll_appends _ _ _ _ E) as [old G].
    exists (old ++ [x])%list. split; [exact G |]. rewrite length_app. simpl. lia.
  - intros n (items & G & L). unfold pushAll in E. rewrite G in E.
    injection E as <-. exists (items ++ [x])%list. simpl. split.
    + now rewrite getOwn_replaceOwn, String.eqb_refl, G.
    + rewrite length_app. simpl. lia.
Qed.

Lemma AtLeast_grows (name : string) (n : nat) (s s' : Store) :
  Grows s s' -> AtLeast name n s -> AtLeast name n s'.
Proof.
  intros G (items & E & L). destruct (G _ _ E) as [extra E'].
  exists (items ++ extra)%list. split; [exact E' |]. rewrite length_app. lia.
Qed.

Lemma pushes_grow (A : Type) (f : A -> string) (g : A -> list value) (l : list A) :
  forall s s', foldE (fun m keys => pushAll (f m) (g m) keys) l s = inr s' ->
               Grows s s'.
Proof.
  apply (foldE_related Grows Grows_refl Grows_trans).
  intros x s s' _. apply pushAll_grows.
Qed.

(** An issue, once pushed, stays, and with it the mark. *)
Lemma reported_stays (entries : list (string * list value)) :
  forall v,
    (JsonFormatter.valid v = false ->
     JsonFormatter.valid (fold_left JsonFormatter.reportDuplicate entries v) = false) /\
    (forall issue, In issue (JsonFormatter.issues v) ->
       In issue (JsonFormatter.issues
                   (fold_left JsonFormatter.reportDuplicate entries v))).
Proof.
  induction entries as [| [key items] entries IH]; intros v; cbn [fold_left];
    [now split |].
  destruct (IH (JsonFormatter.reportDuplicate v (key, items))) as [V I].
  unfold JsonFormatter.reportDuplicate in *.
  destruct (Nat.ltb 1 (length items)); split; auto.
  intros issue J. apply I. simpl. apply in_or_app. now left.
Qed.

Lemma duplicate_reported (entries : list (string * list value)) (key : string)
      (items : list value) :
  In (key, items) entries -> 2 <= length items ->
  forall v,
    JsonFormatter.valid (fold_left JsonFormatter.reportDuplicate entries v) = false /\
    In (VObj [("type", VStr "duplicateKey"); ("key", VStr key);
              ("occurrences", VArr items);
              ("message",
               VStr ("Duplicate key " ++ dq ++ key ++ dq ++ " found at lines " ++
                     join ", " (map JsonFormatter.lineOf items)))])
       (JsonFormatter.issues (fold_left JsonFormatter.reportDuplicate entries v)).
Proof.
  induction entries as [| entry entries IH]; intros I L v; [contradiction |].
  cbn [fold_left]. destruct I as [-> | I]; [| now apply IH].
  destruct (reported_stays entries (JsonFormatter.reportDuplicate v (key, items)))
    as [V J].
  unfold JsonFormatter.reportDuplicate in *.
  assert (T : Nat.ltb 1 (length items) = true) by (apply Nat.ltb_lt; lia).
  rewrite T in *. split; [now apply V |].
  apply J. simpl. apply in_or_app. right. now left.
Qed.

(** X25: checkDuplicateKeys counts the keys of the text, not those of
    an object: when a key occurs twice in the text, each time in double
    quotes and followed by white space and a colon, and validateJson
    returns, it returns an object marked invalid that holds a
    duplicateKey issue for that key. The two occurrences may belong to
    two objects, as in an array of two documents with the same field. *)
Theorem X25_key_repeated_in_the_text_is_a_duplicate :
  forall (before key ws1 middle ws2 after : string) (jsonData : value)
         (validation : JsonFormatter.Validation),
    plainKey key = true -> blank ws1 = true -> blank ws2 = true ->
    JsonFormatter.validateJson
      (Some (before ++ dq ++ key ++ dq ++ ws1 ++ ":" ++
             middle ++ dq ++ key ++ dq ++ ws2 ++ ":" ++ after)) jsonData =
      inr validation ->
    JsonFormatter.valid validation = false /\
    exists occurrences,
      2 <= length occurrences /\
      In (VObj [("type", VStr "duplicateKey"); ("key", VStr key);
                ("occurrences", VArr occurrences);
                ("message",
                 VStr ("Duplicate key " ++ dq ++ key ++ dq ++ " found at lines " ++
                       join ", " (map JsonFormatter.lineOf occurrences)))])
         (JsonFormatter.issues validation).
Proof.
  intros before key ws1 middle ws2 after jsonData validation P B1 B2.
  set (text := before ++ dq ++ key ++ dq ++ ws1 ++ ":" ++
               middle ++ dq ++ key ++ dq ++ ws2 ++ ":" ++ after).
  assert (T : truthyOpt (Some text) = true) by (unfold text; destruct before; reflexivity).
  assert (O : orElse (Some text) EmptyString = text)
    by (unfold text; destruct before; reflexivity).
  unfold JsonFormatter.validateJson. cbv zeta. rewrite T, O. clear T O.
  unfold JsonFormatter.checkDuplicateKeys.
  destruct (matches_before key (dq ++ ws1 ++ ":" ++ middle ++ dq ++ key ++ dq ++ ws2 ++ ":" ++ after) P before 0 1 0 (Nat.le_0_l _))
    as (found1 & line1 & E1).
  destruct (matches_before key (dq ++ ws2 ++ ":" ++ after) P (key ++ dq ++ ws1 ++ ":" ++ middle)
              (S (0 + String.length before)) line1 (String.length key + 1))
    as (found2 & line2 & E2).
  { rewrite !length_append. simpl. lia. }
  rewrite (matches_key key ws1 (middle ++ dq ++ key ++ dq ++ ws2 ++ ":" ++ after)
             _ _ P B1) in E1.
  rewrite (matches_key key ws2 after _ _ P B2) in E2.
  rewrite !append_assoc in E2. rewrite E2 in E1. unfold text. rewrite E1.
  clear E1 E2.
  match goal with
  | |- context [foldE ?f ?l newStore] =>
      destruct (foldE f l newStore) as [e | keys] eqn:F; [discriminate |]
  end.
  intros V. injection V as <-.
  assert (A : AtLeast key 2 keys).
  { rewrite foldE_app in F. apply bindE_inr_inv in F as (s1 & _ & F).
    cbn [foldE] in F. apply bindE_inr_inv in F as (s2 & F2 & F).
    rewrite foldE_app in F. apply bindE_inr_inv in F as (s3 & F3 & F).
    cbn [foldE] in F. apply bindE_inr_inv in F as (s4 & F4 & F).
    apply (AtLeast_grows _ _ s4); [exact (pushes_grow _ _ _ _ _ _ F) |].
    apply (proj2 (pushAll_counts _ _ _ _ F4)).
    apply (AtLeast_grows _ _ s2); [exact (pushes_grow _ _ _ _ _ _ F3) |].
    exact (proj1 (pushAll_counts _ _ _ _ F2)). }
  destruct A as (occurrences & G & L). apply getOwn_In in G.
  destruct (duplicate_reported (members keys) key occurrences G L
              (JsonFormatter.checkLargeArrays jsonData EmptyString
                 (JsonFormatter.checkNestingDepth jsonData EmptyString 0
                    (JsonFormatter.checkArrayConsistency jsonData EmptyString
                       (JsonFormatter.checkEmptyCollections jsonData EmptyString
                          JsonFormatter.newValidation))))) as [Vf I].
  split; [exact Vf |]. exists occurrences. split; [exact L | exact I].
Qed.

Lemma X25_key_repeated_in_the_text_is_a_duplicate_witness :
  exists validation,
    JsonFormatter.validateJson
      (Some ("[{" ++ dq ++ "a" ++ dq ++ ":1},{" ++ dq ++ "a" ++ dq ++ ":2}]"))
      (VArr [VObj [("a", VNum 1)]; VObj [("a", VNum 2)]]) = inr validation /\
    JsonFormatter.valid validation = false.
Proof.
  destruct (JsonFormatter.validateJson
              (Some ("[{" ++ dq ++ "a" ++ dq ++ ":1},{" ++ dq ++ "a" ++ dq ++ ":2}]"))
              (VArr [VObj [("a", VNum 1)]; VObj [("a", VNum 2)]]))
    as [e | validation] eqn:V; [vm_compute in V; discriminate |].
  exists validation. split; [reflexivity |].
  apply (X25_key_repeated_in_the_text_is_a_duplicate "[{" "a" "" "1},{" "" "2}]"
           (VArr [VObj [("a", VNum 1)]; VObj [("a", VNum 2)]]) validation
           eq_refl eq_refl eq_refl V).
Defined.

(* ================================================================== *)
(** ** jsonFormatter.js: what calculateJsonMetrics counts *)
(* ================================================================== *)

Lemma Tallied_nil (m : JsonFormatter.Metadata) : Tallied [] m m.
Proof.
  unfold Tallied. cbn [fold_right]. repeat split; lia.
Qed.

Lemma Tallied_cons (x : value) (l : list value) (a b c : JsonFormatter.Metadata) :
  Tallied [x] a b -> Tallied l b c -> Tallied (x :: l) a c.
Proof.
  unfold Tallied. cbn [fold_right].
  intros (N1 & K1 & A1 & O1 & S1 & U1 & B1 & L1) (N2 & K2 & A2 & O2 & S2 & U2 & B2 & L2).
  repeat split; lia.
Qed.

Lemma Tallied_fold (A : Type) (f : JsonFormatter.Metadata -> A -> JsonFormatter.Metadata)
      (g : A -> value) (l : list A) :
  (forall x m, In x l -> Tallied [g x] m (f m x)) ->
  forall m, Tallied (map g l) m (fold_left f l m).
Proof.
  induction l as [| x l IH]; intros H m; cbn [map fold_left].
  - apply Tallied_nil.
  - apply Tallied_cons with (f m x); [apply H; now left |].
    apply IH. intros y a I. apply H. now right.
Qed.

Lemma fold_right_map (A : Type) (g : A -> value) (count : value -> nat) (l : list A) :
  fold_right (fun x acc => count x + acc) 0 (map g l) =
  fold_right (fun x acc => count (g x) + acc) 0 l.
Proof.
  induction l as [| x l IH]; cbn [map fold_right]; [reflexivity | now rewrite IH].
Qed.

Lemma calculateJsonMetrics_tallied (data : value) :
  forall m level,
    Tallied [data] m (JsonFormatter.calculateJsonMetrics data m level).
Proof.
  induction data as [| b | n | t | iso | items H | fields H] using value_nested_ind;
    intros m level;
    try (unfold Tallied; destruct m as [s nc d ac oc kc [a1 a2 a3 a4 a5 a6]];
         simpl; repeat split; lia).
  - rewrite Forall_forall in H. cbn [JsonFormatter.calculateJsonMetrics].
    pose proof (Tallied_fold _
                  (fun acc item => JsonFormatter.calculateJsonMetrics item acc (level + 1))
                  (fun x => x) items (fun x a I => H x I a (level + 1))
                  (JsonFormatter.countArray (JsonFormatter.countNode level m))) as T.
    rewrite map_id in T. unfold Tallied in *. cbn [fold_right countNodes countKeys].
    destruct T as (N1 & K1 & A1 & O1 & S1 & U1 & B1 & L1).
    destruct m as [s nc d ac oc kc [a1 a2 a3 a4 a5 a6]]; simpl in *.
    repeat split; lia.
  - rewrite Forall_forall in H. cbn [JsonFormatter.calculateJsonMetrics].
    pose proof (Tallied_fold _
                  (fun acc kv =>
                     JsonFormatter.calculateJsonMetrics (snd kv) acc (level + 1))
                  snd fields (fun x a I => H x I a (level + 1))
                  (JsonFormatter.countObject (length fields)
                     (JsonFormatter.countNode level m))) as T.
    unfold Tallied in *. cbn [fold_right countNodes countKeys].
    rewrite !fold_right_map in T.
    destruct T as (N1 & K1 & A1 & O1 & S1 & U1 & B1 & L1).
    destruct m as [s nc d ac oc kc [a1 a2 a3 a4 a5 a6]]; simpl in *.
    repeat split; lia.
Qed.

(** X26: on the metadata object that generateJsonMetadata prepares,
    calculateJsonMetrics leaves in nodeCount the number of the nodes of
    the data, in keyCount the number of the fields of all its objects, in
    arrayCount and objectCount the numbers of its arrays and of its
    objects, and in the counters of valueTypes the numbers of its
    strings, numbers, booleans and nulls. *)
Theorem X26_metrics_are_the_counts_of_the_tree :
  forall (data : value) (bytes : nat),
    let m := JsonFormatter.calculateJsonMetrics data (JsonFormatter.newMetadata bytes) 0 in
    JsonFormatter.nodeCount m = countNodes (fun _ => true) data /\
    JsonFormatter.keyCount m = countKeys data /\
    JsonFormatter.arrayCount m = countNodes isArray data /\
    JsonFormatter.objectCount m = countNodes isPlainObject data /\
    JsonFormatter.strings (JsonFormatter.valueTypes m) = countNodes isString data /\
    JsonFormatter.numbers (JsonFormatter.valueTypes m) = countNodes isNumber data /\
    JsonFormatter.booleans (JsonFormatter.valueTypes m) = countNodes isBoolean data /\
    JsonFormatter.nulls (JsonFormatter.valueTypes m) = countNodes isNull data.
Proof.
  intros data bytes m.
  destruct (calculateJsonMetrics_tallied data (JsonFormatter.newMetadata bytes) 0)
    as (N & K & A & O & S & U & B & L).
  fold m in N, K, A, O, S, U, B, L. cbn [fold_right] in *. simpl in *.
  repeat split; lia.
Qed.

(* ================================================================== *)
(** ** DynamoDB: the identifiers written when addIds is off *)
(* ================================================================== *)

Lemma forEach_nth (A : Type) (f : A -> nat -> M string) (l : list A) :
  forall index w out w',
    forEach f l index w = Return out w' ->
    forall i x, nth_error l i = Some x ->
      exists w1 s w2, f x (index + i) w1 = Return s w2 /\ Substring out s.
Proof.
  induction l as [| y l IH]; intros index w out w' H i x N;
    [destruct i; discriminate |].
  cbn [forEach] in H.
  apply bind_Return in H as (s & w1 & Hs & H).
  apply bind_Return in H as (rest & w2 & Hrest & H).
  apply ret_Return in H as [-> ->].
  destruct i as [| i]; cbn [nth_error] in N.
  - injection N as <-. exists w, s, w1. rewrite Nat.add_0_r.
    split; [exact Hs | apply substring_app_l, substring_refl].
  - destruct (IH _ _ _ _ Hrest i x N) as (wa & t & wb & Ht & St).
    exists wa, t, wb. rewrite Nat.add_succ_r. split; [exact Ht |].
    now apply substring_app_r.
Qed.

(** The text of the items holds the identifier line of the item at [i]. *)
Ltac item_id i Ids :=
  match goal with
  | Hd : forEach _ ?l _ _ = Return ?items _, N : nth_error ?l i = Some _ |- _ =>
      let t := fresh "t" in
      let Ht := fresh "Ht" in
      let St := fresh "St" in
      destruct (forEach_nth _ _ _ _ _ _ _ Hd _ _ N) as (? & t & ? & Ht & St);
      cbv beta in Ht; unfold Dynamo.idLine in Ht; rewrite Ids in Ht;
      open_binds Ht;
      repeat match goal with
             | Hr : ret _ _ = Return _ _ |- _ => apply ret_Return in Hr as [-> _]
             end;
      reach items; eapply substring_trans; [exact St |]
  end.

(** Walks the text of an item down to its identifier line. *)
Ltac id_line :=
  cbn [Nat.add];
  repeat match goal with
         | |- Substring ((_ ++ "id: " ++ _) ++ _) _ => fail 1
         | |- Substring (_ ++ _) _ => apply substring_app_r
         end;
  apply substring_app_l, substring_app_r, substring_refl.

Lemma dynamo_positional_ids (jsonData : value) (name : string) (options : Options)
      (s : Structure) (w w' : World) (body : string) (i : nat) (x : value) :
  addIds options = false -> s <> References ->
  match s with
  | Nested => Dynamo.generateNestedDocuments jsonData name options
  | Flat => Dynamo.generateFlatDocuments jsonData name options
  | References => Dynamo.generateReferencedDocuments jsonData name options
  | Arrays => Dynamo.generateArrayBasedDocuments jsonData name options
  end w = Return body w' ->
  nth_error (dataArrayOf jsonData) i = Some x ->
  Substring body ("id: " ++ dq ++ positionalId s i ++ dq ++ "," ++ nl).
Proof.
  intros Ids R G N. destruct s; [| | contradiction |]; cbn [positionalId].
  - unfold Dynamo.generateNestedDocuments in G. cbv zeta in G.
    destruct (Nat.leb (length (dataArrayOf jsonData)) 25);
      open_binds G; item_id i Ids; id_line.
  - unfold Dynamo.generateFlatDocuments in G. cbv zeta in G.
    open_binds G. item_id i Ids. id_line.
  - unfold Dynamo.generateArrayBasedDocuments in G. cbv zeta in G.
    open_binds G. item_id i Ids. id_line.
Qed.

(** X27: a DynamoDB item always gets an id. With addIds off, under the
    nested, flat and array-based policies, the identifier written for a
    document is its position in the input, counted from 1 (item-1,
    item-2 and so on for the items of the array-based structure): it
    does not depend on the document. *)
Theorem X27_dynamo_ids_are_positions_without_addIds :
  forall (jsonData : value) (structure : string) (options : Options)
         (w w' : World) (out : string) (i : nat),
    addIds options = false ->
    structureOf structure <> References ->
    generateNoSQL jsonData "dynamodb" structure options w = Return out w' ->
    i < length (dataArrayOf jsonData) ->
    Substring out
      ("id: " ++ dq ++ positionalId (structureOf structure) i ++ dq ++ "," ++ nl).
Proof.
  intros jsonData structure options w w' out i Ids R G L.
  destruct (nth_error (dataArrayOf jsonData) i) as [x |] eqn:N;
    [| apply nth_error_None in N; lia].
  unfold generateNoSQL in G. destruct (falsy jsonData); [discriminate |].
  cbn [String.eqb Ascii.eqb Bool.eqb] in G.
  destruct (String.eqb structure EmptyString); [discriminate |].
  unfold Dynamo.generateDynamoDBDocuments in G.
  apply bind_Return in G as (name & w1 & Hn & G).
  apply bind_Return in G as (body & w2 & Hb & G).
  apply bind_Return in G as (indexes & w3 & Hi & G).
  apply ret_Return in G as [-> _].
  apply substring_app_r, substring_app_l.
  exact (dynamo_positional_ids jsonData name options (structureOf structure)
           w1 w2 body i x Ids R Hb N).
Qed.

Lemma X27_dynamo_ids_are_positions_without_addIds_witness :
  exists out w',
    generateNoSQL (VArr [sampleDocument; VObj []]) "dynamodb" "arrays" noOptions
      exampleWorld = Return out w' /\
    Substring out ("id: " ++ dq ++ "item-2" ++ dq ++ "," ++ nl).
Proof.
  destruct (generateNoSQL (VArr [sampleDocument; VObj []]) "dynamodb" "arrays"
              noOptions exampleWorld) as [out w' | e] eqn:G;
    [| vm_compute in G; discriminate].
  exists out, w'. split; [reflexivity |].
  apply (X27_dynamo_ids_are_positions_without_addIds (VArr [sampleDocument; VObj []])
           "arrays" noOptions exampleWorld w' out 1 eq_refl).
  - discriminate.
  - exact G.
  - simpl. lia.
Defined.
